(** * VScanner: the scanner strategies and the JSON reporter

    A shallow embedding of [core/base_scanner.py], [core/config.py],
    [scanners/*.py], the report generator of [core/reporter.py] and the
    validation and choice of scanners of [main.py], together with the
    parts of the Python runtime they call ([str] methods, [urllib.parse],
    [requests], [json]).

    Python [str] is [string]; a [dict] is an association list in insertion
    order with pairwise distinct keys; [int] is [Z].  Code that performs
    HTTP requests, raises or mutates [self.vulnerabilities] lives in a
    state-and-exception monad over an explicit store of list objects.
    The HTTP client is a parameter: a request is answered, fails with a
    [RequestException], which the scanners catch, or fails with an
    exception of another class, which leaves the scan.  The report
    generator runs over a clock, a file system and a console that may
    each refuse what is asked of them. *)

From Stdlib Require Import String Ascii List ZArith Lia Bool Arith.
From Stdlib Require Import DecimalString.
Import ListNotations.

Local Open Scope string_scope.
Local Open Scope list_scope.

(* ================================================================= *)
(** ** Python [str] operations *)

Module PyStr.

(** [needle in hay] *)
Fixpoint contains (needle hay : string) : bool :=
  prefix needle hay ||
  match hay with
  | EmptyString => false
  | String _ hay' => contains needle hay'
  end.

(** [s.find(sub)], with [None] for [-1] *)
Definition find (sub s : string) : option nat := index 0 sub s.

(** [s[i:]] *)
Definition from (i : nat) (s : string) : string :=
  substring i (String.length s - i) s.

(** [s[:i]] *)
Definition upto (i : nat) (s : string) : string := substring 0 i s.

(** [s.split(sep, 1)] for a non-empty [sep]: the text before the first
    occurrence and, when there is one, the text after it. *)
Definition split1 (sep s : string) : string * option string :=
  match find sep s with
  | Some i => (upto i s, Some (from (i + String.length sep) s))
  | None => (s, None)
  end.

(** [s.split(sep)] for a non-empty [sep]: [skip] counts the characters of
    a separator still to be passed over, [cur] is the field being read. *)
Fixpoint split_aux (sep : string) (skip : nat) (cur s : string)
  : list string :=
  match s with
  | EmptyString => [cur]
  | String c s' =>
      match skip with
      | S n => split_aux sep n cur s'
      | O =>
          if prefix sep s
          then cur :: split_aux sep (String.length sep - 1) EmptyString s'
          else split_aux sep 0 (cur ++ String c EmptyString)%string s'
      end
  end.

Definition split (sep s : string) : list string :=
  split_aux sep 0 EmptyString s.

Definition char_map (f : ascii -> ascii) : string -> string :=
  fix go s :=
    match s with
    | EmptyString => EmptyString
    | String c s' => String (f c) (go s')
    end.

Definition char_filter (keep : ascii -> bool) : string -> string :=
  fix go s :=
    match s with
    | EmptyString => EmptyString
    | String c s' => if keep c then String c (go s') else go s'
    end.

Definition char_in (c : ascii) (chars : string) : bool :=
  existsb (Ascii.eqb c) (list_ascii_of_string chars).

Definition is_upper (c : ascii) : bool :=
  let n := nat_of_ascii c in (65 <=? n)%nat && (n <=? 90)%nat.

Definition is_lower (c : ascii) : bool :=
  let n := nat_of_ascii c in (97 <=? n)%nat && (n <=? 122)%nat.

Definition is_digit (c : ascii) : bool :=
  let n := nat_of_ascii c in (48 <=? n)%nat && (n <=? 57)%nat.

Definition is_alpha (c : ascii) : bool := is_upper c || is_lower c.

Definition lower_char (c : ascii) : ascii :=
  if is_upper c then ascii_of_nat (nat_of_ascii c + 32) else c.

(** [s.lower()] *)
Definition lower : string -> string := char_map lower_char.

(** [s.replace(old, new)] for one-character [old] and [new] *)
Definition replace_char (old new : ascii) : string -> string :=
  char_map (fun c => if Ascii.eqb c old then new else c).

(** [s.replace(old, "")] for a one-character [old] *)
Definition remove_char (old : ascii) : string -> string :=
  char_filter (fun c => negb (Ascii.eqb c old)).

(** [s.lstrip(chars)] *)
Fixpoint lstrip (chars : ascii -> bool) (s : string) : string :=
  match s with
  | EmptyString => EmptyString
  | String c s' => if chars c then lstrip chars s' else s
  end.

(** [sep.join(parts)] *)
Fixpoint join (sep : string) (parts : list string) : string :=
  match parts with
  | [] => EmptyString
  | [p] => p
  | p :: ps => (p ++ sep ++ join sep ps)%string
  end.

(** [c * n] *)
Fixpoint repeat (s : string) (n : nat) : string :=
  match n with
  | O => EmptyString
  | S n' => (s ++ repeat s n')%string
  end.

(** [str(n)] / [int.__repr__] *)
Definition of_int (z : Z) : string := NilEmpty.string_of_int (Z.to_int z).

Definition LF : ascii := ascii_of_nat 10.
Definition CR : ascii := ascii_of_nat 13.
Definition TAB : ascii := ascii_of_nat 9.

(** the one-character string holding a double quote *)
Definition DQ : string := String (ascii_of_nat 34) EmptyString.

End PyStr.

(* ================================================================= *)
(** ** Python [dict] with [str] keys, in insertion order *)

Module PyDict.

Definition dict (V : Type) : Type := list (string * V).

Definition keys {V} (d : dict V) : list string := map fst d.

(** [k in d] *)
Definition mem {V} (k : string) (d : dict V) : bool :=
  existsb (String.eqb k) (keys d).

(** [d.get(k)] *)
Fixpoint get {V} (d : dict V) (k : string) : option V :=
  match d with
  | [] => None
  | (k', v) :: d' => if String.eqb k k' then Some v else get d' k
  end.

(** [d[k] = v]: an existing key keeps its position, a new one goes last *)
Fixpoint set {V} (d : dict V) (k : string) (v : V) : dict V :=
  match d with
  | [] => [(k, v)]
  | (k', v') :: d' =>
      if String.eqb k k' then (k', v) :: d' else (k', v') :: set d' k v
  end.

(** every key occurs once *)
Definition wf {V} (d : dict V) : Prop := NoDup (keys d).

End PyDict.

Import PyDict.

(* ================================================================= *)
(** ** Exceptions *)

(** The exception classes the code can meet.  [RequestException] stands
    for [requests.exceptions.RequestException] and its subclasses, the one
    class the scanners catch.  [ValueError] comes from [urllib.parse], and
    from the HTTP client when the timeout is not positive; [KeyError] and
    [IndexError] from subscripting; [OSError] from [os.makedirs] and
    [open]; [MarkupError] from the console of [rich].  [OtherException]
    is any other class that is not a [RequestException]. *)
Inductive exn : Type :=
| RequestException
| ValueError
| KeyError
| IndexError
| OSError
| MarkupError
| OtherException (class_name : string).

Inductive outcome (A : Type) : Type :=
| Ret (a : A)
| Raise (e : exn).

Arguments Ret {A} a.
Arguments Raise {A} e.

(* ================================================================= *)
(** ** [urllib.parse] *)

Module Urllib.

Record SplitResult : Type := {
  scheme : string;
  netloc : string;
  path : string;
  query : string;
  fragment : string
}.

(** [_WHATWG_C0_CONTROL_OR_SPACE] *)
Definition c0_control_or_space (c : ascii) : bool :=
  (nat_of_ascii c <=? 32)%nat.

Definition scheme_chars : string :=
  "abcdefghijklmnopqrstuvwxyzABCDEFGHIJKLMNOPQRSTUVWXYZ0123456789+-.".

Definition all_chars (p : ascii -> bool) (s : string) : bool :=
  forallb p (list_ascii_of_string s).

(** [url.find(c, start)] *)
Definition find_from (c : string) (start : nat) (url : string)
  : option nat := index start c url.

(** [_splitnetloc(url, start)] *)
Definition splitnetloc (url : string) (start : nat) : string * string :=
  let delim :=
    fold_left
      (fun delim c =>
         match find_from c start url with
         | Some wdelim => Nat.min delim wdelim
         | None => delim
         end)
      ["/"; "?"; "#"] (String.length url) in
  (substring start (delim - start) url, PyStr.from delim url).

Section Parse.

(** The two validations of a network location that [urlsplit] delegates
    to [ipaddress] and [unicodedata]; [true] when no [ValueError] is
    raised. *)
Variable check_bracketed_netloc : string -> bool.
Variable checknetloc : string -> bool.

(** [urllib.parse.unquote] (percent-decoding, then UTF-8 decoding with
    replacement). *)
Variable unquote : string -> string.

(** [urlsplit(url)]; [urlparse] adds only the split of the path's
    [;params], which no scanner reads. *)
Definition urlsplit (url : string) : outcome SplitResult :=
  let url := PyStr.lstrip c0_control_or_space url in
  let url := PyStr.remove_char PyStr.TAB url in
  let url := PyStr.remove_char PyStr.CR url in
  let url := PyStr.remove_char PyStr.LF url in
  let '(scheme, url) :=
    match PyStr.find ":" url with
    | Some i =>
        if (0 <? i)%nat
           && match url with
              | String c _ => PyStr.is_alpha c
              | EmptyString => false
              end
           && all_chars (fun c => PyStr.char_in c scheme_chars)
                (PyStr.upto i url)
        then (PyStr.lower (PyStr.upto i url), PyStr.from (i + 1) url)
        else (EmptyString, url)
    | None => (EmptyString, url)
    end in
  let '(netloc, url, ok) :=
    if String.eqb (PyStr.upto 2 url) "//"
    then
      let '(netloc, url) := splitnetloc url 2 in
      let lb := PyStr.contains "[" netloc in
      let rb := PyStr.contains "]" netloc in
      if (lb && negb rb) || (rb && negb lb) then (netloc, url, false)
      else if lb && rb then (netloc, url, check_bracketed_netloc netloc)
      else (netloc, url, true)
    else (EmptyString, url, true) in
  if negb ok then Raise ValueError
  else
    let '(url, fragment) :=
      match PyStr.split1 "#" url with
      | (u, Some f) => (u, f)
      | (u, None) => (u, EmptyString)
      end in
    let '(url, query) :=
      match PyStr.split1 "?" url with
      | (u, Some q) => (u, q)
      | (u, None) => (u, EmptyString)
      end in
    if checknetloc netloc
    then Ret {| scheme := scheme; netloc := netloc; path := url;
                query := query; fragment := fragment |}
    else Raise ValueError.

Definition urlparse : string -> outcome SplitResult := urlsplit.

(** [parse_qsl(qs)] with its defaults: [keep_blank_values=False],
    [strict_parsing=False], [separator='&'] *)
Definition parse_qsl (qs : string) : list (string * string) :=
  let query_args :=
    if String.eqb qs EmptyString then [] else PyStr.split "&" qs in
  flat_map
    (fun name_value =>
       if String.eqb name_value EmptyString then []
       else
         match PyStr.split1 "=" name_value with
         | (_, None) => []
         | (n, Some v) =>
             if negb (String.length v =? 0)%nat
             then [(unquote (PyStr.replace_char "+" " " n),
                    unquote (PyStr.replace_char "+" " " v))]
             else []
         end)
    query_args.

(** [parse_qs(qs)] *)
Definition parse_qs (qs : string) : dict (list string) :=
  fold_left
    (fun parsed_result '(name, value) =>
       match PyDict.get parsed_result name with
       | Some vs => PyDict.set parsed_result name (vs ++ [value])
       | None => PyDict.set parsed_result name [value]
       end)
    (parse_qsl qs) [].

End Parse.

(** [quote_plus(s)]: unreserved characters stay, a space becomes [+],
    every other byte becomes [%XX]. *)
Definition hex_digit (n : nat) : ascii :=
  if (n <? 10)%nat then ascii_of_nat (48 + n) else ascii_of_nat (55 + n).

Definition quote_plus : string -> string :=
  fix go s :=
    match s with
    | EmptyString => EmptyString
    | String c s' =>
        if PyStr.is_alpha c || PyStr.is_digit c || PyStr.char_in c "_.-~"
        then String c (go s')
        else if Ascii.eqb c " " then String "+" (go s')
        else
          let n := nat_of_ascii c in
          String "%" (String (hex_digit (n / 16))
                        (String (hex_digit (n mod 16)) (go s')))
    end.

(** [urlencode(d)] for a [dict] of strings *)
Definition urlencode (d : dict string) : string :=
  PyStr.join "&"
    (map (fun '(k, v) => (quote_plus k ++ "=" ++ quote_plus v)%string) d).

End Urllib.

(* ================================================================= *)
(** ** Python values that reach the report *)

#[local] Set Warnings "-register-all".

Inductive pyobj : Type :=
| PStr (s : string)
| PInt (z : Z)
| PList (l : list pyobj)
| PDict (d : list (string * pyobj)).

(** A vulnerability entry is a [dict] literal with string keys. *)
Definition Finding : Type := dict pyobj.

Definition get_str (f : Finding) (k : string) : option string :=
  match PyDict.get f k with
  | Some (PStr s) => Some s
  | _ => None
  end.

Definition has_str (f : Finding) (k v : string) : bool :=
  match get_str f k with
  | Some s => String.eqb s v
  | None => false
  end.

(* ================================================================= *)
(** ** [core/config.py] *)

Module Config.

Definition XSS_PAYLOADS : list string :=
  [ "<script>alert(1)</script>";
    "<img src=x onerror=alert(1)>";
    "';alert(1);//";
    "<svg/onload=alert(1)>";
    "javascript:alert(1)" ].

Definition SQLI_PAYLOADS : list string :=
  [ "' OR '1'='1";
    PyStr.DQ ++ " OR " ++ PyStr.DQ ++ "1" ++ PyStr.DQ ++ "=" ++ PyStr.DQ ++ "1";
    "' UNION SELECT NULL--";
    "1; DROP TABLE users--";
    "' AND 1=2 UNION SELECT NULL--";
    "admin'--" ]%string.

Definition REDIRECT_PARAMS : list string :=
  ["redirect"; "url"; "next"; "return"; "goto"; "redir"; "continue"].

Definition MALICIOUS_REDIRECT_TARGET : string :=
  "https://malicious-example.com".

Definition REQUIRED_SECURITY_HEADERS : list string :=
  [ "X-Frame-Options";
    "X-XSS-Protection";
    "Content-Security-Policy";
    "Strict-Transport-Security";
    "X-Content-Type-Options" ].

Definition FORBIDDEN_HTTP_METHODS : list string := ["TRACE"; "TRACK"].

Definition SQL_ERROR_PATTERNS : list string :=
  [ "MySQL server version for the right syntax";
    "PG::SyntaxError:";
    "ORA-01756:";
    "Unclosed quotation mark after the character string";
    "sqlite3.OperationalError";
    "SQL syntax";
    "mysql_fetch";
    "Warning: pg_" ].

Definition DEFAULT_TIMEOUT : Z := 10.
Definition RESPONSE_LENGTH_THRESHOLD : Z := 50.

End Config.

(* ================================================================= *)
(** ** The [requests] boundary *)

Inductive method : Type := GET | OPTIONS.

Record Request : Type := {
  req_method : method;
  req_url : string;
  req_params : dict string;
  req_timeout : Z;
  allow_redirects : bool
}.

(** What the scanners read of a [requests.Response]: [headers] lists the
    fields of its [CaseInsensitiveDict] with the names as the server sent
    them; a name occurs once whatever its case, a field the server
    repeats arrives as one field ([distinct_up_to_case] below). *)
Record Response : Type := {
  status_code : Z;
  text : string;
  url : string;
  headers : dict string
}.

(** One call of the HTTP client: the request and what it came to, the
    response or the exception raised. *)
Definition Exchange : Type := (Request * outcome Response)%type.

(** the invariant of a [CaseInsensitiveDict]: no two fields have names
    that are equal up to case *)
Definition distinct_up_to_case (hs : dict string) : Prop :=
  NoDup (map (fun kv => PyStr.lower (fst kv)) hs).

(** [response.headers.get(name, default)]: the lookup of [requests]'
    [CaseInsensitiveDict]; under its invariant at most one field
    matches *)
Fixpoint headers_get (hs : dict string) (name default : string) : string :=
  match hs with
  | [] => default
  | (k, v) :: hs' =>
      if String.eqb (PyStr.lower k) (PyStr.lower name) then v
      else headers_get hs' name default
  end.

(** A reference to a list object in the store. *)
Definition loc : Type := nat.

(** The attributes of a [BaseScanner] instance: [self.vulnerabilities]
    holds a reference, several names may share one list object. *)
Record Scanner : Type := {
  timeout : Z;
  vulnerabilities : loc
}.

(* ================================================================= *)
(** ** The scanners *)

Section Scanners.

(** The network: [http req w] is what the HTTP client does with [req] in
    the world [w].  It returns a response or raises: a
    [RequestException] when the transport fails or the URL is refused, or
    an exception of another class, which no scanner catches ([requests]
    raises a [ValueError] for a timeout that is not positive). *)
Context {World : Type}.
Variable http : Request -> World -> outcome Response * World.

Variable check_bracketed_netloc : string -> bool.
Variable checknetloc : string -> bool.
Variable unquote : string -> string.

(** The machine state: the network, the store of list objects (a
    reference is an index into it, a new object goes at the end), the
    scanner instance [self], and the log of the HTTP exchanges made so far
    (a ghost field: nothing reads it). *)
Record State : Type := {
  world : World;
  heap : list (list Finding);
  self : Scanner;
  trace : list Exchange
}.

Definition M (A : Type) : Type := State -> outcome A * State.

Definition ret {A} (a : A) : M A := fun st => (Ret a, st).

Definition raise {A} (e : exn) : M A := fun st => (Raise e, st).

Definition bind {A B} (m : M A) (k : A -> M B) : M B :=
  fun st =>
    match m st with
    | (Ret a, st') => k a st'
    | (Raise e, st') => (Raise e, st')
    end.

Notation "x <- m ;; k" := (bind m (fun x => k))
  (at level 61, m at next level, right associativity).
Notation "m ;;; k" := (bind m (fun _ => k))
  (at level 61, right associativity).

(** [try: body / except requests.exceptions.RequestException: handler] *)
Definition try_except (body handler : M unit) : M unit :=
  fun st =>
    match body st with
    | (Raise RequestException, st') => handler st'
    | r => r
    end.

(** [for x in xs: body] *)
Fixpoint for_each {A} (xs : list A) (body : A -> M unit) : M unit :=
  match xs with
  | [] => ret tt
  | x :: xs' => body x ;;; for_each xs' body
  end.

(** [for x in xs: body], where [body] answers [true] when it leaves the
    loop with [break] *)
Fixpoint for_each_break {A} (xs : list A) (body : A -> M bool) : M unit :=
  match xs with
  | [] => ret tt
  | x :: xs' =>
      stop <- body x ;;
      if stop then ret tt else for_each_break xs' body
  end.

(** lifting a pure computation that may raise *)
Definition lift {A} (o : outcome A) : M A := fun st => (o, st).

(** [h[l].extend(vs)]: the list object at [l] grows in place *)
Fixpoint extend_at (l : loc) (vs : list Finding) (h : list (list Finding))
  : list (list Finding) :=
  match h, l with
  | [], _ => []
  | x :: h', O => (x ++ vs) :: h'
  | x :: h', S l' => x :: extend_at l' vs h'
  end.

(** the list object a reference points to *)
Definition deref (h : list (list Finding)) (l : loc) : list Finding :=
  nth l h [].

(** *** [requests] *)

(** one call of the HTTP client: the client answers or raises, and the
    exchange is logged *)
Definition send (req : Request) : M Response :=
  fun st =>
    let '(answer, w) := http req (world st) in
    (answer,
     {| world := w; heap := heap st; self := self st;
        trace := trace st ++ [(req, answer)] |}).

(** [requests.get(url, params=params, timeout=self.timeout,
    allow_redirects=...)]; [allow_redirects] defaults to [True] *)
Definition requests_get (u : string) (params : dict string)
           (allow : option bool) : M Response :=
  fun st =>
    send {| req_method := GET; req_url := u; req_params := params;
            req_timeout := timeout (self st);
            allow_redirects :=
              match allow with Some b => b | None => true end |} st.

(** [requests.options(url, timeout=self.timeout)] *)
Definition requests_options (u : string) : M Response :=
  fun st =>
    send {| req_method := OPTIONS; req_url := u; req_params := [];
            req_timeout := timeout (self st);
            allow_redirects := true |} st.

(** *** [core/base_scanner.py] *)

(** [self.vulnerabilities = []]: a new list object is allocated and the
    attribute rebound to it *)
Definition reset : M unit :=
  fun st =>
    let l := List.length (heap st) in
    (Ret tt,
     {| world := world st; heap := heap st ++ [[]];
        self := {| timeout := timeout (self st); vulnerabilities := l |};
        trace := trace st |}).

(** [self.vulnerabilities.append(vulnerability)]: the list object is
    changed in place *)
Definition vulnerabilities_append (v : Finding) : M unit :=
  fun st =>
    let l := vulnerabilities (self st) in
    (Ret tt,
     {| world := world st; heap := extend_at l [v] (heap st);
        self := self st; trace := trace st |}).

(** the value of the expression [self.vulnerabilities] *)
Definition self_vulnerabilities : M loc :=
  fun st => (Ret (vulnerabilities (self st)), st).

(** [{k: v[0] for k, v in params.items()}] *)
Fixpoint first_values (items : list (string * list string))
         (acc : dict string) : outcome (dict string) :=
  match items with
  | [] => Ret acc
  | (k, v) :: items' =>
      match v with
      | v0 :: _ => first_values items' (PyDict.set acc k v0)
      | [] => Raise IndexError
      end
  end.

Definition extract_params (target_url : string) : outcome (dict string) :=
  match Urllib.urlparse check_bracketed_netloc checknetloc target_url with
  | Raise e => Raise e
  | Ret parsed_url =>
      let params := Urllib.parse_qs unquote (Urllib.query parsed_url) in
      match params with
      | [] => Ret []
      | _ => first_values params []
      end
  end.

(** [target_url.split("?")[0]]; [split] never returns an empty list *)
Definition get_base_url (target_url : string) : string :=
  hd EmptyString (PyStr.split "?" target_url).

(** the value of [params] after
    [if not params: params = self.extract_params(target_url)], for the
    optional argument [params] *)
Definition resolve_params (target_url : string)
           (params : option (dict string)) : outcome (dict string) :=
  match params with
  | None | Some [] => extract_params target_url
  | Some d => Ret d
  end.

Definition params_or_extract (target_url : string)
           (params : option (dict string)) : M (dict string) :=
  lift (resolve_params target_url params).

(** [params[param]] *)
Definition subscript (params : dict string) (param : string) : M string :=
  match PyDict.get params param with
  | Some v => ret v
  | None => raise KeyError
  end.

(** [len(s)] *)
Definition len (s : string) : Z := Z.of_nat (String.length s).

(** *** [scanners/xss_scanner.py] *)

Definition XSSScanner_scan_type : string := "xss".

(** the [vulnerability] entry of the reflected-payload check *)
Definition xss_vulnerability (payload param : string) (response : Response)
  : Finding :=
  [ ("type", PStr "XSS (Reflected)");
    ("payload", PStr payload);
    ("parameter", PStr param);
    ("url", PStr (url response));
    ("status_code", PInt (status_code response));
    ("description", PStr "Unescaped XSS payload reflected in response") ].

Definition XSSScanner_scan (target_url : string)
           (params : option (dict string)) : M loc :=
  reset ;;;
  params <- params_or_extract target_url params ;;
  match params with
  | [] => self_vulnerabilities
  | _ =>
      for_each Config.XSS_PAYLOADS (fun payload =>
        for_each (PyDict.keys params) (fun param =>
          let modified_params := PyDict.set params param payload in
          try_except
            (response <- requests_get (get_base_url target_url)
                           modified_params (Some false) ;;
             if PyStr.contains payload (text response)
             then
               let vulnerability := xss_vulnerability payload param response in
               vulnerabilities_append vulnerability
             else ret tt)
            (ret tt))) ;;;
      self_vulnerabilities
  end.

(** *** [scanners/sqli_scanner.py] *)

Definition SQLiScanner_scan_type : string := "sqli".

(** the [vulnerability] entry of the error-based check *)
Definition error_based_vulnerability (payload param : string)
           (response : Response) (error_pattern : string) : Finding :=
  [ ("type", PStr "SQL Injection (Error-Based)");
    ("payload", PStr payload);
    ("parameter", PStr param);
    ("url", PStr (url response));
    ("status_code", PInt (status_code response));
    ("description", PStr ("SQL error detected: " ++ error_pattern)) ].

(** the [vulnerability] entry of the boolean-based check *)
Definition boolean_based_vulnerability (payload param : string)
           (response : Response) (length_diff : Z) : Finding :=
  [ ("type", PStr "SQL Injection (Boolean-Based)");
    ("payload", PStr payload);
    ("parameter", PStr param);
    ("url", PStr (url response));
    ("status_code", PInt (status_code response));
    ("description",
     PStr ("Significant response length change ("
           ++ PyStr.of_int length_diff ++ " bytes)")) ].

(** the body of the two loops of [scan]: one payload in one parameter *)
Definition SQLiScanner_trial (target_url : string) (params : dict string)
           (payload param : string) : M unit :=
  let modified_params := PyDict.set params param payload in
  try_except
    (response <- requests_get (get_base_url target_url)
                   modified_params (Some false) ;;
     for_each_break Config.SQL_ERROR_PATTERNS (fun error_pattern =>
       if PyStr.contains error_pattern (text response)
       then
         let vulnerability :=
           error_based_vulnerability payload param response
             error_pattern in
         vulnerabilities_append vulnerability ;;;
         ret true
       else ret false) ;;;
     try_except
       (original_value <- subscript params param ;;
        original_response <-
          requests_get (get_base_url target_url)
            [(param, original_value)] None ;;
        let length_diff :=
          Z.abs (len (text response)
                 - len (text original_response)) in
        if (length_diff >? Config.RESPONSE_LENGTH_THRESHOLD)%Z
        then
          let vulnerability :=
            boolean_based_vulnerability payload param response
              length_diff in
          vulnerabilities_append vulnerability
        else ret tt)
       (ret tt))
    (ret tt).

Definition SQLiScanner_scan (target_url : string)
           (params : option (dict string)) : M loc :=
  reset ;;;
  params <- params_or_extract target_url params ;;
  match params with
  | [] => self_vulnerabilities
  | _ =>
      for_each Config.SQLI_PAYLOADS (fun payload =>
        for_each (PyDict.keys params) (fun param =>
          SQLiScanner_trial target_url params payload param)) ;;;
      self_vulnerabilities
  end.

(** *** [scanners/http_scanner.py] *)

Definition HTTPScanner_scan_type : string := "http".

(** the [vulnerability] entry of the security-header check *)
Definition missing_header_vulnerability (target_url header : string)
           (response : Response) : Finding :=
  [ ("type", PStr "HTTP Misconfiguration");
    ("issue", PStr "Missing Security Header");
    ("details",
     PStr ("Header '" ++ header
           ++ "' is missing (critical for security hardening)"));
    ("url", PStr target_url);
    ("status_code", PInt (status_code response)) ].

(** the [vulnerability] entry of the method check *)
Definition insecure_method_vulnerability (target_url method : string)
           (options_response : Response) : Finding :=
  [ ("type", PStr "HTTP Misconfiguration");
    ("issue", PStr "Insecure HTTP Method Enabled");
    ("details",
     PStr ("Method '" ++ method
           ++ "' is allowed (can be used for cross-site tracing attacks)"));
    ("url", PStr target_url);
    ("status_code", PInt (status_code options_response)) ].

(** [{k.lower(): v for k, v in response.headers.items()}] *)
Definition lowered_headers (response : Response) : dict string :=
  fold_left (fun d '(k, v) => PyDict.set d (PyStr.lower k) v)
            (headers response) [].

Definition HTTPScanner_scan (target_url : string)
           (params : option (dict string)) : M loc :=
  reset ;;;
  try_except
    (response <- requests_get target_url [] (Some true) ;;
     let response_headers := lowered_headers response in
     for_each Config.REQUIRED_SECURITY_HEADERS (fun header =>
       if negb (PyDict.mem (PyStr.lower header) response_headers)
       then
         let vulnerability :=
           missing_header_vulnerability target_url header response in
         vulnerabilities_append vulnerability
       else ret tt) ;;;
     try_except
       (options_response <- requests_options target_url ;;
        let allowed_methods :=
          PyStr.split ", "
            (headers_get (headers options_response) "Allow" "") in
        for_each Config.FORBIDDEN_HTTP_METHODS (fun method =>
          if existsb (String.eqb method) allowed_methods
          then
            let vulnerability :=
              insecure_method_vulnerability target_url method
                options_response in
            vulnerabilities_append vulnerability
          else ret tt))
       (ret tt))
    (ret tt) ;;;
  self_vulnerabilities.

(** *** [scanners/redirect_scanner.py] *)

Definition RedirectScanner_scan_type : string := "redirect".

Definition urlparse : string -> outcome Urllib.SplitResult :=
  Urllib.urlparse check_bracketed_netloc checknetloc.

(** the [vulnerability] entry of the redirect check; [redirected_to] is
    [final_redirect_url = response.url] *)
Definition open_redirect_vulnerability (param test_url : string)
           (response : Response) : Finding :=
  [ ("type", PStr "Open Redirect");
    ("parameter", PStr param);
    ("url", PStr test_url);
    ("redirected_to", PStr (url response));
    ("status_code", PInt (status_code response));
    ("description",
     PStr "Unvalidated redirect parameter allows navigation to malicious domain") ].

(** [f"{self.get_base_url(target_url)}?{urlencode(redirect_params)}"] *)
Definition redirect_test_url (target_url param : string) : string :=
  (get_base_url target_url ++ "?"
   ++ Urllib.urlencode [(param, Config.MALICIOUS_REDIRECT_TARGET)])%string.

(** the body of the loop of [scan]: one redirect parameter *)
Definition RedirectScanner_trial (target_url param : string) : M unit :=
  let test_url := redirect_test_url target_url param in
  try_except
    (response <- requests_get test_url [] (Some true) ;;
     let final_redirect_url := url response in
     parsed_final_url <- lift (urlparse final_redirect_url) ;;
     let final_domain := Urllib.netloc parsed_final_url in
     malicious <- lift (urlparse Config.MALICIOUS_REDIRECT_TARGET) ;;
     if String.eqb final_domain (Urllib.netloc malicious)
     then
       let vulnerability :=
         open_redirect_vulnerability param test_url response in
       vulnerabilities_append vulnerability
     else ret tt)
    (ret tt).

Definition RedirectScanner_scan (target_url : string)
           (params : option (dict string)) : M loc :=
  reset ;;;
  parsed_base_url <- lift (urlparse target_url) ;;
  let base_domain := Urllib.netloc parsed_base_url in
  for_each Config.REDIRECT_PARAMS (fun param =>
    RedirectScanner_trial target_url param) ;;;
  self_vulnerabilities.

(** The list a scan returns, read from the store at the end of the call. *)
Definition returned (r : outcome loc * State) : outcome (list Finding) :=
  match fst r with
  | Ret l => Ret (deref (heap (snd r)) l)
  | Raise e => Raise e
  end.

(** The HTTP exchanges a call made: what it added to the log. *)
Definition exchanges (st : State) (r : outcome loc * State)
  : list Exchange :=
  skipn (List.length (trace st)) (trace (snd r)).

End Scanners.

Arguments State World : clear implicits.
Arguments M World A : clear implicits.

(* ================================================================= *)
(** ** [json.dump(obj, f, indent=4, ensure_ascii=False)] *)

Module Json.

Definition hex_lower (n : nat) : ascii :=
  if (n <? 10)%nat then ascii_of_nat (48 + n) else ascii_of_nat (87 + n).

(** [ESCAPE_DCT]: the replacement of one character of a string *)
Definition escape_char (c : ascii) : string :=
  let n := nat_of_ascii c in
  if (n =? 92)%nat then "\\"
  else if (n =? 34)%nat then String "\" PyStr.DQ
  else if (n =? 8)%nat then "\b"
  else if (n =? 12)%nat then "\f"
  else if (n =? 10)%nat then "\n"
  else if (n =? 13)%nat then "\r"
  else if (n =? 9)%nat then "\t"
  else if (n <? 32)%nat
       then ("\u00" ++ String (hex_lower (n / 16))
                         (String (hex_lower (n mod 16)) EmptyString))%string
  else String c EmptyString.

(** [py_encode_basestring] *)
Definition encode_basestring (s : string) : string :=
  (PyStr.DQ ++ String.concat EmptyString
                 (map escape_char (list_ascii_of_string s))
   ++ PyStr.DQ)%string.

Definition indent : string := "    ".

(** ['\n' + _indent * _current_indent_level] *)
Definition newline_indent (level : nat) : string :=
  String PyStr.LF (PyStr.repeat indent level).

Definition item_separator : string := ",".
Definition key_separator : string := ": ".

(** [_iterencode], the chunks joined *)
Fixpoint iterencode (o : pyobj) (level : nat) : string :=
  match o with
  | PStr s => encode_basestring s
  | PInt z => PyStr.of_int z
  | PList [] => "[]"
  | PList l =>
      ("[" ++ newline_indent (S level)
       ++ PyStr.join (item_separator ++ newline_indent (S level))
            (map (fun v => iterencode v (S level)) l)
       ++ newline_indent level ++ "]")%string
  | PDict [] => "{}"
  | PDict d =>
      ("{" ++ newline_indent (S level)
       ++ PyStr.join (item_separator ++ newline_indent (S level))
            (map (fun kv =>
                    encode_basestring (fst kv) ++ key_separator
                    ++ iterencode (snd kv) (S level)) d)
       ++ newline_indent level ++ "}")%string
  end.

Definition dumps (o : pyobj) : string := iterencode o 0.

End Json.

(* ================================================================= *)
(** ** [core/reporter.py] *)

(** [os.path.dirname(path)] of [posixpath] *)
Module PosixPath.

Fixpoint rfind_slash (s : string) (i : nat) (last : option nat)
  : option nat :=
  match s with
  | EmptyString => last
  | String c s' =>
      rfind_slash s' (S i) (if Ascii.eqb c "/" then Some i else last)
  end.

Fixpoint rstrip_slash (s : string) : string :=
  match s with
  | EmptyString => EmptyString
  | String c s' =>
      match rstrip_slash s' with
      | EmptyString => if Ascii.eqb c "/" then EmptyString
                       else String c EmptyString
      | r => String c r
      end
  end.

Definition dirname (p : string) : string :=
  let i := match rfind_slash p 0 None with Some j => S j | None => 0 end in
  let head := PyStr.upto i p in
  if negb (String.eqb head EmptyString)
     && negb (String.eqb head (PyStr.repeat "/" (String.length head)))
  then rstrip_slash head
  else head.

End PosixPath.

Section Reporter.

(** The clock: [datetime.datetime.now().isoformat()]. *)
Context {Clock : Type}.
Variable now_isoformat : Clock -> string * Clock.

(** The document [_generate_html_report] builds from the report; its
    template takes no part in the JSON path. *)
Variable html_content : dict pyobj -> string.

(** What the reporter acts on: the clock, the files by path, the
    directories made, and the lines printed on the console. *)
Record Env : Type := {
  clock : Clock;
  files : string -> option string;
  dirs : list string;
  console : list string
}.

(** What the operating system and the console decide: whether
    [os.makedirs] can make a directory, whether [open] can open a file
    for writing, and whether [rich] accepts the markup of a line (it
    raises [MarkupError] on a closing tag that closes nothing). *)
Variable makedirs_ok : string -> Env -> bool.
Variable open_ok : string -> Env -> bool.
Variable markup_ok : string -> bool.

(** [with open(path, "w", encoding="utf-8") as f: f.write(content)];
    [open] raises [OSError] and leaves the file as it was *)
Definition write_file (path content : string) (e : Env)
  : outcome unit * Env :=
  if open_ok path e
  then (Ret tt,
        {| clock := clock e;
           files := fun p => if String.eqb p path then Some content
                             else files e p;
           dirs := dirs e; console := console e |})
  else (Raise OSError, e).

(** [os.makedirs(dir_path, exist_ok=True)] *)
Definition makedirs (dir_path : string) (e : Env) : outcome unit * Env :=
  if makedirs_ok dir_path e
  then (Ret tt,
        {| clock := clock e; files := files e;
           dirs := dirs e ++ [dir_path]; console := console e |})
  else (Raise OSError, e).

(** [self.console.print(line)]: the line is printed, or [MarkupError] is
    raised and nothing is printed *)
Definition console_print (line : string) (e : Env) : outcome unit * Env :=
  if markup_ok line
  then (Ret tt,
        {| clock := clock e; files := files e; dirs := dirs e;
           console := console e ++ [line] |})
  else (Raise MarkupError, e).

(** [UI.print_success] and [UI.print_error] *)
Definition print_success (message : string) : Env -> outcome unit * Env :=
  console_print ("[green][SUCCESS][/green] " ++ message).

Definition print_error (message : string) : Env -> outcome unit * Env :=
  console_print ("[red][ERROR][/red] " ++ message).

(** one statement after another: an exception ends the sequence *)
Definition and_then (first next : Env -> outcome unit * Env) (e : Env)
  : outcome unit * Env :=
  match first e with
  | (Ret _, e') => next e'
  | (Raise x, e') => (Raise x, e')
  end.

Definition _generate_json_report (report : dict pyobj)
           (output_path : string) : Env -> outcome unit * Env :=
  and_then (write_file output_path (Json.dumps (PDict report)))
           (print_success ("JSON report saved to " ++ output_path)).

Definition _generate_html_report (report : dict pyobj)
           (output_path : string) : Env -> outcome unit * Env :=
  and_then (write_file output_path (html_content report))
           (print_success ("HTML report saved to " ++ output_path)).

Definition generate_report (vulnerabilities : list Finding)
           (target_url output_path format : string) (e : Env)
  : outcome unit * Env :=
  let '(stamp, c) := now_isoformat (clock e) in
  let e := {| clock := c; files := files e; dirs := dirs e;
              console := console e |} in
  let report :=
    [ ("scan_timestamp", PStr stamp);
      ("target_url", PStr target_url);
      ("total_vulnerabilities",
       PInt (Z.of_nat (List.length vulnerabilities)));
      ("vulnerabilities", PList (map PDict vulnerabilities)) ] in
  let dir_path := PosixPath.dirname output_path in
  and_then
    (if String.eqb dir_path EmptyString then fun e => (Ret tt, e)
     else makedirs dir_path)
    (if String.eqb (PyStr.lower format) "json"
     then _generate_json_report report output_path
     else if String.eqb (PyStr.lower format) "html"
     then _generate_html_report report output_path
     else print_error ("Unsupported report format: " ++ format
                       ++ " (supported: json/html)"))
    e.

End Reporter.

Arguments Env Clock : clear implicits.

(* ================================================================= *)
(** ** Vocabulary for reasoning about runs *)

Section Effects.

Context {World : Type}.

(** The state after a piece of scanner code ran from [st]: the network
    moved to [w], the exchanges [tr] were logged and the entries [fs]
    appended to the list object [self.vulnerabilities] points to. *)
Definition advance (w : World) (tr : list Exchange) (fs : list Finding)
           (st : State World) : State World :=
  {| world := w;
     heap := extend_at (vulnerabilities (self st)) fs (heap st);
     self := self st;
     trace := trace st ++ tr |}.

(** Two states a scan cannot tell apart: same network, same timeout. *)
Definition agree (st1 st2 : State World) : Prop :=
  world st1 = world st2 /\ timeout (self st1) = timeout (self st2).

(** [m] reads the state only through the network and the timeout, and
    writes it only through [advance]. *)
Definition uniform {A} (m : M World A) : Prop :=
  forall st1 st2, agree st1 st2 ->
    exists o w tr fs,
      m st1 = (o, advance w tr fs st1) /\ m st2 = (o, advance w tr fs st2).

(** the outcome of code that ends in [return self.vulnerabilities] *)
Definition at_self (o : outcome unit) (st : State World) : outcome loc :=
  match o with
  | Ret _ => Ret (vulnerabilities (self st))
  | Raise e => Raise e
  end.

(** [uniform], for code that returns the reference [self.vulnerabilities] *)
Definition uniform_loc (m : M World loc) : Prop :=
  forall st1 st2, agree st1 st2 ->
    exists o w tr fs,
      m st1 = (at_self o st1, advance w tr fs st1)
      /\ m st2 = (at_self o st2, advance w tr fs st2).

(** A scan whose result belongs to the call alone: run from two states
    that agree, whatever their stores, accumulators and logs hold, it
    returns the same list; that list is a new object at the end of the
    store, so every list that existed before is left as it was, and
    [self.vulnerabilities] points to it. *)
Definition result_of_this_call (scan : M World loc) (st1 st2 : State World)
  : Prop :=
  returned (scan st1) = returned (scan st2)
  /\ exists fs,
       heap (snd (scan st1)) = heap st1 ++ [fs]
       /\ vulnerabilities (self (snd (scan st1))) = List.length (heap st1)
       /\ forall l, fst (scan st1) = Ret l -> l = List.length (heap st1).

(** What the XSS and the SQLi scan do when they find no parameter: the
    accumulator is reset and returned. *)
Definition gated (st : State World) : outcome loc * State World :=
  (Ret (List.length (heap st)),
   {| world := world st; heap := heap st ++ [[]];
      self := {| timeout := timeout (self st);
                 vulnerabilities := List.length (heap st) |};
      trace := trace st |}).

(** From a state with timeout [t], [m] logs some exchanges [tr] and
    appends some entries [fs] with [P o tr fs] for its outcome [o]. *)
Definition emits {A} (t : Z) (m : M World A)
           (P : outcome A -> list Exchange -> list Finding -> Prop) : Prop :=
  forall st, timeout (self st) = t ->
    exists o w tr fs, m st = (o, advance w tr fs st) /\ P o tr fs.

(** what a raised [e] comes to under [except RequestException] when the
    handler goes on to return [a] *)
Definition unless_caught {A} (e : exn) (a : A) : outcome A :=
  match e with
  | RequestException => Ret a
  | _ => Raise e
  end.

(** The exception [e] came out of the HTTP client and was not caught: it
    is not a [RequestException], and the last exchange of the log [tr]
    ends in it. *)
Definition escaped (e : exn) (tr : list Exchange) : Prop :=
  e <> RequestException
  /\ exists before request, tr = before ++ [(request, Raise e)].

(** The log and the entries of a loop, cut into one segment per
    iteration. *)
Inductive segs {A} (T : A -> list Exchange -> list Finding -> Prop)
  : list A -> list Exchange -> list Finding -> Prop :=
| segs_nil : segs T [] [] []
| segs_cons x xs tr fs tr' fs' :
    T x tr fs -> segs T xs tr' fs' ->
    segs T (x :: xs) (tr ++ tr') (fs ++ fs').

End Effects.

(** *** One trial of the SQLi scanner *)

Definition sqli_probe_request (target_url : string) (t : Z)
           (params : dict string) (payload param : string) : Request :=
  {| req_method := GET; req_url := get_base_url target_url;
     req_params := PyDict.set params param payload;
     req_timeout := t; allow_redirects := false |}.

Definition sqli_baseline_request (target_url : string) (t : Z)
           (param original_value : string) : Request :=
  {| req_method := GET; req_url := get_base_url target_url;
     req_params := [(param, original_value)];
     req_timeout := t; allow_redirects := true |}.

(** the entry of the error-based check on a probe response: the first
    signature found in the body *)
Definition error_based_entries (payload param : string) (response : Response)
  : list Finding :=
  match List.find (fun pat => PyStr.contains pat (text response))
                  Config.SQL_ERROR_PATTERNS with
  | Some pat => [error_based_vulnerability payload param response pat]
  | None => []
  end.

(** the entry of the boolean-based check on a probe response and the
    outcome of the baseline request *)
Definition boolean_based_entries (payload param : string)
           (response : Response) (original : outcome Response)
  : list Finding :=
  match original with
  | Ret original_response =>
      let length_diff :=
        Z.abs (len (text response) - len (text original_response)) in
      if (length_diff >? Config.RESPONSE_LENGTH_THRESHOLD)%Z
      then [boolean_based_vulnerability payload param response length_diff]
      else []
  | Raise _ => []
  end.

(** What one pass through the body of the two loops logs and appends
    when it ends without raising: the probe failed with a
    [RequestException], or it was answered and the baseline request was
    answered or failed with a [RequestException]. *)
Definition sqli_trial (target_url : string) (t : Z) (params : dict string)
           (payload param : string)
           (tr : list Exchange) (fs : list Finding) : Prop :=
  (tr = [(sqli_probe_request target_url t params payload param,
          Raise RequestException)]
   /\ fs = [])
  \/ exists response original_value original,
       PyDict.get params param = Some original_value
       /\ (forall e, original = Raise e -> e = RequestException)
       /\ tr = [(sqli_probe_request target_url t params payload param,
                 Ret response);
                (sqli_baseline_request target_url t param original_value,
                 original)]
       /\ fs = error_based_entries payload param response
               ++ boolean_based_entries payload param response original.

(** *** One trial of the Open-Redirect scanner *)

Definition redirect_request (target_url : string) (t : Z) (param : string)
  : Request :=
  {| req_method := GET; req_url := redirect_test_url target_url param;
     req_params := []; req_timeout := t; allow_redirects := true |}.

(** What one pass through the body of the loop logs and appends when it
    ends without raising. *)
Definition redirect_trial (check_bracketed_netloc checknetloc : string -> bool)
           (target_url : string) (t : Z) (param : string)
           (tr : list Exchange) (fs : list Finding) : Prop :=
  let request := redirect_request target_url t param in
  (tr = [(request, Raise RequestException)] /\ fs = [])
  \/ exists response parsed_final_url malicious,
       Urllib.urlparse check_bracketed_netloc checknetloc (url response)
       = Ret parsed_final_url
       /\ Urllib.urlparse check_bracketed_netloc checknetloc
            Config.MALICIOUS_REDIRECT_TARGET = Ret malicious
       /\ tr = [(request, Ret response)]
       /\ fs = if String.eqb (Urllib.netloc parsed_final_url)
                            (Urllib.netloc malicious)
               then [open_redirect_vulnerability param
                       (redirect_test_url target_url param) response]
               else [].

(** How one pass through the body of the loop raises: an exception of
    the HTTP client that is not a [RequestException], or the [ValueError]
    of [urlparse] on the final URL of an answered request (or on the
    fixed target). *)
Definition redirect_raised (check_bracketed_netloc checknetloc : string -> bool)
           (e : exn) (tr : list Exchange) : Prop :=
  escaped e tr
  \/ (e = ValueError
      /\ exists before request response,
           tr = before ++ [(request, Ret response)]
           /\ (Urllib.urlparse check_bracketed_netloc checknetloc
                 (url response) = Raise ValueError
               \/ Urllib.urlparse check_bracketed_netloc checknetloc
                    Config.MALICIOUS_REDIRECT_TARGET = Raise ValueError)).

(** *** Query strings *)

(** a field [name=] of a query string: an assignment of the empty value *)
Definition blank_valued (name_value : string) : bool :=
  match PyStr.split1 "=" name_value with
  | (_, Some v) => String.eqb v EmptyString
  | (_, None) => false
  end.

(** [not params] for the optional argument of [scan] *)
Definition falsy (params : option (dict string)) : bool :=
  match params with
  | None | Some [] => true
  | Some _ => false
  end.

(** ** Example servers *)

Module Example.

(** a server that answers every request with the same page *)
Definition constant_page (body : string) (r : Request) (w : unit)
  : outcome Response * unit :=
  (Ret {| status_code := 200; text := body; url := req_url r;
          headers := [] |}, w).

(** a server whose page repeats a database error once for every character
    of the [id] parameter: the page of a probe is longer than the page of
    its baseline by more than fifty characters *)
Definition padded_page (r : Request) (w : unit) : outcome Response * unit :=
  (Ret {| status_code := 200;
          text := match PyDict.get (req_params r) "id" with
                  | Some v => PyStr.repeat "SQL syntax " (String.length v)
                  | None => EmptyString
                  end;
          url := req_url r; headers := [] |}, w).

(** a server that sends every client to the malicious host *)
Definition redirecting (r : Request) (w : unit) : outcome Response * unit :=
  (Ret {| status_code := 200; text := EmptyString;
          url := "https://malicious-example.com/landing";
          headers := [] |}, w).

(** a network that is down *)
Definition unreachable (r : Request) (w : unit) : outcome Response * unit :=
  (Raise RequestException, w).

(** a server that answers GET and refuses OPTIONS *)
Definition no_options (r : Request) (w : unit) : outcome Response * unit :=
  match req_method r with
  | GET => (Ret {| status_code := 200; text := EmptyString;
                   url := req_url r;
                   headers := [("X-Frame-Options", "DENY")] |}, w)
  | OPTIONS => (Raise RequestException, w)
  end.

(** a client that, like [requests], raises a [ValueError] for a timeout
    that is not positive, in front of a server that echoes the [name]
    parameter; the world counts the requests that reached the server *)
Definition strict_timeout (r : Request) (w : nat)
  : outcome Response * nat :=
  if (req_timeout r <=? 0)%Z then (Raise ValueError, w)
  else (Ret {| status_code := 200;
               text := match PyDict.get (req_params r) "name" with
                       | Some v => v
                       | None => EmptyString
                       end;
               url := req_url r; headers := [] |}, S w).

(** a server that allows TRACE, and spells the header name in lower
    case *)
Definition tracing (r : Request) (w : unit) : outcome Response * unit :=
  match req_method r with
  | GET => (Ret {| status_code := 200; text := EmptyString;
                   url := req_url r; headers := [] |}, w)
  | OPTIONS => (Ret {| status_code := 204; text := EmptyString;
                       url := req_url r;
                       headers := [("Content-Length", "0");
                                   ("allow", "GET, TRACE, OPTIONS")] |}, w)
  end.

Definition accept (netloc : string) : bool := true.

Definition identity (s : string) : string := s.

Definition fresh (t : Z) : State unit :=
  {| world := tt; heap := []; self := {| timeout := t; vulnerabilities := 0 |};
     trace := [] |}.

(** an instance that has already scanned: its accumulator holds an entry *)
Definition used (t : Z) : State unit :=
  {| world := tt;
     heap := [[ [("type", PStr "XSS (Reflected)")] ]];
     self := {| timeout := t; vulnerabilities := 0 |};
     trace := [] |}.

(** a clock that advances by a second at every reading *)
Definition ticking (n : nat) : string * nat :=
  (("2026-01-01T00:00:" ++ PyStr.of_int (Z.of_nat (10 + n)))%string, S n).

Definition no_html (report : dict pyobj) : string := EmptyString.

Definition empty_disk : Env nat :=
  {| clock := 0; files := fun _ => None; dirs := []; console := [] |}.

(** an operating system that permits everything *)
Definition permitted (path : string) (e : Env nat) : bool := true.

(** a console that refuses a line holding the closing tag [[/x]] *)
Definition no_stray_tag (line : string) : bool :=
  negb (PyStr.contains "[/x]" line).

(** a state whose instance has the timeout [t], over the world that
    counts requests *)
Definition counting (t : Z) : State nat :=
  {| world := 0%nat; heap := [];
     self := {| timeout := t; vulnerabilities := 0 |}; trace := [] |}.

End Example.

(* ================================================================= *)
(** ** Further vocabulary: the trials of the scanners as functions *)

(** *** One trial of the XSS scanner *)

Definition xss_probe_request (target_url : string) (t : Z)
           (params : dict string) (payload param : string) : Request :=
  {| req_method := GET; req_url := get_base_url target_url;
     req_params := PyDict.set params param payload;
     req_timeout := t; allow_redirects := false |}.

(** what a request that did not end the scan came to: a response, or
    [None] for a [RequestException], which the scanners catch *)
Definition answer_of (answer : option Response) : outcome Response :=
  match answer with
  | Some response => Ret response
  | None => Raise RequestException
  end.

(** the entry of a trial, from what the probe request came to *)
Definition xss_entries (payload param : string) (answer : option Response)
  : list Finding :=
  match answer with
  | Some response =>
      if PyStr.contains payload (text response)
      then [xss_vulnerability payload param response]
      else []
  | None => []
  end.

(** the pairs the two loops of the XSS and SQLi scans run through, in
    order *)
Definition trial_pairs (payloads : list string) (params : dict string)
  : list (string * string) :=
  list_prod payloads (PyDict.keys params).

(** *** One trial of the SQLi scanner, from what its requests came to:
    [None] when the probe failed, else the probe response and what the
    baseline request came to *)

Definition sqli_trial_exchanges (target_url : string) (t : Z)
           (params : dict string) (payload param : string)
           (answers : option (Response * option Response))
  : list Exchange :=
  match answers with
  | None =>
      [(sqli_probe_request target_url t params payload param,
        Raise RequestException)]
  | Some (response, original) =>
      [(sqli_probe_request target_url t params payload param, Ret response);
       (sqli_baseline_request target_url t param
          (match PyDict.get params param with
           | Some v => v
           | None => EmptyString
           end),
        answer_of original)]
  end.

Definition sqli_trial_entries (payload param : string)
           (answers : option (Response * option Response)) : list Finding :=
  match answers with
  | None => []
  | Some (response, original) =>
      error_based_entries payload param response
      ++ boolean_based_entries payload param response (answer_of original)
  end.

(** *** The header check of the HTTP scanner *)

(** no field of the response is named [header], whatever the case *)
Definition header_absent (response : Response) (header : string) : bool :=
  forallb (fun kv => negb (String.eqb (PyStr.lower (fst kv))
                                      (PyStr.lower header)))
          (headers response).

(** the text of a URL before its first question mark *)
Fixpoint before_question_mark (s : string) : string :=
  match s with
  | EmptyString => EmptyString
  | String c s' =>
      if Ascii.eqb c "?" then EmptyString
      else String c (before_question_mark s')
  end.

(* ================================================================= *)
(** ** [scanners/__init__.py], and the validation and the choice of
    scanners of [main.py] *)

(** The four scanner classes of [AVAILABLE_SCANNERS]. *)
Inductive ScannerClass : Type :=
| XSSScanner
| SQLiScanner
| HTTPScanner
| RedirectScanner.

(** the property [scan_type] *)
Definition scan_type (c : ScannerClass) : string :=
  match c with
  | XSSScanner => "xss"
  | SQLiScanner => "sqli"
  | HTTPScanner => "http"
  | RedirectScanner => "redirect"
  end.

Definition AVAILABLE_SCANNERS : list ScannerClass :=
  [XSSScanner; SQLiScanner; HTTPScanner; RedirectScanner].

Definition get_all_scanners : list ScannerClass := AVAILABLE_SCANNERS.

(** A scanner object: its class and its attributes. *)
Record Instance : Type := {
  class_of : ScannerClass;
  attributes : Scanner
}.

Section Orchestrator.

Context {World : Type}.
Variable check_bracketed_netloc : string -> bool.
Variable checknetloc : string -> bool.

(** [scanner_class(timeout=t)]: [BaseScanner.__init__] stores the timeout
    and binds [self.vulnerabilities] to a new empty list *)
Definition new_scanner (c : ScannerClass) (t : Z) : M World Instance :=
  fun st =>
    (Ret {| class_of := c;
            attributes := {| timeout := t;
                             vulnerabilities := List.length (heap st) |} |},
     {| world := world st; heap := heap st ++ [[]]; self := self st;
        trace := trace st |}).

(** the loop of [get_scanner_by_type] over the registry; each class is
    instantiated with the default timeout to read its [scan_type] *)
Fixpoint get_scanner_by_type_from (classes : list ScannerClass)
         (wanted : string) : M World (option ScannerClass) :=
  match classes with
  | [] => ret None
  | scanner_class :: rest =>
      bind (new_scanner scanner_class Config.DEFAULT_TIMEOUT)
           (fun scanner_instance =>
              if String.eqb (scan_type (class_of scanner_instance)) wanted
              then ret (Some scanner_class)
              else get_scanner_by_type_from rest wanted)
  end.

Definition get_scanner_by_type (wanted : string)
  : M World (option ScannerClass) :=
  get_scanner_by_type_from AVAILABLE_SCANNERS wanted.

(** [[scanner_class(timeout=timeout) for scanner_class in classes]] *)
Fixpoint new_scanners (classes : list ScannerClass) (t : Z)
  : M World (list Instance) :=
  match classes with
  | [] => ret []
  | c :: rest =>
      bind (new_scanner c t)
           (fun inst =>
              bind (new_scanners rest t) (fun insts => ret (inst :: insts)))
  end.

(** [main.get_scanners_to_run] *)
Definition get_scanners_to_run (wanted : string) (t : Z)
  : M World (list Instance) :=
  if String.eqb wanted "all"
  then new_scanners get_all_scanners t
  else
    bind (get_scanner_by_type wanted)
         (fun scanner_class =>
            match scanner_class with
            | Some c => bind (new_scanner c t) (fun inst => ret [inst])
            | None => ret []
            end).


End Orchestrator.

(* ================================================================= *)
(** * Properties *)

(** ** Strings *)

Lemma split_aux_nonempty (sep : string) (skip : nat) (cur s : string) :
  PyStr.split_aux sep skip cur s <> [].
Proof.
  revert skip cur. induction s as [|c s IH]; intros skip cur.
  - simpl. congruence.
  - cbn [PyStr.split_aux]. destruct skip; [|apply IH].
    destruct (prefix sep (String c s)); [congruence|apply IH].
Qed.

(** [s.split(sep)[0]] is always defined *)
Lemma split_nonempty (sep s : string) : PyStr.split sep s <> [].
Proof. apply split_aux_nonempty. Qed.

(** ** Outcomes *)

Lemma Ret_inj {A} (a b : A) : Ret a = Ret b -> a = b.
Proof. congruence. Qed.

(** ** The store *)

Lemma extend_at_nil (l : loc) (h : list (list Finding)) :
  extend_at l [] h = h.
Proof.
  revert l; induction h as [|x h IH]; intros [|l]; simpl; auto.
  - now rewrite app_nil_r.
  - now rewrite IH.
Qed.

Lemma extend_at_app (l : loc) (a b : list Finding) (h : list (list Finding)) :
  extend_at l b (extend_at l a h) = extend_at l (a ++ b) h.
Proof.
  revert l; induction h as [|x h IH]; intros [|l]; simpl; auto.
  - now rewrite app_assoc.
  - now rewrite IH.
Qed.

Lemma extend_at_fresh (fs : list Finding) (h : list (list Finding)) :
  extend_at (List.length h) fs (h ++ [[]]) = h ++ [fs].
Proof.
  induction h as [|x h IH]; simpl; auto.
  now rewrite IH.
Qed.

Lemma deref_fresh (fs : list Finding) (h : list (list Finding)) :
  deref (h ++ [fs]) (List.length h) = fs.
Proof.
  unfold deref. rewrite app_nth2 by lia. now rewrite Nat.sub_diag.
Qed.

Lemma deref_old (fs : list Finding) (h : list (list Finding)) (l : loc) :
  (l < List.length h)%nat -> deref (h ++ [fs]) l = deref h l.
Proof.
  intros Hl. unfold deref. now rewrite app_nth1.
Qed.

Section Runs.

Context {World : Type}.
Variable http : Request -> World -> outcome Response * World.

Lemma advance_id (st : State World) : advance (world st) [] [] st = st.
Proof.
  destruct st as [w h s tr]; unfold advance; simpl.
  now rewrite extend_at_nil, app_nil_r.
Qed.

Lemma advance_advance (w1 w2 : World) (tr1 tr2 : list Exchange)
      (fs1 fs2 : list Finding) (st : State World) :
  advance w2 tr2 fs2 (advance w1 tr1 fs1 st)
  = advance w2 (tr1 ++ tr2) (fs1 ++ fs2) st.
Proof.
  unfold advance; simpl. now rewrite extend_at_app, app_assoc.
Qed.

Lemma agree_advance (w : World) (tr : list Exchange) (fs : list Finding)
      (st1 st2 : State World) :
  agree st1 st2 -> agree (advance w tr fs st1) (advance w tr fs st2).
Proof.
  intros [_ Ht]; split; simpl; auto.
Qed.

Lemma agree_refl (st : State World) : agree st st.
Proof. split; reflexivity. Qed.

(** *** What the primitives do *)

Lemma send_run (req : Request) (st : State World) :
  send http req st
  = (fst (http req (world st)),
     advance (snd (http req (world st)))
             [(req, fst (http req (world st)))] [] st).
Proof.
  unfold send, advance. destruct (http req (world st)) as [answer w]; simpl.
  now rewrite extend_at_nil.
Qed.

Lemma append_run (v : Finding) (st : State World) :
  vulnerabilities_append v st = (Ret tt, advance (world st) [] [v] st).
Proof.
  unfold vulnerabilities_append, advance. now rewrite app_nil_r.
Qed.

Lemma ret_run {A} (a : A) (st : State World) :
  ret a st = (Ret a, advance (world st) [] [] st).
Proof. unfold ret. now rewrite advance_id. Qed.

Lemma bind_run {A B} (m : M World A) (k : A -> M World B) (st : State World) :
  bind m k st
  = match m st with
    | (Ret a, st') => k a st'
    | (Raise e, st') => (Raise e, st')
    end.
Proof. reflexivity. Qed.

(** the loop that appends an entry for every element passing a test *)
Lemma for_each_filter_run {A} (c : A -> bool) (f : A -> Finding)
      (xs : list A) (st : State World) :
  for_each xs (fun x => if c x then vulnerabilities_append (f x) else ret tt)
           st
  = (Ret tt, advance (world st) [] (map f (filter c xs)) st).
Proof.
  revert st; induction xs as [|x xs IH]; intros st; simpl.
  - apply ret_run.
  - rewrite bind_run. destruct (c x).
    + rewrite append_run, IH, advance_advance. reflexivity.
    + unfold ret at 1. apply IH.
Qed.

(** the loop that appends an entry for the first element passing a test
    and leaves *)
Lemma for_each_break_run {A} (c : A -> bool) (f : A -> Finding)
      (xs : list A) (st : State World) :
  for_each_break xs
    (fun x => if c x
              then bind (vulnerabilities_append (f x)) (fun _ => ret true)
              else ret false) st
  = (Ret tt,
     advance (world st) []
             (match List.find c xs with Some x => [f x] | None => [] end) st).
Proof.
  revert st; induction xs as [|x xs IH]; intros st; simpl.
  - apply ret_run.
  - rewrite bind_run. destruct (c x).
    + rewrite bind_run, append_run. reflexivity.
    + unfold ret at 1. apply IH.
Qed.

(** *** Uniform code *)

Lemma uniform_ret {A} (a : A) : uniform (World := World) (ret a).
Proof.
  intros st1 st2 [Hw _]. exists (Ret a), (world st1), [], [].
  split; [apply ret_run | rewrite Hw; apply ret_run].
Qed.

Lemma uniform_lift {A} (o : outcome A) : uniform (World := World) (lift o).
Proof.
  intros st1 st2 [Hw _]. exists o, (world st1), [], []. unfold lift.
  split; [now rewrite advance_id | rewrite Hw; now rewrite advance_id].
Qed.

Lemma uniform_raise {A} (e : exn) : uniform (World := World) (@raise _ A e).
Proof. apply (uniform_lift (Raise e)). Qed.

Lemma uniform_bind {A B} (m : M World A) (k : A -> M World B) :
  uniform m -> (forall a, uniform (k a)) -> uniform (bind m k).
Proof.
  intros Hm Hk st1 st2 Hag.
  destruct (Hm st1 st2 Hag) as (o & w & tr & fs & E1 & E2).
  rewrite !bind_run, E1, E2. destruct o as [a|e].
  - destruct (Hk a _ _ (agree_advance w tr fs _ _ Hag))
      as (o' & w' & tr' & fs' & E1' & E2').
    exists o', w', (tr ++ tr'), (fs ++ fs').
    now rewrite E1', E2', !advance_advance.
  - now exists (Raise e), w, tr, fs.
Qed.

Lemma uniform_try_except (body handler : M World unit) :
  uniform body -> uniform handler -> uniform (try_except body handler).
Proof.
  intros Hb Hh st1 st2 Hag.
  destruct (Hb st1 st2 Hag) as (o & w & tr & fs & E1 & E2).
  unfold try_except. rewrite E1, E2.
  destruct o as [a|[]]; try (now eexists _, w, tr, fs).
  destruct (Hh _ _ (agree_advance w tr fs _ _ Hag))
    as (o' & w' & tr' & fs' & E1' & E2').
  exists o', w', (tr ++ tr'), (fs ++ fs').
  now rewrite E1', E2', !advance_advance.
Qed.

Lemma uniform_for_each {A} (xs : list A) (body : A -> M World unit) :
  (forall x, uniform (body x)) -> uniform (for_each xs body).
Proof.
  intros Hb. induction xs as [|x xs IH]; simpl.
  - apply uniform_ret.
  - apply uniform_bind; auto.
Qed.

Lemma uniform_for_each_break {A} (xs : list A) (body : A -> M World bool) :
  (forall x, uniform (body x)) -> uniform (for_each_break xs body).
Proof.
  intros Hb. induction xs as [|x xs IH]; simpl.
  - apply uniform_ret.
  - apply uniform_bind; auto. intros [|]; auto. apply uniform_ret.
Qed.

Lemma uniform_append (v : Finding) :
  uniform (World := World) (vulnerabilities_append v).
Proof.
  intros st1 st2 [Hw _]. exists (Ret tt), (world st1), [], [v].
  split; [apply append_run | rewrite Hw; apply append_run].
Qed.

Lemma uniform_requests_get (u : string) (params : dict string)
      (allow : option bool) :
  uniform (requests_get http u params allow).
Proof.
  intros st1 st2 [Hw Ht]. unfold requests_get.
  rewrite !send_run, Ht, Hw. now eexists _, _, _, _.
Qed.

Lemma uniform_requests_options (u : string) :
  uniform (requests_options http u).
Proof.
  intros st1 st2 [Hw Ht]. unfold requests_options.
  rewrite !send_run, Ht, Hw. now eexists _, _, _, _.
Qed.

Lemma uniform_subscript (params : dict string) (param : string) :
  uniform (World := World) (subscript params param).
Proof.
  unfold subscript. destruct (PyDict.get params param).
  - apply uniform_ret.
  - apply uniform_raise.
Qed.

Lemma uniform_if {A} (b : bool) (m1 m2 : M World A) :
  uniform m1 -> uniform m2 -> uniform (if b then m1 else m2).
Proof. now destruct b. Qed.

End Runs.

Create HintDb uniform.

#[export] Hint Resolve uniform_ret uniform_lift uniform_raise uniform_bind
  uniform_try_except uniform_for_each uniform_for_each_break uniform_append
  uniform_requests_get uniform_requests_options uniform_subscript
  uniform_if : uniform.

Section Independence.

Context {World : Type}.
Variable http : Request -> World -> outcome Response * World.
Variable check_bracketed_netloc : string -> bool.
Variable checknetloc : string -> bool.
Variable unquote : string -> string.

Lemma uniform_loc_self :
  uniform_loc (World := World) self_vulnerabilities.
Proof.
  intros st1 st2 [Hw _]. exists (Ret tt), (world st1), [], [].
  unfold self_vulnerabilities; simpl.
  split; [now rewrite advance_id | rewrite Hw; now rewrite advance_id].
Qed.

Lemma uniform_loc_bind {A} (m : M World A) (k : A -> M World loc) :
  uniform m -> (forall a, uniform_loc (k a)) -> uniform_loc (bind m k).
Proof.
  intros Hm Hk st1 st2 Hag.
  destruct (Hm st1 st2 Hag) as (o & w & tr & fs & E1 & E2).
  rewrite !bind_run, E1, E2. destruct o as [a|e].
  - destruct (Hk a _ _ (agree_advance w tr fs _ _ Hag))
      as (o' & w' & tr' & fs' & E1' & E2').
    exists o', w', (tr ++ tr'), (fs ++ fs').
    rewrite E1', E2', !advance_advance. now destruct o'.
  - now exists (Raise e), w, tr, fs.
Qed.

(** A scan is [self.reset()] followed by uniform code: what it returns is
    a new list object holding what that code appended. *)
Lemma reset_then_uniform (m : M World loc) (st1 st2 : State World) :
  uniform_loc m -> agree st1 st2 ->
  exists (o : outcome unit) w tr fs,
    bind reset (fun _ => m) st1
    = (match o with
       | Ret _ => Ret (List.length (heap st1))
       | Raise e => Raise e
       end,
       {| world := w; heap := heap st1 ++ [fs];
          self := {| timeout := timeout (self st1);
                     vulnerabilities := List.length (heap st1) |};
          trace := trace st1 ++ tr |})
    /\ bind reset (fun _ => m) st2
       = (match o with
          | Ret _ => Ret (List.length (heap st2))
          | Raise e => Raise e
          end,
          {| world := w; heap := heap st2 ++ [fs];
             self := {| timeout := timeout (self st2);
                        vulnerabilities := List.length (heap st2) |};
             trace := trace st2 ++ tr |}).
Proof.
  intros Hm [Hw Ht]. rewrite !bind_run. unfold reset.
  match goal with
  | |- context [m ?a] =>
      match goal with
      | |- context [m ?b] =>
          lazymatch a with b => fail | _ => idtac end;
          destruct (Hm a b) as (o & w & tr & fs & E1 & E2);
          [split; simpl; auto|]
      end
  end.
  exists o, w, tr, fs. rewrite E1, E2. unfold advance; simpl.
  rewrite !extend_at_fresh. now destruct o.
Qed.

Lemma XSSScanner_uniform (target_url : string)
      (params : option (dict string)) :
  exists m, uniform_loc m
    /\ XSSScanner_scan http check_bracketed_netloc checknetloc unquote
         target_url params = bind reset (fun _ => m).
Proof.
  eexists; split; [|reflexivity].
  apply uniform_loc_bind.
  - unfold params_or_extract; auto with uniform.
  - intros [|kv d]; [apply uniform_loc_self|].
    apply uniform_loc_bind; [|intros; apply uniform_loc_self].
    auto 20 with uniform.
Qed.

Lemma SQLiScanner_uniform (target_url : string)
      (params : option (dict string)) :
  exists m, uniform_loc m
    /\ SQLiScanner_scan http check_bracketed_netloc checknetloc unquote
         target_url params = bind reset (fun _ => m).
Proof.
  eexists; split; [|reflexivity].
  apply uniform_loc_bind.
  - unfold params_or_extract; auto with uniform.
  - intros [|kv d]; [apply uniform_loc_self|].
    apply uniform_loc_bind; [|intros; apply uniform_loc_self].
    unfold SQLiScanner_trial.
    repeat (first [ apply uniform_for_each; intros
                  | apply uniform_try_except
                  | apply uniform_bind; intros
                  | apply uniform_for_each_break; intros
                  | apply uniform_if
                  | solve [auto with uniform] ]).
Qed.

Lemma HTTPScanner_uniform (target_url : string)
      (params : option (dict string)) :
  exists m, uniform_loc m
    /\ HTTPScanner_scan http target_url params = bind reset (fun _ => m).
Proof.
  eexists; split; [|reflexivity].
  apply uniform_loc_bind; [|intros; apply uniform_loc_self].
  repeat (first [ apply uniform_for_each; intros
                | apply uniform_try_except
                | apply uniform_bind; intros
                | apply uniform_if
                | solve [auto with uniform] ]).
Qed.

Lemma RedirectScanner_uniform (target_url : string)
      (params : option (dict string)) :
  exists m, uniform_loc m
    /\ RedirectScanner_scan http check_bracketed_netloc checknetloc
         target_url params = bind reset (fun _ => m).
Proof.
  eexists; split; [|reflexivity].
  apply uniform_loc_bind; [auto with uniform|]. intros parsed_base_url.
  apply uniform_loc_bind; [|intros; apply uniform_loc_self].
  unfold RedirectScanner_trial.
  repeat (first [ apply uniform_for_each; intros
                | apply uniform_try_except
                | apply uniform_bind; intros
                | apply uniform_if
                | solve [auto with uniform] ]).
Qed.

Lemma reset_then_uniform_result (scan m : M World loc)
      (st1 st2 : State World) :
  uniform_loc m -> scan = bind reset (fun _ => m) -> agree st1 st2 ->
  result_of_this_call scan st1 st2.
Proof.
  intros Hm -> Hag.
  destruct (reset_then_uniform m st1 st2 Hm Hag)
    as (o & w & tr & fs & E1 & E2).
  unfold result_of_this_call, returned. rewrite E1, E2; simpl. split.
  - destruct o; simpl; auto. now rewrite !deref_fresh.
  - exists fs. repeat split. intros l. destruct o; congruence.
Qed.

(** C7: every one of the four [scan] methods starts with [self.reset()],
    which binds [self.vulnerabilities] to a new empty list; so the list a
    call returns is the same from any two states of the instance that meet
    the same network with the same timeout, whatever earlier calls left in
    the accumulator, and the lists returned earlier are not touched. *)
Theorem scan_result_independent_of_earlier_calls
        (target_url : string) (params : option (dict string))
        (st1 st2 : State World) :
  agree st1 st2 ->
  result_of_this_call
    (XSSScanner_scan http check_bracketed_netloc checknetloc unquote
       target_url params) st1 st2
  /\ result_of_this_call
       (SQLiScanner_scan http check_bracketed_netloc checknetloc unquote
          target_url params) st1 st2
  /\ result_of_this_call (HTTPScanner_scan http target_url params) st1 st2
  /\ result_of_this_call
       (RedirectScanner_scan http check_bracketed_netloc checknetloc
          target_url params) st1 st2.
Proof.
  intros Hag.
  destruct (XSSScanner_uniform target_url params) as (m1 & U1 & E1).
  destruct (SQLiScanner_uniform target_url params) as (m2 & U2 & E2).
  destruct (HTTPScanner_uniform target_url params) as (m3 & U3 & E3).
  destruct (RedirectScanner_uniform target_url params) as (m4 & U4 & E4).
  split; [|split; [|split]].
  - exact (reset_then_uniform_result _ m1 st1 st2 U1 E1 Hag).
  - exact (reset_then_uniform_result _ m2 st1 st2 U2 E2 Hag).
  - exact (reset_then_uniform_result _ m3 st1 st2 U3 E3 Hag).
  - exact (reset_then_uniform_result _ m4 st1 st2 U4 E4 Hag).
Qed.

End Independence.

Lemma scan_result_independent_of_earlier_calls_witness :
  agree (Example.used 10) (Example.fresh 10)
  /\ returned
       (XSSScanner_scan (Example.constant_page "<script>alert(1)</script>")
          Example.accept Example.accept Example.identity
          "http://example.com?name=test" None (Example.used 10))
     = returned
         (XSSScanner_scan (Example.constant_page "<script>alert(1)</script>")
            Example.accept Example.accept Example.identity
            "http://example.com?name=test" None (Example.fresh 10)).
Proof.
  split; [split; reflexivity|].
  apply (scan_result_independent_of_earlier_calls
           (Example.constant_page "<script>alert(1)</script>")
           Example.accept Example.accept Example.identity
           "http://example.com?name=test" None
           (Example.used 10) (Example.fresh 10)).
  split; reflexivity.
Defined.

(* ================================================================= *)
(** ** The parameter gate of the XSS and SQLi scanners *)

Section Gate.

Context {World : Type}.
Variable http : Request -> World -> outcome Response * World.
Variable check_bracketed_netloc : string -> bool.
Variable checknetloc : string -> bool.
Variable unquote : string -> string.

Lemma exchanges_none (st st' : State World) (o : outcome loc) :
  trace st' = trace st -> exchanges st (o, st') = [].
Proof.
  intros E. unfold exchanges; simpl. rewrite E. apply skipn_all.
Qed.

Lemma exchanges_app (st st' : State World) (o : outcome loc)
      (tr : list Exchange) :
  trace st' = trace st ++ tr -> exchanges st (o, st') = tr.
Proof.
  intros E. unfold exchanges; simpl. rewrite E, skipn_app, skipn_all.
  now rewrite Nat.sub_diag.
Qed.

Lemma XSSScanner_gated (target_url : string) (params : option (dict string))
      (st : State World) :
  falsy params = true ->
  extract_params check_bracketed_netloc checknetloc unquote target_url
  = Ret [] ->
  XSSScanner_scan http check_bracketed_netloc checknetloc unquote
    target_url params st = gated st.
Proof.
  intros Hp He. unfold XSSScanner_scan. rewrite bind_run; simpl.
  rewrite bind_run.
  destruct params as [[|kv d]|]; try discriminate;
    unfold params_or_extract, resolve_params, lift; rewrite He; reflexivity.
Qed.

Lemma SQLiScanner_gated (target_url : string) (params : option (dict string))
      (st : State World) :
  falsy params = true ->
  extract_params check_bracketed_netloc checknetloc unquote target_url
  = Ret [] ->
  SQLiScanner_scan http check_bracketed_netloc checknetloc unquote
    target_url params st = gated st.
Proof.
  intros Hp He. unfold SQLiScanner_scan. rewrite bind_run; simpl.
  rewrite bind_run.
  destruct params as [[|kv d]|]; try discriminate;
    unfold params_or_extract, resolve_params, lift; rewrite He; reflexivity.
Qed.

Lemma gated_returned (st : State World) : returned (gated st) = Ret [].
Proof. unfold returned, gated; simpl. now rewrite deref_fresh. Qed.

Lemma gated_exchanges (st : State World) : exchanges st (gated st) = [].
Proof. unfold exchanges, gated; simpl. apply skipn_all. Qed.

Lemma parse_qsl_blank (qs : string) :
  forallb blank_valued (PyStr.split "&" qs) = true ->
  Urllib.parse_qsl unquote qs = [].
Proof.
  intros H. unfold Urllib.parse_qsl.
  destruct (String.eqb qs EmptyString); [reflexivity|].
  induction (PyStr.split "&" qs) as [|f fs IH]; [reflexivity|].
  simpl in H. apply andb_prop in H as [Hf Hfs]. simpl.
  rewrite (IH Hfs), app_nil_r.
  destruct (String.eqb f EmptyString); [reflexivity|].
  unfold blank_valued in Hf.
  destruct (PyStr.split1 "=" f) as [n [v|]]; [|reflexivity].
  apply String.eqb_eq in Hf; subst v. reflexivity.
Qed.

Lemma extract_params_of_query (target_url : string)
      (parsed : Urllib.SplitResult) :
  Urllib.urlparse check_bracketed_netloc checknetloc target_url = Ret parsed ->
  Urllib.parse_qsl unquote (Urllib.query parsed) = [] ->
  extract_params check_bracketed_netloc checknetloc unquote target_url
  = Ret [].
Proof.
  intros Hu Hq. unfold extract_params. rewrite Hu.
  unfold Urllib.parse_qs. rewrite Hq. reflexivity.
Qed.

(** C2: when the URL parses and its query string is empty, and the call
    passes no parameters, the XSS scan and the SQLi scan each return an
    empty list, log no HTTP exchange and leave the network as it was. *)
Theorem no_query_no_findings
        (target_url : string) (parsed : Urllib.SplitResult)
        (params : option (dict string)) (st : State World) :
  falsy params = true ->
  Urllib.urlparse check_bracketed_netloc checknetloc target_url = Ret parsed ->
  Urllib.query parsed = EmptyString ->
  let xss := XSSScanner_scan http check_bracketed_netloc checknetloc unquote
               target_url params st in
  let sqli := SQLiScanner_scan http check_bracketed_netloc checknetloc unquote
                target_url params st in
  (returned xss = Ret [] /\ exchanges st xss = []
   /\ world (snd xss) = world st)
  /\ (returned sqli = Ret [] /\ exchanges st sqli = []
      /\ world (snd sqli) = world st).
Proof.
  intros Hp Hu Hq xss sqli.
  assert (He : extract_params check_bracketed_netloc checknetloc unquote
                 target_url = Ret []).
  { apply (extract_params_of_query _ parsed Hu). now rewrite Hq. }
  subst xss sqli.
  rewrite (XSSScanner_gated _ _ st Hp He), (SQLiScanner_gated _ _ st Hp He).
  rewrite gated_returned, gated_exchanges. repeat split.
Qed.

(** C9: when every field of the query string assigns the empty value,
    [parse_qs] drops them all, [extract_params] returns the empty mapping,
    and the XSS scan and the SQLi scan each return an empty list without
    any HTTP exchange, although the query string is not empty. *)
Theorem blank_values_no_findings
        (target_url : string) (parsed : Urllib.SplitResult)
        (st : State World) :
  Urllib.urlparse check_bracketed_netloc checknetloc target_url = Ret parsed ->
  forallb blank_valued (PyStr.split "&" (Urllib.query parsed)) = true ->
  let xss := XSSScanner_scan http check_bracketed_netloc checknetloc unquote
               target_url None st in
  let sqli := SQLiScanner_scan http check_bracketed_netloc checknetloc unquote
                target_url None st in
  Urllib.query parsed <> EmptyString
  /\ extract_params check_bracketed_netloc checknetloc unquote target_url
     = Ret []
  /\ (returned xss = Ret [] /\ exchanges st xss = [])
  /\ (returned sqli = Ret [] /\ exchanges st sqli = []).
Proof.
  intros Hu Hb xss sqli.
  assert (He : extract_params check_bracketed_netloc checknetloc unquote
                 target_url = Ret []).
  { apply (extract_params_of_query _ parsed Hu). now apply parse_qsl_blank. }
  subst xss sqli.
  rewrite (XSSScanner_gated _ None st eq_refl He),
          (SQLiScanner_gated _ None st eq_refl He).
  rewrite gated_returned, gated_exchanges. repeat split; auto.
  intros Hq. rewrite Hq in Hb. discriminate Hb.
Qed.

End Gate.

Lemma no_query_no_findings_witness :
  let xss := XSSScanner_scan (Example.constant_page "<script>alert(1)</script>")
               Example.accept Example.accept Example.identity
               "http://example.com" None (Example.fresh 10) in
  returned xss = Ret [] /\ exchanges (Example.fresh 10) xss = [].
Proof.
  destruct (no_query_no_findings
              (Example.constant_page "<script>alert(1)</script>")
              Example.accept Example.accept Example.identity
              "http://example.com"
              {| Urllib.scheme := "http"; Urllib.netloc := "example.com";
                 Urllib.path := ""; Urllib.query := "";
                 Urllib.fragment := "" |}
              None (Example.fresh 10) eq_refl eq_refl eq_refl)
    as [[H1 [H2 _]] _].
  split; [exact H1 | exact H2].
Defined.

Lemma blank_values_no_findings_witness :
  extract_params Example.accept Example.accept Example.identity
    "http://example.com/?name=&id=" = Ret []
  /\ returned
       (SQLiScanner_scan (Example.constant_page "SQL syntax")
          Example.accept Example.accept Example.identity
          "http://example.com/?name=&id=" None (Example.fresh 10))
     = Ret [].
Proof.
  destruct (blank_values_no_findings
              (Example.constant_page "SQL syntax")
              Example.accept Example.accept Example.identity
              "http://example.com/?name=&id="
              {| Urllib.scheme := "http"; Urllib.netloc := "example.com";
                 Urllib.path := "/"; Urllib.query := "name=&id=";
                 Urllib.fragment := "" |}
              (Example.fresh 10) eq_refl eq_refl)
    as [_ [H1 [_ [H2 _]]]].
  split; [exact H1 | exact H2].
Defined.

(* ================================================================= *)
(** ** The HTTP-misconfiguration scanner *)
Section HTTPScanner.

Context {World : Type}.
Variable http : Request -> World -> outcome Response * World.

Lemma HTTPScanner_scan_run
        (target_url : string) (params : option (dict string))
        (st : State World) :
  let get := {| req_method := GET; req_url := target_url; req_params := [];
                req_timeout := timeout (self st);
                allow_redirects := true |} in
  let options := {| req_method := OPTIONS; req_url := target_url;
                    req_params := []; req_timeout := timeout (self st);
                    allow_redirects := true |} in
  let st0 := snd (reset st) in
  let l := List.length (heap st) in
  HTTPScanner_scan http target_url params st
  = match http get (world st) with
    | (Raise e, w) => (unless_caught e l, advance w [(get, Raise e)] [] st0)
    | (Ret response, w) =>
        let missing :=
          map (fun header =>
                 missing_header_vulnerability target_url header response)
              (filter (fun header =>
                         negb (PyDict.mem (PyStr.lower header)
                                 (lowered_headers response)))
                      Config.REQUIRED_SECURITY_HEADERS) in
        match http options w with
        | (Raise e, w') =>
            (unless_caught e l,
             advance w' [(get, Ret response); (options, Raise e)]
                     missing st0)
        | (Ret options_response, w') =>
            (Ret l,
             advance w' [(get, Ret response);
                         (options, Ret options_response)]
               (missing
                ++ map (fun method =>
                          insecure_method_vulnerability target_url method
                            options_response)
                     (filter (fun method =>
                                existsb (String.eqb method)
                                  (PyStr.split ", "
                                     (headers_get (headers options_response)
                                        "Allow" "")))
                             Config.FORBIDDEN_HTTP_METHODS))
               st0)
        end
    end.
Proof.
  intros get options st0 l. unfold HTTPScanner_scan.
  rewrite bind_run. change (reset st) with (Ret tt, st0). cbv beta iota.
  rewrite bind_run. unfold try_except at 1. rewrite bind_run.
  unfold requests_get. rewrite send_run.
  change (timeout (self st0)) with (timeout (self st)).
  change (world st0) with (world st). fold get.
  destruct (http get (world st)) as [[response|e] w]; cbn [fst snd].
  - rewrite bind_run, for_each_filter_run. cbv beta iota.
    unfold try_except. rewrite bind_run.
    unfold requests_options. rewrite send_run.
    cbn [world self advance timeout].
    change (timeout (self st0)) with (timeout (self st)). fold options.
    destruct (http options w) as [[options_response|e] w']; cbn [fst snd].
    + rewrite for_each_filter_run. cbn [world advance].
      rewrite !advance_advance. reflexivity.
    + destruct e; unfold ret, unless_caught; rewrite !advance_advance;
        cbn [app]; rewrite ?app_nil_r; reflexivity.
  - destruct e; reflexivity.
Qed.

(** C5: when the GET raises a [RequestException] the scan returns an
    empty list; when the GET answers and the OPTIONS request raises, the
    scan returns exactly the missing-header entries computed from the GET
    response, one for each required header that response lacks, and no
    entry of the method check. *)
Theorem http_scan_request_failures
        (target_url : string) (params : option (dict string))
        (st : State World) :
  let get := {| req_method := GET; req_url := target_url; req_params := [];
                req_timeout := timeout (self st);
                allow_redirects := true |} in
  let options := {| req_method := OPTIONS; req_url := target_url;
                    req_params := []; req_timeout := timeout (self st);
                    allow_redirects := true |} in
  (fst (http get (world st)) = Raise RequestException ->
   returned (HTTPScanner_scan http target_url params st) = Ret [])
  /\ (forall response w,
        http get (world st) = (Ret response, w) ->
        fst (http options w) = Raise RequestException ->
        returned (HTTPScanner_scan http target_url params st)
        = Ret (map (fun header =>
                      missing_header_vulnerability target_url header response)
                   (filter (fun header =>
                              negb (PyDict.mem (PyStr.lower header)
                                      (lowered_headers response)))
                           Config.REQUIRED_SECURITY_HEADERS))).
Proof.
  intros get options. pose proof (HTTPScanner_scan_run target_url params st)
    as E. cbv zeta in E. fold get options in E. split.
  - intros Hget. rewrite E. destruct (http get (world st)) as [a w].
    cbn [fst] in Hget. subst a.
    unfold returned, advance; simpl. now rewrite extend_at_fresh, deref_fresh.
  - intros response w Hget Hopt. rewrite E, Hget.
    destruct (http options w) as [a w']. cbn [fst] in Hopt. subst a.
    unfold returned, advance;
      cbn [fst snd heap self vulnerabilities reset unless_caught].
    now rewrite extend_at_fresh, deref_fresh.
Qed.

End HTTPScanner.

Lemma http_scan_request_failures_witness :
  returned (HTTPScanner_scan Example.unreachable "http://example.com" None
              (Example.fresh 10)) = Ret []
  /\ returned (HTTPScanner_scan Example.no_options "http://example.com" None
                 (Example.fresh 10))
     = Ret (map (fun header =>
                   missing_header_vulnerability "http://example.com" header
                     {| status_code := 200; text := EmptyString;
                        url := "http://example.com";
                        headers := [("X-Frame-Options", "DENY")] |})
                [ "X-XSS-Protection"; "Content-Security-Policy";
                  "Strict-Transport-Security"; "X-Content-Type-Options" ]).
Proof.
  split.
  - apply (http_scan_request_failures Example.unreachable
             "http://example.com" None (Example.fresh 10)).
    reflexivity.
  - apply (proj2 (http_scan_request_failures Example.no_options
                    "http://example.com" None (Example.fresh 10))
                 {| status_code := 200; text := EmptyString;
                    url := "http://example.com";
                    headers := [("X-Frame-Options", "DENY")] |} tt);
      reflexivity.
Defined.


(* ================================================================= *)
(** ** The SQLi scanner *)

Lemma get_of_key {V} (d : dict V) (k : string) :
  In k (PyDict.keys d) -> exists v, PyDict.get d k = Some v.
Proof.
  induction d as [|[k' v'] d IH]; simpl; [tauto|].
  intros [->|H].
  - rewrite String.eqb_refl. now exists v'.
  - destruct (String.eqb k k'); [now exists v' | auto].
Qed.

Section Loops.

Context {World : Type}.

(** a loop whose body either ends a turn as [T] says or raises as [R]
    says: the loop runs all its turns, or stops at the first that raises *)
Lemma emits_for_each_outcome {A} (t : Z)
      (T : A -> list Exchange -> list Finding -> Prop)
      (R : exn -> list Exchange -> Prop)
      (xs : list A) (body : A -> M World unit) :
  (forall e tr0 tr, R e tr -> R e (tr0 ++ tr)) ->
  (forall x, In x xs ->
     emits t (body x)
           (fun o tr fs =>
              match o with Ret _ => T x tr fs | Raise e => R e tr end)) ->
  emits t (for_each xs body)
        (fun o tr fs =>
           match o with Ret _ => segs T xs tr fs | Raise e => R e tr end).
Proof.
  intros HR. induction xs as [|x xs IH]; intros Hb st Ht; simpl.
  - exists (Ret tt), (world st), [], []. rewrite ret_run.
    split; [reflexivity|]. constructor.
  - destruct (Hb x (or_introl eq_refl) st Ht)
      as (o & w & tr & fs & E & HT).
    rewrite bind_run, E. destruct o as [[]|e].
    + destruct (IH (fun y Hy => Hb y (or_intror Hy)) (advance w tr fs st) Ht)
        as (o' & w' & tr' & fs' & E' & HS).
      exists o', w', (tr ++ tr'), (fs ++ fs').
      rewrite E', advance_advance. split; [reflexivity|].
      destruct o' as [[]|e]; [now constructor|now apply HR].
    + exists (Raise e), w, tr, fs. split; [reflexivity|exact HT].
Qed.

Lemma emits_for_each_returning {A} (t : Z)
      (T : A -> list Exchange -> list Finding -> Prop)
      (xs : list A) (body : A -> M World unit) :
  (forall x, In x xs ->
     emits t (body x) (fun o tr fs => o = Ret tt -> T x tr fs)) ->
  emits t (for_each xs body) (fun o tr fs => o = Ret tt -> segs T xs tr fs).
Proof.
  intros Hb st Ht.
  destruct (emits_for_each_outcome t T (fun _ _ => True) xs body) with (st := st)
    as (o & w & tr & fs & E & H); auto.
  - intros x Hx s Hs. destruct (Hb x Hx s Hs) as (o & w & tr & fs & E & H).
    exists o, w, tr, fs. split; [exact E|].
    destruct o as [[]|e]; [now apply H|exact I].
  - exists o, w, tr, fs. split; [exact E|].
    intros ->. exact H.
Qed.

Lemma escaped_app (e : exn) (tr0 tr : list Exchange) :
  escaped e tr -> escaped e (tr0 ++ tr).
Proof.
  intros [Hne (before & request & ->)]. split; [exact Hne|].
  exists (tr0 ++ before), request. now rewrite app_assoc.
Qed.

Lemma escaped_last (e : exn) (before : list Exchange) (request : Request) :
  e <> RequestException -> escaped e (before ++ [(request, Raise e)]).
Proof. intros Hne. split; [exact Hne|]. now exists before, request. Qed.

End Loops.

(** *** Reading a segmented log *)

Lemma segs_entry {A} (T : A -> list Exchange -> list Finding -> Prop)
      (xs : list A) (tr : list Exchange) (fs : list Finding) (f : Finding) :
  segs T xs tr fs -> In f fs ->
  exists x tr0 fs0 before after,
    In x xs /\ T x tr0 fs0 /\ In f fs0 /\ tr = before ++ tr0 ++ after.
Proof.
  induction 1 as [|x xs tr fs tr' fs' HT HS IH]; [intros []|].
  intros Hin. apply in_app_or in Hin as [Hin|Hin].
  - exists x, tr, fs, [], tr'. simpl. auto.
  - destruct (IH Hin) as (y & tr0 & fs0 & b & a & Hy & HTy & Hf & ->).
    exists y, tr0, fs0, (tr ++ b), a. rewrite <- app_assoc. simpl; auto.
Qed.

Lemma segs_exchange {A} (T : A -> list Exchange -> list Finding -> Prop)
      (xs : list A) (tr : list Exchange) (fs : list Finding) (e : Exchange) :
  segs T xs tr fs -> In e tr ->
  exists x tr0 fs0 before after,
    In x xs /\ T x tr0 fs0 /\ In e tr0 /\ tr = before ++ tr0 ++ after.
Proof.
  induction 1 as [|x xs tr fs tr' fs' HT HS IH]; [intros []|].
  intros Hin. apply in_app_or in Hin as [Hin|Hin].
  - exists x, tr, fs, [], tr'. simpl. auto.
  - destruct (IH Hin) as (y & tr0 & fs0 & b & a & Hy & HTy & Hf & ->).
    exists y, tr0, fs0, (tr ++ b), a. rewrite <- app_assoc. simpl; auto.
Qed.


Section SQLiScanner.

Context {World : Type}.
Variable http : Request -> World -> outcome Response * World.
Variable check_bracketed_netloc : string -> bool.
Variable checknetloc : string -> bool.
Variable unquote : string -> string.

Lemma SQLiScanner_trial_emits (target_url : string) (params : dict string)
      (payload param : string) (t : Z) :
  In param (PyDict.keys params) ->
  emits t (SQLiScanner_trial http target_url params payload param)
        (fun o tr fs =>
           match o with
           | Ret _ => sqli_trial target_url t params payload param tr fs
           | Raise e => escaped e tr
           end).
Proof.
  intros Hk st Ht. destruct (get_of_key params param Hk) as [v Hv].
  unfold SQLiScanner_trial, try_except at 1.
  rewrite bind_run. unfold requests_get at 1. rewrite send_run, Ht.
  fold (sqli_probe_request target_url t params payload param).
  set (probe := sqli_probe_request target_url t params payload param).
  destruct (http probe (world st)) as [[response|e] w]; cbn [fst snd].
  - rewrite bind_run, for_each_break_run. cbv beta iota.
    unfold try_except. rewrite bind_run. unfold subscript. rewrite Hv.
    unfold ret at 1. cbv beta iota. rewrite bind_run.
    unfold requests_get. rewrite send_run. cbn [world self advance].
    rewrite Ht.
    fold (sqli_baseline_request target_url t param v).
    set (baseline := sqli_baseline_request target_url t param v).
    fold (error_based_entries payload param response).
    rewrite !advance_advance. cbn [app].
    destruct (http baseline w) as [[original|e] w']; cbn [fst snd].
    + assert (HT : sqli_trial target_url t params payload param
                     [(probe, Ret response); (baseline, Ret original)]
                     (error_based_entries payload param response
                      ++ boolean_based_entries payload param response
                           (Ret original))).
      { right. exists response, v, (Ret original).
        repeat split; auto. discriminate. }
      unfold boolean_based_entries in HT. cbv zeta in HT.
      destruct (Z.abs (len (text response) - len (text original))
                >? Config.RESPONSE_LENGTH_THRESHOLD)%Z.
      * rewrite append_run, advance_advance. cbn [world advance app].
        eexists _, _, _, _. split; [reflexivity|].
        rewrite app_nil_r. exact HT.
      * unfold ret. eexists _, _, _, _. split; [reflexivity|]. exact HT.
    + assert (HT : sqli_trial target_url t params payload param
                     [(probe, Ret response);
                      (baseline, Raise RequestException)]
                     (error_based_entries payload param response
                      ++ boolean_based_entries payload param response
                           (Raise RequestException))).
      { right. exists response, v, (Raise RequestException).
        repeat split; auto. now intros ? [= <-]. }
      cbn [boolean_based_entries] in HT.
      destruct e; unfold ret;
        (eexists _, _, _, _; split; [reflexivity|]);
        first [ exact HT
              | apply (escaped_last _ [(probe, Ret response)] baseline);
                discriminate ].
  - destruct e; unfold ret;
      (eexists _, _, _, _; split; [reflexivity|]);
      first [ now left
            | apply (escaped_last _ [] probe); discriminate ].
Qed.

(** what a scan with parameters comes to: every trial ran and the scan
    returns the new list, or an exception of the HTTP client that is not
    a [RequestException] ended it *)
Lemma SQLiScanner_scan_outcome (target_url : string)
      (params : option (dict string)) (kv : string * string)
      (d : dict string) (st : State World) :
  resolve_params check_bracketed_netloc checknetloc unquote target_url params
  = Ret (kv :: d) ->
  exists (o : outcome unit) w tr fs,
    SQLiScanner_scan http check_bracketed_netloc checknetloc unquote
      target_url params st
    = (match o with
       | Ret _ => Ret (List.length (heap st))
       | Raise e => Raise e
       end,
       {| world := w; heap := heap st ++ [fs];
          self := {| timeout := timeout (self st);
                     vulnerabilities := List.length (heap st) |};
          trace := trace st ++ tr |})
    /\ match o with
       | Ret _ =>
           segs (fun payload =>
                   segs (sqli_trial target_url (timeout (self st)) (kv :: d)
                           payload)
                        (PyDict.keys (kv :: d)))
                Config.SQLI_PAYLOADS tr fs
       | Raise e => escaped e tr
       end.
Proof.
  intros Hp. unfold SQLiScanner_scan. rewrite bind_run.
  change (reset st) with (Ret tt, snd (reset st)). cbv beta iota.
  set (st0 := snd (reset st)).
  rewrite bind_run. unfold params_or_extract, lift. rewrite Hp.
  cbv beta iota. rewrite bind_run.
  destruct (emits_for_each_outcome (timeout (self st))
              (fun payload =>
                 segs (sqli_trial target_url (timeout (self st)) (kv :: d)
                         payload)
                      (PyDict.keys (kv :: d)))
              escaped
              Config.SQLI_PAYLOADS
              (fun payload =>
                 for_each (PyDict.keys (kv :: d))
                   (fun param =>
                      SQLiScanner_trial http target_url (kv :: d) payload
                        param)))
    with (st := st0) as (o & w & tr & fs & E & HS).
  - intros e tr0 tr. apply escaped_app.
  - intros payload _. apply emits_for_each_outcome.
    + intros e tr0 tr. apply escaped_app.
    + intros param Hk. now apply SQLiScanner_trial_emits.
  - reflexivity.
  - exists o, w, tr, fs. rewrite E. split; [|exact HS].
    unfold self_vulnerabilities, advance, st0; simpl.
    rewrite extend_at_fresh. now destruct o as [[]|e].
Qed.

(** the trial an entry of a scan comes from, and where its exchanges lie
    in the log *)
Lemma sqli_entry_trial (target_url : string) (t : Z) (d : dict string)
      (tr : list Exchange) (fs : list Finding) (f : Finding) :
  segs (fun payload => segs (sqli_trial target_url t d payload)
                            (PyDict.keys d))
       Config.SQLI_PAYLOADS tr fs ->
  In f fs ->
  exists payload param tr0 fs0 before after,
    In payload Config.SQLI_PAYLOADS /\ In param (PyDict.keys d)
    /\ sqli_trial target_url t d payload param tr0 fs0
    /\ In f fs0 /\ tr = before ++ tr0 ++ after.
Proof.
  intros HS Hf.
  destruct (segs_entry _ _ _ _ _ HS Hf)
    as (payload & tr1 & fs1 & b1 & a1 & Hp & HS1 & Hf1 & ->).
  destruct (segs_entry _ _ _ _ _ HS1 Hf1)
    as (param & tr0 & fs0 & b0 & a0 & Hk & HT & Hf0 & ->).
  exists payload, param, tr0, fs0, (b1 ++ b0), (a0 ++ a1).
  repeat split; auto. now rewrite <- !app_assoc.
Qed.

Lemma error_based_entries_type (payload param : string) (r : Response)
      (f : Finding) :
  In f (error_based_entries payload param r) ->
  get_str f "type" = Some "SQL Injection (Error-Based)".
Proof.
  unfold error_based_entries.
  destruct (find _ _); [intros [<-|[]]; reflexivity | intros []].
Qed.

(** the boolean-based entry of a trial: the baseline was answered and the
    two bodies differ in length by more than the threshold *)
Lemma boolean_based_entries_inv (payload param : string)
      (response : Response) (original : outcome Response) (f : Finding) :
  In f (boolean_based_entries payload param response original) ->
  exists original_response,
    original = Ret original_response
    /\ f = boolean_based_vulnerability payload param response
             (Z.abs (len (text response) - len (text original_response)))
    /\ (Config.RESPONSE_LENGTH_THRESHOLD
        < Z.abs (len (text response) - len (text original_response)))%Z.
Proof.
  unfold boolean_based_entries.
  destruct original as [original_response|e]; [|intros []]. cbv zeta.
  destruct (Z.abs (len (text response) - len (text original_response))
            >? Config.RESPONSE_LENGTH_THRESHOLD)%Z eqn:Hgt; [|intros []].
  intros [<-|[]]. exists original_response.
  repeat split. now apply Z.gtb_lt in Hgt.
Qed.

(** what a scan that returns has done *)
Lemma SQLiScanner_returned (target_url : string)
      (params : option (dict string)) (st : State World)
      (fs : list Finding) :
  returned (SQLiScanner_scan http check_bracketed_netloc checknetloc unquote
              target_url params st) = Ret fs ->
  (fs = []
   /\ exchanges st
        (SQLiScanner_scan http check_bracketed_netloc checknetloc unquote
           target_url params st) = [])
  \/ exists kv d tr,
       resolve_params check_bracketed_netloc checknetloc unquote
         target_url params = Ret (kv :: d)
       /\ exchanges st
            (SQLiScanner_scan http check_bracketed_netloc checknetloc unquote
               target_url params st) = tr
       /\ segs (fun payload =>
                  segs (sqli_trial target_url (timeout (self st)) (kv :: d)
                          payload)
                       (PyDict.keys (kv :: d)))
               Config.SQLI_PAYLOADS tr fs.
Proof.
  destruct (resolve_params check_bracketed_netloc checknetloc unquote
              target_url params) as [[|kv d]|e] eqn:Hp.
  - intros H. left. revert H. unfold SQLiScanner_scan.
    rewrite bind_run; simpl. rewrite bind_run.
    unfold params_or_extract, lift. rewrite Hp.
    change (returned (gated st) = Ret fs
            -> fs = [] /\ exchanges st (gated st) = []).
    rewrite gated_returned, gated_exchanges. intros [= <-]. now split.
  - destruct (SQLiScanner_scan_outcome target_url params kv d st Hp)
      as (o & w & tr & fs' & E & HS).
    rewrite E. destruct o as [[]|e]; [|discriminate].
    unfold returned; simpl. rewrite deref_fresh. intros [= <-].
    right. exists kv, d, tr. repeat split; auto.
    now apply exchanges_app.
  - unfold SQLiScanner_scan. rewrite bind_run; simpl. rewrite bind_run.
    unfold params_or_extract, lift. rewrite Hp. discriminate.
Qed.

(** C3: every boolean-based entry of the returned list is the entry of
    one trial of the scan, for a payload and a parameter that the entry
    names: the log holds the probe request of that trial for that payload
    and parameter and, right after it, its baseline request for that
    parameter, both answered; the entry was built from the probe response
    and reports, in its description, the absolute difference between the
    body length of that probe response and the body length of that
    baseline response, and that difference is greater than 50. *)
Theorem boolean_based_delta
        (target_url : string) (params : option (dict string))
        (st : State World) (fs : list Finding) (f : Finding) :
  let r := SQLiScanner_scan http check_bracketed_netloc checknetloc unquote
             target_url params st in
  let t := timeout (self st) in
  returned r = Ret fs ->
  In f fs ->
  get_str f "type" = Some "SQL Injection (Boolean-Based)" ->
  exists d payload param original_value response original before after,
    resolve_params check_bracketed_netloc checknetloc unquote
      target_url params = Ret d
    /\ In payload Config.SQLI_PAYLOADS
    /\ PyDict.get d param = Some original_value
    /\ exchanges st r
       = before
         ++ [(sqli_probe_request target_url t d payload param,
              Ret response);
             (sqli_baseline_request target_url t param original_value,
              Ret original)]
         ++ after
    /\ let delta := Z.abs (len (text response) - len (text original)) in
       f = boolean_based_vulnerability payload param response delta
       /\ get_str f "payload" = Some payload
       /\ get_str f "parameter" = Some param
       /\ get_str f "description"
          = Some ("Significant response length change ("
                  ++ PyStr.of_int delta ++ " bytes)")%string
       /\ (Config.RESPONSE_LENGTH_THRESHOLD < delta)%Z
       /\ Config.RESPONSE_LENGTH_THRESHOLD = 50%Z.
Proof.
  intros r t Hr Hf Hty. subst r t.
  destruct (SQLiScanner_returned _ _ _ _ Hr)
    as [[-> _]|(kv & d & tr & Hp & -> & HS)]; [destruct Hf|].
  destruct (sqli_entry_trial _ _ _ _ _ _ HS Hf)
    as (payload & param & tr0 & fs0 & b & a & Hpl & _ & HT & Hf0 & E).
  destruct HT as [[_ ->]|(response & v & original & Hv & _ & -> & ->)];
    [destruct Hf0|].
  apply in_app_or in Hf0 as [Hf0|Hf0].
  - apply error_based_entries_type in Hf0. rewrite Hf0 in Hty. discriminate.
  - destruct (boolean_based_entries_inv _ _ _ _ _ Hf0)
      as (original_response & -> & -> & Hgt).
    exists (kv :: d), payload, param, v, response, original_response, b, a.
    split; [exact Hp|]. split; [exact Hpl|]. split; [exact Hv|].
    split; [exact E|]. cbv zeta. repeat split. exact Hgt.
Qed.

End SQLiScanner.

Lemma boolean_based_delta_witness :
  let st := Example.fresh 10 in
  let target_url := "http://example.com/?id=1&page=2" in
  let r := SQLiScanner_scan Example.padded_page Example.accept
             Example.accept Example.identity target_url None st in
  let f := boolean_based_vulnerability "admin'--" "id"
             {| status_code := 200;
                text := PyStr.repeat "SQL syntax " 8;
                url := "http://example.com/"; headers := [] |} 77 in
  exists d payload param original_value response original before after,
    resolve_params Example.accept Example.accept Example.identity
      target_url None = Ret d
    /\ In payload Config.SQLI_PAYLOADS
    /\ PyDict.get d param = Some original_value
    /\ exchanges st r
       = before
         ++ [(sqli_probe_request target_url 10 d payload param,
              Ret response);
             (sqli_baseline_request target_url 10 param original_value,
              Ret original)]
         ++ after
    /\ let delta := Z.abs (len (text response) - len (text original)) in
       f = boolean_based_vulnerability payload param response delta
       /\ get_str f "payload" = Some payload
       /\ get_str f "parameter" = Some param
       /\ get_str f "description"
          = Some ("Significant response length change ("
                  ++ PyStr.of_int delta ++ " bytes)")%string
       /\ (Config.RESPONSE_LENGTH_THRESHOLD < delta)%Z
       /\ Config.RESPONSE_LENGTH_THRESHOLD = 50%Z.
Proof.
  intros st target_url r f.
  apply (boolean_based_delta Example.padded_page Example.accept
           Example.accept Example.identity target_url None st
           (match returned r with Ret fs => fs | Raise _ => [] end) f).
  - vm_compute. reflexivity.
  - vm_compute. tauto.
  - reflexivity.
Defined.

(** *** Dictionaries keep their keys distinct *)

Lemma set_keys {V} (d : dict V) (k : string) (v : V) :
  PyDict.keys (PyDict.set d k v)
  = if PyDict.mem k d then PyDict.keys d else PyDict.keys d ++ [k].
Proof.
  unfold PyDict.mem. induction d as [|[k' v'] d IH]; simpl; [reflexivity|].
  destruct (String.eqb k k'); simpl; [reflexivity|].
  rewrite IH. now destruct (existsb (String.eqb k) (PyDict.keys d)).
Qed.

Lemma mem_false_not_in {V} (d : dict V) (k : string) :
  PyDict.mem k d = false -> ~ In k (PyDict.keys d).
Proof.
  unfold PyDict.mem. intros H Hin.
  assert (existsb (String.eqb k) (PyDict.keys d) = true).
  { apply existsb_exists. exists k. split; auto. apply String.eqb_refl. }
  congruence.
Qed.

Lemma set_wf {V} (d : dict V) (k : string) (v : V) :
  PyDict.wf d -> PyDict.wf (PyDict.set d k v).
Proof.
  unfold PyDict.wf. intros H. rewrite set_keys.
  destruct (PyDict.mem k d) eqn:E; [exact H|].
  apply NoDup_app; auto.
  - constructor; [intros []|constructor].
  - intros x Hx [Hk|[]]. subst x. now apply (mem_false_not_in d k).
Qed.

Lemma first_values_wf (items : list (string * list string))
      (acc d : dict string) :
  PyDict.wf acc -> first_values items acc = Ret d -> PyDict.wf d.
Proof.
  revert acc. induction items as [|[k [|v0 vs]] items IH]; simpl; intros acc.
  - now intros H [= <-].
  - discriminate.
  - intros H. apply IH. now apply set_wf.
Qed.

Lemma wf_nil {V} : PyDict.wf (@nil (string * V)).
Proof. constructor. Qed.

Section Params.

Variable check_bracketed_netloc : string -> bool.
Variable checknetloc : string -> bool.
Variable unquote : string -> string.

Lemma extract_params_wf (target_url : string) (d : dict string) :
  extract_params check_bracketed_netloc checknetloc unquote target_url
  = Ret d -> PyDict.wf d.
Proof.
  unfold extract_params.
  destruct (Urllib.urlparse _ _ _) as [parsed|e]; [|discriminate].
  destruct (Urllib.parse_qs unquote (Urllib.query parsed)) as [|kv ps].
  - intros [= <-]. apply wf_nil.
  - apply first_values_wf, wf_nil.
Qed.


End Params.

(** *** Counting entries *)






Section SQLiTrials.

Context {World : Type}.
Variable http : Request -> World -> outcome Response * World.
Variable check_bracketed_netloc : string -> bool.
Variable checknetloc : string -> bool.
Variable unquote : string -> string.




End SQLiTrials.


Section SQLiRequests.

Context {World : Type}.
Variable http : Request -> World -> outcome Response * World.
Variable check_bracketed_netloc : string -> bool.
Variable checknetloc : string -> bool.
Variable unquote : string -> string.

Lemma sqli_exchange_trial (target_url : string) (t : Z) (d : dict string)
      (tr : list Exchange) (fs : list Finding) (e : Exchange) :
  segs (fun payload => segs (sqli_trial target_url t d payload)
                            (PyDict.keys d))
       Config.SQLI_PAYLOADS tr fs ->
  In e tr ->
  exists payload param tr0 fs0 before after,
    In payload Config.SQLI_PAYLOADS /\ In param (PyDict.keys d)
    /\ sqli_trial target_url t d payload param tr0 fs0
    /\ In e tr0 /\ tr = before ++ tr0 ++ after.
Proof.
  intros HS He.
  destruct (segs_exchange _ _ _ _ _ HS He)
    as (payload & tr1 & fs1 & b1 & a1 & Hp & HS1 & He1 & ->).
  destruct (segs_exchange _ _ _ _ _ HS1 He1)
    as (param & tr0 & fs0 & b0 & a0 & Hk & HT & He0 & ->).
  exists payload, param, tr0, fs0, (b1 ++ b0), (a0 ++ a1).
  repeat split; auto. now rewrite <- !app_assoc.
Qed.

(** a logged probe that got a response, and the trial it opens *)
Lemma sqli_answered_probe (target_url : string) (t : Z) (d : dict string)
      (tr : list Exchange) (fs : list Finding)
      (probe : Request) (response : Response) :
  segs (fun payload => segs (sqli_trial target_url t d payload)
                            (PyDict.keys d))
       Config.SQLI_PAYLOADS tr fs ->
  In (probe, Ret response) tr ->
  allow_redirects probe = false ->
  exists payload param original_value original before after,
    In payload Config.SQLI_PAYLOADS /\ In param (PyDict.keys d)
    /\ PyDict.get d param = Some original_value
    /\ probe = sqli_probe_request target_url t d payload param
    /\ tr = before
            ++ [(probe, Ret response);
                (sqli_baseline_request target_url t param original_value,
                 original)]
            ++ after.
Proof.
  intros HS He Hno.
  destruct (sqli_exchange_trial _ _ _ _ _ _ HS He)
    as (payload & param & tr0 & fs0 & b & a & Hp & Hk & HT & He0 & ->).
  destruct HT as [[-> _]|(r & v & original & Hv & _ & -> & _)].
  - destruct He0 as [H|[]]. discriminate H.
  - destruct He0 as [[= <- <-]|[[= <- _]|[]]].
    + now exists payload, param, v, original, b, a.
    + discriminate Hno.
Qed.

(** C10: every request of a scan is either a probe, sent with redirects
    off, or a baseline, sent with the default policy, redirects on; every
    answered probe is followed in the log by its baseline; and every
    boolean-based entry compares the body of a response fetched with
    redirects off with the body of one fetched with redirects on. *)
Theorem sqli_redirect_policies
        (target_url : string) (params : option (dict string))
        (st : State World) (fs : list Finding) :
  let r := SQLiScanner_scan http check_bracketed_netloc checknetloc unquote
             target_url params st in
  let t := timeout (self st) in
  returned r = Ret fs ->
  (forall req resp,
     In (req, resp) (exchanges st r) ->
     (exists d payload param,
        req = sqli_probe_request target_url t d payload param
        /\ allow_redirects req = false)
     \/ (exists param original_value,
           req = sqli_baseline_request target_url t param original_value
           /\ allow_redirects req = true))
  /\ (forall probe response,
        In (probe, Ret response) (exchanges st r) ->
        allow_redirects probe = false ->
        exists baseline original before after,
          exchanges st r
          = before ++ [(probe, Ret response); (baseline, original)] ++ after
          /\ allow_redirects baseline = true)
  /\ (forall f,
        In f fs ->
        get_str f "type" = Some "SQL Injection (Boolean-Based)" ->
        exists probe response baseline original before after,
          exchanges st r
          = before ++ [(probe, Ret response); (baseline, Ret original)]
                   ++ after
          /\ allow_redirects probe = false
          /\ allow_redirects baseline = true
          /\ get_str f "description"
             = Some ("Significant response length change ("
                     ++ PyStr.of_int
                          (Z.abs (len (text response) - len (text original)))
                     ++ " bytes)")%string).
Proof.
  intros r t Hr. subst r t.
  destruct (SQLiScanner_returned _ _ _ _ _ _ _ _ Hr)
    as [[-> ->]|(kv & d & tr & Hp & -> & HS)].
  - split; [intros ? ? []|]. split; [intros ? ? []|intros ? []].
  - split; [|split].
    + intros req resp He.
      destruct (sqli_exchange_trial _ _ _ _ _ _ HS He)
        as (payload & param & tr0 & fs0 & b & a & _ & _ & HT & He0 & _).
      destruct HT as [[-> _]|(r & v & original & _ & _ & -> & _)].
      * destruct He0 as [[= <- _]|[]]. left.
        now exists (kv :: d), payload, param.
      * destruct He0 as [[= <- _]|[[= <- _]|[]]].
        -- left. now exists (kv :: d), payload, param.
        -- right. now exists param, v.
    + intros probe response He Hno.
      destruct (sqli_answered_probe _ _ _ _ _ _ _ HS He Hno)
        as (payload & param & v & original & b & a & _ & _ & _ & _ & E).
      eexists _, original, b, a. split; [exact E | reflexivity].
    + intros f Hf Hty.
      destruct (sqli_entry_trial _ _ _ _ _ _ HS Hf)
        as (payload & param & tr0 & fs0 & b & a & _ & _ & HT & Hf0 & E).
      destruct HT as [[_ ->]|(response & v & original & _ & _ & -> & ->)];
        [destruct Hf0|].
      apply in_app_or in Hf0 as [Hf0|Hf0].
      * apply error_based_entries_type in Hf0. rewrite Hf0 in Hty.
        discriminate.
      * destruct (boolean_based_entries_inv _ _ _ _ _ Hf0)
          as (original_response & -> & -> & _).
        eexists _, response, _, original_response, b, a. split; [exact E|].
        repeat split.
Qed.

(** C1, as the code has it: the baseline request that follows an answered
    probe carries one parameter only, the probed one with the value it has
    in [params]; the probe itself carried every parameter, the probed one
    replaced by the payload. *)
Theorem sqli_baseline_single_parameter
        (target_url : string) (params : option (dict string))
        (st : State World) (fs : list Finding)
        (probe : Request) (response : Response) :
  let r := SQLiScanner_scan http check_bracketed_netloc checknetloc unquote
             target_url params st in
  returned r = Ret fs ->
  In (probe, Ret response) (exchanges st r) ->
  allow_redirects probe = false ->
  exists d payload param original_value baseline original before after,
    resolve_params check_bracketed_netloc checknetloc unquote
      target_url params = Ret d
    /\ In payload Config.SQLI_PAYLOADS
    /\ PyDict.get d param = Some original_value
    /\ req_params probe = PyDict.set d param payload
    /\ exchanges st r
       = before ++ [(probe, Ret response); (baseline, original)] ++ after
    /\ req_url baseline = get_base_url target_url
    /\ req_params baseline = [(param, original_value)].
Proof.
  intros r Hr He Hno. subst r.
  destruct (SQLiScanner_returned _ _ _ _ _ _ _ _ Hr)
    as [[_ E]|(kv & d & tr & Hp & E & HS)].
  - rewrite E in He. destruct He.
  - rewrite E in He |- *.
    destruct (sqli_answered_probe _ _ _ _ _ _ _ HS He Hno)
      as (payload & param & v & original & b & a & Hpl & _ & Hv & -> & ->).
    exists (kv :: d), payload, param, v.
    eexists _, original, b, a. repeat split; auto.
Qed.

End SQLiRequests.

Lemma sqli_redirect_policies_witness :
  let st := Example.fresh 10 in
  let r := SQLiScanner_scan Example.padded_page Example.accept
             Example.accept Example.identity
             "http://example.com/?id=1" None st in
  let f := boolean_based_vulnerability "' OR '1'='1" "id"
             {| status_code := 200;
                text := PyStr.repeat "SQL syntax " 11;
                url := "http://example.com/"; headers := [] |} 110 in
  exists probe response baseline original before after,
    exchanges st r
    = before ++ [(probe, Ret response); (baseline, Ret original)]
             ++ after
    /\ allow_redirects probe = false
    /\ allow_redirects baseline = true
    /\ get_str f "description"
       = Some ("Significant response length change ("
               ++ PyStr.of_int
                    (Z.abs (len (text response) - len (text original)))
               ++ " bytes)")%string.
Proof.
  intros st r f.
  apply (proj2 (proj2
           (sqli_redirect_policies Example.padded_page Example.accept
              Example.accept Example.identity
              "http://example.com/?id=1" None st
              (match returned r with Ret fs => fs | Raise _ => [] end)
              ltac:(vm_compute; reflexivity))) f).
  - vm_compute. right. left. reflexivity.
  - reflexivity.
Defined.

Lemma sqli_baseline_single_parameter_witness :
  let st := Example.fresh 10 in
  let target_url := "http://example.com/?id=1&page=2" in
  let r := SQLiScanner_scan (Example.constant_page "ok") Example.accept
             Example.accept Example.identity target_url None st in
  let probe := sqli_probe_request target_url 10 [("id", "1"); ("page", "2")]
                 "' OR '1'='1" "id" in
  let response := {| status_code := 200; text := "ok";
                     url := "http://example.com/"; headers := [] |} in
  exists d payload param original_value baseline original before after,
    resolve_params Example.accept Example.accept Example.identity
      target_url None = Ret d
    /\ In payload Config.SQLI_PAYLOADS
    /\ PyDict.get d param = Some original_value
    /\ req_params probe = PyDict.set d param payload
    /\ exchanges st r
       = before ++ [(probe, Ret response); (baseline, original)] ++ after
    /\ req_url baseline = get_base_url target_url
    /\ req_params baseline = [(param, original_value)].
Proof.
  intros st target_url r probe response.
  apply (sqli_baseline_single_parameter (Example.constant_page "ok")
           Example.accept Example.accept Example.identity target_url None st
           (match returned r with Ret fs => fs | Raise _ => [] end)
           probe response).
  - vm_compute. reflexivity.
  - vm_compute. left. reflexivity.
  - reflexivity.
Defined.

(** C1 as the spec words it fails: on a URL with the two parameters [id]
    and [page], the baseline request for [id] does not carry [page]. *)
Lemma sqli_baseline_drops_other_parameters :
  let st := Example.fresh 10 in
  let target_url := "http://example.com/?id=1&page=2" in
  let r := SQLiScanner_scan (Example.constant_page "ok") Example.accept
             Example.accept Example.identity target_url None st in
  resolve_params Example.accept Example.accept Example.identity
    target_url None = Ret [("id", "1"); ("page", "2")]
  /\ ~ (forall req resp,
          In (req, resp) (exchanges st r) ->
          allow_redirects req = true ->
          req_params req = [("id", "1"); ("page", "2")]).
Proof.
  intros st target_url r. split; [vm_compute; reflexivity|].
  intros H.
  assert (Hin : In (sqli_baseline_request target_url 10 "id" "1",
                    Ret {| status_code := 200; text := "ok";
                           url := "http://example.com/"; headers := [] |})
                   (exchanges st r)).
  { vm_compute. right. left. reflexivity. }
  specialize (H _ _ Hin eq_refl). discriminate H.
Qed.

(* ================================================================= *)
(** ** The Open-Redirect scanner *)

Lemma string_app_inv_head (a b c : string) :
  (a ++ b = a ++ c)%string -> b = c.
Proof.
  induction a as [|x a IH]; simpl; [auto|]. intros [= H]. auto.
Qed.

Lemma redirect_request_inj (target_url : string) (t : Z) (p q : string) :
  In p Config.REDIRECT_PARAMS -> In q Config.REDIRECT_PARAMS ->
  redirect_request target_url t p = redirect_request target_url t q ->
  p = q.
Proof.
  intros Hp Hq [= H]. unfold redirect_test_url in H.
  apply string_app_inv_head in H.
  simpl in Hp, Hq.
  repeat (destruct Hp as [<-|Hp]); try contradiction;
    repeat (destruct Hq as [<-|Hq]); try contradiction;
    first [reflexivity | vm_compute in H; discriminate H].
Qed.

Section RedirectScanner.

Context {World : Type}.
Variable http : Request -> World -> outcome Response * World.
Variable check_bracketed_netloc : string -> bool.
Variable checknetloc : string -> bool.

Lemma urlparse_malicious (malicious : Urllib.SplitResult) :
  Urllib.urlparse check_bracketed_netloc checknetloc
    Config.MALICIOUS_REDIRECT_TARGET = Ret malicious ->
  Urllib.netloc malicious = "malicious-example.com".
Proof.
  unfold Urllib.urlparse, Urllib.urlsplit, Config.MALICIOUS_REDIRECT_TARGET.
  cbv.
  destruct (checknetloc _); [|discriminate]. now intros [= <-].
Qed.

Lemma urlparse_raises (u : string) (e : exn) :
  Urllib.urlparse check_bracketed_netloc checknetloc u = Raise e ->
  e = ValueError.
Proof.
  unfold Urllib.urlparse, Urllib.urlsplit.
  repeat match goal with
         | |- context [let '(_, _) := ?x in _] => destruct x
         | |- context [if ?b then _ else _] => destruct b
         end; congruence.
Qed.

Lemma redirect_raised_app (e : exn) (tr0 tr : list Exchange) :
  redirect_raised check_bracketed_netloc checknetloc e tr ->
  redirect_raised check_bracketed_netloc checknetloc e (tr0 ++ tr).
Proof.
  intros [H|(-> & before & request & response & -> & H)].
  - left. now apply escaped_app.
  - right. split; [reflexivity|].
    exists (tr0 ++ before), request, response. now rewrite app_assoc.
Qed.

Lemma RedirectScanner_trial_emits (target_url param : string) (t : Z) :
  emits t (RedirectScanner_trial http check_bracketed_netloc checknetloc
             target_url param)
        (fun o tr fs =>
           match o with
           | Ret _ =>
               redirect_trial check_bracketed_netloc checknetloc target_url t
                 param tr fs
           | Raise e =>
               redirect_raised check_bracketed_netloc checknetloc e tr
           end).
Proof.
  intros st Ht. unfold RedirectScanner_trial, try_except.
  rewrite bind_run. unfold requests_get. rewrite send_run, Ht.
  fold (redirect_request target_url t param).
  set (request := redirect_request target_url t param).
  destruct (http request (world st)) as [[response|e] w]; cbn [fst snd].
  - rewrite bind_run. unfold lift at 1, urlparse.
    destruct (Urllib.urlparse check_bracketed_netloc checknetloc
                (url response)) as [pf|e] eqn:Hpf.
    + rewrite bind_run. unfold lift at 1.
      destruct (Urllib.urlparse check_bracketed_netloc checknetloc
                  Config.MALICIOUS_REDIRECT_TARGET) as [pm|e] eqn:Hpm.
      * assert (HT : redirect_trial check_bracketed_netloc checknetloc
                       target_url t param [(request, Ret response)]
                       (if String.eqb (Urllib.netloc pf) (Urllib.netloc pm)
                        then [open_redirect_vulnerability param
                                (redirect_test_url target_url param) response]
                        else [])).
        { right. now exists response, pf, pm. }
        destruct (String.eqb (Urllib.netloc pf) (Urllib.netloc pm)).
        -- rewrite append_run, advance_advance. cbn [world advance app].
           eexists _, _, _, _. split; [reflexivity|]. exact HT.
        -- unfold ret. eexists _, _, _, _. split; [reflexivity|]. exact HT.
      * pose proof (urlparse_raises _ _ Hpm) as ->.
        eexists _, _, _, _. split; [reflexivity|]. right.
        split; [reflexivity|]. exists [], request, response. auto.
    + pose proof (urlparse_raises _ _ Hpf) as ->.
      eexists _, _, _, _. split; [reflexivity|]. right.
      split; [reflexivity|]. exists [], request, response. auto.
  - destruct e; unfold ret;
      (eexists _, _, _, _; split; [reflexivity|]);
      first [ now left
            | left; apply (escaped_last _ [] request); discriminate ].
Qed.

(** what a scan of a target that parses comes to *)
Lemma RedirectScanner_scan_outcome (target_url : string)
      (params : option (dict string)) (parsed : Urllib.SplitResult)
      (st : State World) :
  Urllib.urlparse check_bracketed_netloc checknetloc target_url = Ret parsed ->
  exists (o : outcome unit) w tr fs,
    RedirectScanner_scan http check_bracketed_netloc checknetloc
      target_url params st
    = (match o with
       | Ret _ => Ret (List.length (heap st))
       | Raise e => Raise e
       end,
       {| world := w; heap := heap st ++ [fs];
          self := {| timeout := timeout (self st);
                     vulnerabilities := List.length (heap st) |};
          trace := trace st ++ tr |})
    /\ match o with
       | Ret _ =>
           segs (redirect_trial check_bracketed_netloc checknetloc target_url
                   (timeout (self st)))
                Config.REDIRECT_PARAMS tr fs
       | Raise e => redirect_raised check_bracketed_netloc checknetloc e tr
       end.
Proof.
  intros Hu. unfold RedirectScanner_scan. rewrite bind_run.
  change (reset st) with (Ret tt, snd (reset st)). cbv beta iota.
  set (st0 := snd (reset st)).
  rewrite bind_run. unfold lift at 1, urlparse. rewrite Hu.
  cbv beta iota zeta. rewrite bind_run.
  destruct (emits_for_each_outcome (timeout (self st))
              (redirect_trial check_bracketed_netloc checknetloc target_url
                 (timeout (self st)))
              (redirect_raised check_bracketed_netloc checknetloc)
              Config.REDIRECT_PARAMS
              (fun param =>
                 RedirectScanner_trial http check_bracketed_netloc
                   checknetloc target_url param))
    with (st := st0) as (o & w & tr & fs & E & HS).
  - intros e tr0 tr. apply redirect_raised_app.
  - intros param _. apply RedirectScanner_trial_emits.
  - reflexivity.
  - exists o, w, tr, fs. rewrite E. split; [|exact HS].
    unfold self_vulnerabilities, advance, st0; simpl.
    rewrite extend_at_fresh. now destruct o as [[]|e].
Qed.

Lemma RedirectScanner_returned (target_url : string)
      (params : option (dict string)) (st : State World)
      (fs : list Finding) :
  returned (RedirectScanner_scan http check_bracketed_netloc checknetloc
              target_url params st) = Ret fs ->
  segs (redirect_trial check_bracketed_netloc checknetloc target_url
          (timeout (self st)))
       Config.REDIRECT_PARAMS
       (exchanges st
          (RedirectScanner_scan http check_bracketed_netloc checknetloc
             target_url params st))
       fs.
Proof.
  destruct (Urllib.urlparse check_bracketed_netloc checknetloc target_url)
    as [parsed|e] eqn:Hu.
  - destruct (RedirectScanner_scan_outcome target_url params parsed st Hu)
      as (o & w & tr & fs' & E & HS).
    rewrite E. destruct o as [[]|e]; [|discriminate].
    erewrite exchanges_app; [|reflexivity].
    unfold returned; simpl. rewrite deref_fresh. now intros [= <-].
  - unfold RedirectScanner_scan. rewrite bind_run.
    change (reset st) with (Ret tt, snd (reset st)). cbv beta iota.
    rewrite bind_run. unfold lift at 1, urlparse. rewrite Hu. discriminate.
Qed.

Lemma redirect_trial_entry (target_url : string) (t : Z) (param : string)
      (tr : list Exchange) (fs : list Finding) (f : Finding) :
  redirect_trial check_bracketed_netloc checknetloc target_url t param tr fs ->
  In f fs ->
  exists response parsed,
    tr = [(redirect_request target_url t param, Ret response)]
    /\ f = open_redirect_vulnerability param
             (redirect_test_url target_url param) response
    /\ Urllib.urlparse check_bracketed_netloc checknetloc (url response)
       = Ret parsed
    /\ Urllib.netloc parsed = "malicious-example.com".
Proof.
  intros [[_ ->]|(response & pf & pm & Hpf & Hpm & -> & ->)]; [intros []|].
  destruct (String.eqb (Urllib.netloc pf) (Urllib.netloc pm)) eqn:E;
    [|intros []].
  intros [<-|[]]. exists response, pf. repeat split; auto.
  apply String.eqb_eq in E. rewrite E. now apply urlparse_malicious.
Qed.

Lemma redirect_trial_request (target_url : string) (t : Z) (param : string)
      (tr : list Exchange) (fs : list Finding) (e : Exchange) :
  redirect_trial check_bracketed_netloc checknetloc target_url t param tr fs ->
  In e tr -> fst e = redirect_request target_url t param.
Proof.
  intros [[-> _]|(response & pf & pm & _ & _ & -> & _)];
    intros [<-|[]]; reflexivity.
Qed.

Lemma redirect_segs_parameter (target_url : string) (t : Z)
      (xs : list string) (tr : list Exchange) (fs : list Finding)
      (f : Finding) :
  segs (redirect_trial check_bracketed_netloc checknetloc target_url t)
       xs tr fs ->
  In f fs -> exists y, In y xs /\ get_str f "parameter" = Some y.
Proof.
  intros HS Hf.
  destruct (segs_entry _ _ _ _ _ HS Hf)
    as (y & tr0 & fs0 & _ & _ & Hy & HT & Hf0 & _).
  destruct (redirect_trial_entry _ _ _ _ _ _ HT Hf0)
    as (response & parsed & _ & -> & _).
  now exists y.
Qed.

Lemma redirect_segs_request (target_url : string) (t : Z)
      (xs : list string) (tr : list Exchange) (fs : list Finding)
      (e : Exchange) :
  segs (redirect_trial check_bracketed_netloc checknetloc target_url t)
       xs tr fs ->
  In e tr -> exists y, In y xs /\ fst e = redirect_request target_url t y.
Proof.
  intros HS He.
  destruct (segs_exchange _ _ _ _ _ HS He)
    as (y & tr0 & fs0 & _ & _ & Hy & HT & He0 & _).
  exists y. split; [exact Hy|]. now apply (redirect_trial_request _ _ _ _ _ _ HT).
Qed.

(** the verdict on a parameter whose request was answered *)
Lemma redirect_segs_verdict (target_url : string) (t : Z)
      (xs : list string) (tr : list Exchange) (fs : list Finding)
      (param : string) (response : Response) (parsed : Urllib.SplitResult) :
  NoDup xs -> incl xs Config.REDIRECT_PARAMS ->
  segs (redirect_trial check_bracketed_netloc checknetloc target_url t)
       xs tr fs ->
  In param Config.REDIRECT_PARAMS ->
  In (redirect_request target_url t param, Ret response) tr ->
  Urllib.urlparse check_bracketed_netloc checknetloc (url response)
  = Ret parsed ->
  (Urllib.netloc parsed <> "malicious-example.com" ->
   forall f, In f fs -> get_str f "parameter" <> Some param)
  /\ (Urllib.netloc parsed = "malicious-example.com" ->
      In (open_redirect_vulnerability param
            (redirect_test_url target_url param) response) fs).
Proof.
  intros Hnd Hincl HS Hparam. revert Hnd Hincl.
  induction HS as [|x xs tr0 fs0 tr' fs' HT HS IH]; [intros _ _ []|].
  intros Hnd Hincl He Hp. apply NoDup_cons_iff in Hnd as [Hx Hnd].
  assert (Hincl' : incl xs Config.REDIRECT_PARAMS).
  { intros y Hy. apply Hincl. now right. }
  apply in_app_or in He as [He|He].
  - pose proof (redirect_trial_request _ _ _ _ _ _ HT He) as Hreq.
    cbn [fst] in Hreq.
    apply redirect_request_inj in Hreq;
      [|exact Hparam|apply Hincl; now left]. subst x.
    destruct HT as [[-> _]|(r' & pf & pm & Hpf & Hpm & -> & ->)].
    + destruct He as [[= ]|[]].
    + destruct He as [[= <-]|[]].
      rewrite Hp in Hpf. injection Hpf as <-.
      rewrite (urlparse_malicious _ Hpm).
      split.
      * intros Hne f Hf.
        destruct (String.eqb_spec (Urllib.netloc parsed)
                                  "malicious-example.com") as [Heq|_];
          [contradiction|].
        destruct (redirect_segs_parameter _ _ _ _ _ _ HS Hf)
          as (y & Hy & Hfy).
        rewrite Hfy. intros [= ->]. contradiction.
      * intros Heq. rewrite Heq. now left.
  - destruct (redirect_segs_request _ _ _ _ _ _ HS He) as (y & Hy & Hreq).
    cbn [fst] in Hreq.
    apply redirect_request_inj in Hreq; [|exact Hparam|now apply Hincl'].
    subst y.
    destruct (IH Hnd Hincl' He Hp) as [IH1 IH2]. split.
    + intros Hne f Hf. apply in_app_or in Hf as [Hf|Hf]; [|now apply IH1].
      destruct (redirect_trial_entry _ _ _ _ _ _ HT Hf)
        as (r' & p' & _ & -> & _).
      intros [= ->]. contradiction.
    + intros Heq. apply in_or_app. right. now apply IH2.
Qed.

Lemma REDIRECT_PARAMS_distinct : NoDup Config.REDIRECT_PARAMS.
Proof.
  repeat (constructor;
          [simpl; intros H;
           repeat (destruct H as [H|H]; [discriminate H|]); exact H|]).
  constructor.
Qed.

(** C6: every entry of the list an Open-Redirect scan returns was built
    from an answered request of that scan whose final URL has the network
    location [malicious-example.com], the network location of the fixed
    target; for a parameter whose answered request ended at another
    network location the list holds no entry, and for one that ended there
    it holds the entry. *)
Theorem open_redirect_netloc
        (target_url : string) (params : option (dict string))
        (st : State World) (fs : list Finding) :
  let r := RedirectScanner_scan http check_bracketed_netloc checknetloc
             target_url params st in
  let t := timeout (self st) in
  returned r = Ret fs ->
  (forall f,
     In f fs ->
     exists param response parsed,
       In param Config.REDIRECT_PARAMS
       /\ In (redirect_request target_url t param, Ret response)
             (exchanges st r)
       /\ f = open_redirect_vulnerability param
                (redirect_test_url target_url param) response
       /\ Urllib.urlparse check_bracketed_netloc checknetloc (url response)
          = Ret parsed
       /\ Urllib.netloc parsed = "malicious-example.com")
  /\ (forall param response parsed,
        In param Config.REDIRECT_PARAMS ->
        In (redirect_request target_url t param, Ret response)
           (exchanges st r) ->
        Urllib.urlparse check_bracketed_netloc checknetloc (url response)
        = Ret parsed ->
        (Urllib.netloc parsed <> "malicious-example.com" ->
         forall f, In f fs -> get_str f "parameter" <> Some param)
        /\ (Urllib.netloc parsed = "malicious-example.com" ->
            In (open_redirect_vulnerability param
                  (redirect_test_url target_url param) response) fs))
  /\ (forall malicious,
        Urllib.urlparse check_bracketed_netloc checknetloc
          Config.MALICIOUS_REDIRECT_TARGET = Ret malicious ->
        Urllib.netloc malicious = "malicious-example.com").
Proof.
  intros r t Hr. subst r t.
  pose proof (RedirectScanner_returned _ _ _ _ Hr) as HS.
  split; [|split].
  - intros f Hf.
    destruct (segs_entry _ _ _ _ _ HS Hf)
      as (param & tr0 & fs0 & b & a & Hparam & HT & Hf0 & E).
    destruct (redirect_trial_entry _ _ _ _ _ _ HT Hf0)
      as (response & parsed & -> & -> & Hp & Hn).
    exists param, response, parsed. repeat split; auto.
    rewrite E. apply in_or_app. right. now left.
  - intros param response parsed Hparam He Hp.
    apply (redirect_segs_verdict _ _ _ _ _ _ _ _
             REDIRECT_PARAMS_distinct (incl_refl _) HS Hparam He Hp).
  - apply urlparse_malicious.
Qed.

End RedirectScanner.

Lemma open_redirect_netloc_witness :
  let st := Example.fresh 10 in
  let target_url := "http://example.com/go?x=1" in
  let r := RedirectScanner_scan Example.redirecting Example.accept
             Example.accept target_url None st in
  let f := open_redirect_vulnerability "redirect"
             (redirect_test_url target_url "redirect")
             {| status_code := 200; text := EmptyString;
                url := "https://malicious-example.com/landing";
                headers := [] |} in
  exists param response parsed,
    In param Config.REDIRECT_PARAMS
    /\ In (redirect_request target_url 10 param, Ret response)
          (exchanges st r)
    /\ f = open_redirect_vulnerability param
             (redirect_test_url target_url param) response
    /\ Urllib.urlparse Example.accept Example.accept (url response)
       = Ret parsed
    /\ Urllib.netloc parsed = "malicious-example.com".
Proof.
  intros st target_url r f.
  apply (proj1
           (open_redirect_netloc Example.redirecting Example.accept
              Example.accept target_url None st
              (match returned r with Ret fs => fs | Raise _ => [] end)
              ltac:(vm_compute; reflexivity)) f).
  vm_compute. left. reflexivity.
Defined.

(* ================================================================= *)
(** ** The JSON report *)

Lemma string_app_assoc (a b c : string) :
  ((a ++ b) ++ c = a ++ (b ++ c))%string.
Proof. induction a as [|x a IH]; simpl; [reflexivity|]. now rewrite IH. Qed.

Section JsonReport.

Context {Clock : Type}.
Variable now_isoformat : Clock -> string * Clock.
Variable html_content : dict pyobj -> string.
Variable makedirs_ok : string -> Env Clock -> bool.
Variable open_ok : string -> Env Clock -> bool.
Variable markup_ok : string -> bool.

(** the report file, as a text around the encoded time stamp *)
Lemma json_report_text (vulnerabilities : list Finding)
      (target_url : string) :
  exists rest,
    forall stamp,
      Json.dumps
        (PDict [ ("scan_timestamp", PStr stamp);
                 ("target_url", PStr target_url);
                 ("total_vulnerabilities",
                  PInt (Z.of_nat (List.length vulnerabilities)));
                 ("vulnerabilities", PList (map PDict vulnerabilities)) ])
      = ("{" ++ Json.newline_indent 1
         ++ Json.encode_basestring "scan_timestamp" ++ Json.key_separator
         ++ Json.encode_basestring stamp ++ rest)%string.
Proof.
  eexists. intros s. unfold Json.dumps.
  cbn [Json.iterencode map PyStr.join fst snd].
  rewrite !string_app_assoc. reflexivity.
Qed.

(** one run of the JSON report: the clock is read, and unless the run
    fails with [OSError] the file holds the report *)
Lemma json_report_run (vulnerabilities : list Finding)
      (target_url output_path format rest : string) (e : Env Clock) :
  PyStr.lower format = "json" ->
  (forall stamp,
     Json.dumps
       (PDict [ ("scan_timestamp", PStr stamp);
                ("target_url", PStr target_url);
                ("total_vulnerabilities",
                 PInt (Z.of_nat (List.length vulnerabilities)));
                ("vulnerabilities", PList (map PDict vulnerabilities)) ])
     = ("{" ++ Json.newline_indent 1
        ++ Json.encode_basestring "scan_timestamp" ++ Json.key_separator
        ++ Json.encode_basestring stamp ++ rest)%string) ->
  let r := generate_report now_isoformat html_content makedirs_ok open_ok
             markup_ok vulnerabilities target_url output_path format e in
  clock (snd r) = snd (now_isoformat (clock e))
  /\ (fst r <> Raise OSError ->
      files (snd r) output_path
      = Some (("{" ++ Json.newline_indent 1
               ++ Json.encode_basestring "scan_timestamp"
               ++ Json.key_separator)
              ++ Json.encode_basestring (fst (now_isoformat (clock e)))
              ++ rest)%string).
Proof.
  intros Hfmt Hrest. unfold generate_report.
  destruct (now_isoformat (clock e)) as [stamp c]. rewrite Hfmt.
  cbn [String.eqb Ascii.eqb Bool.eqb fst snd].
  unfold _generate_json_report, print_success, console_print, write_file,
    makedirs, and_then.
  rewrite Hrest.
  repeat match goal with
         | |- context [if ?b then _ else _] => destruct b
         end;
    cbn [fst snd clock files]; (split; [reflexivity|]); intros H;
    try (exfalso; apply H; reflexivity);
    rewrite String.eqb_refl, ?string_app_assoc; reflexivity.
Qed.

(** C8: two runs of the JSON report on the same list and target, neither
    of which fails with the [OSError] of a directory that cannot be made
    or a file that cannot be opened, write, at the same path, texts that
    agree everywhere but in the encoded value of [scan_timestamp]: the
    same text before it and the same text after it; with equal time
    stamps the two files are equal.  Whether the console then accepts the
    line that reports the file makes no difference. *)
Theorem json_report_twice
        (vulnerabilities : list Finding)
        (target_url output_path format : string) (e : Env Clock) :
  PyStr.lower format = "json" ->
  let r1 := generate_report now_isoformat html_content makedirs_ok open_ok
              markup_ok vulnerabilities target_url output_path format e in
  let e1 := snd r1 in
  let r2 := generate_report now_isoformat html_content makedirs_ok open_ok
              markup_ok vulnerabilities target_url output_path format e1 in
  let e2 := snd r2 in
  let stamp1 := fst (now_isoformat (clock e)) in
  let stamp2 := fst (now_isoformat (clock e1)) in
  let before := ("{" ++ Json.newline_indent 1
                 ++ Json.encode_basestring "scan_timestamp"
                 ++ Json.key_separator)%string in
  fst r1 <> Raise OSError ->
  fst r2 <> Raise OSError ->
  clock e1 = snd (now_isoformat (clock e))
  /\ exists after,
       files e1 output_path
       = Some (before ++ Json.encode_basestring stamp1 ++ after)%string
       /\ files e2 output_path
          = Some (before ++ Json.encode_basestring stamp2 ++ after)%string
       /\ (stamp1 = stamp2 -> files e1 output_path = files e2 output_path).
Proof.
  intros Hfmt r1 e1 r2 e2 stamp1 stamp2 before H1 H2.
  destruct (json_report_text vulnerabilities target_url)
    as [rest Hrest].
  destruct (json_report_run vulnerabilities target_url output_path format
              rest e Hfmt Hrest) as [Hc1 Hf1].
  destruct (json_report_run vulnerabilities target_url output_path format
              rest e1 Hfmt Hrest) as [_ Hf2].
  specialize (Hf1 H1). specialize (Hf2 H2).
  subst e2 r2 e1 r1 stamp1 stamp2 before.
  split; [exact Hc1|]. exists rest.
  split; [exact Hf1|]. split; [exact Hf2|].
  intros Hs. rewrite Hf1, Hf2, Hs. reflexivity.
Qed.

End JsonReport.

Lemma json_report_twice_witness :
  let vulnerabilities :=
    [ xss_vulnerability "<script>alert(1)</script>" "name"
        {| status_code := 200; text := "<script>alert(1)</script>";
           url := "http://example.com/?name=x"; headers := [] |} ] in
  let e1 := snd (generate_report Example.ticking Example.no_html
                   Example.permitted Example.permitted Example.no_stray_tag
                   vulnerabilities "http://example.com/?name=test"
                   "out[/x]/report.json" "JSON" Example.empty_disk) in
  let e2 := snd (generate_report Example.ticking Example.no_html
                   Example.permitted Example.permitted Example.no_stray_tag
                   vulnerabilities "http://example.com/?name=test"
                   "out[/x]/report.json" "JSON" e1) in
  let before := ("{" ++ Json.newline_indent 1
                 ++ Json.encode_basestring "scan_timestamp"
                 ++ Json.key_separator)%string in
  clock e1 = 1%nat
  /\ exists after,
       files e1 "out[/x]/report.json"
       = Some (before ++ Json.encode_basestring "2026-01-01T00:00:10"
                      ++ after)%string
       /\ files e2 "out[/x]/report.json"
          = Some (before ++ Json.encode_basestring "2026-01-01T00:00:11"
                         ++ after)%string
       /\ ("2026-01-01T00:00:10" = "2026-01-01T00:00:11" ->
           files e1 "out[/x]/report.json" = files e2 "out[/x]/report.json").
Proof.
  intros vulnerabilities e1 e2 before.
  apply (json_report_twice Example.ticking Example.no_html
           Example.permitted Example.permitted Example.no_stray_tag
           vulnerabilities
           "http://example.com/?name=test" "out[/x]/report.json" "JSON"
           Example.empty_disk).
  - reflexivity.
  - vm_compute. discriminate.
  - vm_compute. discriminate.
Defined.

(* ================================================================= *)
(** * Further properties *)

(** ** [BaseScanner.get_base_url] *)

Lemma prefix_question_mark (c : ascii) (s : string) :
  prefix "?" (String c s) = Ascii.eqb c "?".
Proof.
  change (prefix "?" (String c s))
    with (if ascii_dec "?" c then prefix EmptyString s else false).
  destruct (ascii_dec "?" c) as [<-|Hne].
  - rewrite Ascii.eqb_refl. now destruct s.
  - symmetry. apply Ascii.eqb_neq. congruence.
Qed.

Lemma hd_split_question_mark (cur s : string) :
  hd EmptyString (PyStr.split_aux "?" 0 cur s)
  = (cur ++ before_question_mark s)%string.
Proof.
  revert cur. induction s as [|c s IH]; intros cur.
  - simpl. clear. induction cur; simpl; congruence.
  - cbn [PyStr.split_aux before_question_mark].
    rewrite prefix_question_mark. destruct (Ascii.eqb c "?").
    + simpl. clear. induction cur; simpl; congruence.
    + rewrite IH. clear. induction cur; simpl; congruence.
Qed.

Lemma get_base_url_before (target_url : string) :
  get_base_url target_url = before_question_mark target_url.
Proof. unfold get_base_url, PyStr.split. apply hd_split_question_mark. Qed.

Lemma before_question_mark_split (s : string) :
  exists rest,
    s = (before_question_mark s ++ rest)%string
    /\ (rest = EmptyString \/ exists q, rest = String "?" q).
Proof.
  induction s as [|c s (rest & E & H)]; simpl.
  - exists EmptyString. auto.
  - destruct (Ascii.eqb_spec c "?") as [->|Hne].
    + exists (String "?" s). split; [reflexivity|]. right. now exists s.
    + exists rest. simpl. split; [now rewrite <- E | exact H].
Qed.

Lemma before_question_mark_clean (s : string) :
  PyStr.contains "?" (before_question_mark s) = false.
Proof.
  induction s as [|c s IH]; [reflexivity|]. simpl.
  destruct (Ascii.eqb c "?") eqn:E; [reflexivity|].
  cbn [PyStr.contains]. rewrite prefix_question_mark, E, IH. reflexivity.
Qed.

Lemma before_question_mark_fixed (s : string) :
  PyStr.contains "?" s = false -> before_question_mark s = s.
Proof.
  induction s as [|c s IH]; [reflexivity|].
  cbn [PyStr.contains]. rewrite prefix_question_mark. simpl.
  destruct (Ascii.eqb c "?"); [discriminate|]. simpl.
  intros H. now rewrite IH.
Qed.

(** X1: the base URL is the target URL cut at its first question mark: it
    holds no question mark, the target URL is the base URL followed by
    nothing or by a text that starts with a question mark, and a URL
    without a question mark is its own base URL. *)
Theorem get_base_url_cuts_at_question_mark (target_url : string) :
  PyStr.contains "?" (get_base_url target_url) = false
  /\ (exists rest,
        target_url = (get_base_url target_url ++ rest)%string
        /\ (rest = EmptyString \/ exists q, rest = String "?" q))
  /\ (PyStr.contains "?" target_url = false ->
      get_base_url target_url = target_url)
  /\ get_base_url (get_base_url target_url) = get_base_url target_url.
Proof.
  rewrite !get_base_url_before. split; [apply before_question_mark_clean|].
  split; [apply before_question_mark_split|].
  split; [apply before_question_mark_fixed|].
  apply before_question_mark_fixed, before_question_mark_clean.
Qed.

(** ** [BaseScanner.extract_params] *)

Lemma get_set {V} (d : dict V) (k k' : string) (v : V) :
  PyDict.get (PyDict.set d k v) k'
  = if String.eqb k' k then Some v else PyDict.get d k'.
Proof.
  induction d as [|[k0 v0] d IH]; simpl.
  - reflexivity.
  - destruct (String.eqb_spec k k0) as [->|Hne]; simpl.
    + now destruct (String.eqb k' k0).
    + rewrite IH. destruct (String.eqb_spec k' k0) as [->|Hne'];
        [|reflexivity].
      destruct (String.eqb_spec k0 k) as [->|_]; [contradiction|reflexivity].
Qed.

Lemma get_not_key {V} (d : dict V) (k : string) :
  ~ In k (PyDict.keys d) -> PyDict.get d k = None.
Proof.
  induction d as [|[k0 v0] d IH]; simpl; [reflexivity|].
  intros H. destruct (String.eqb_spec k k0) as [->|_]; [tauto|].
  apply IH. tauto.
Qed.

Lemma get_of_item {V} (d : dict V) (k : string) (v : V) :
  PyDict.wf d -> In (k, v) d -> PyDict.get d k = Some v.
Proof.
  unfold PyDict.wf. induction d as [|[k0 v0] d IH]; simpl; [tauto|].
  intros Hnd [[= -> ->]|Hin]; apply NoDup_cons_iff in Hnd as [Hk Hnd].
  - now rewrite String.eqb_refl.
  - destruct (String.eqb_spec k k0) as [->|_]; [|auto].
    exfalso. apply Hk. change k0 with (fst (k0, v)). now apply in_map.
Qed.

Section ExtractParams.

Variable check_bracketed_netloc : string -> bool.
Variable checknetloc : string -> bool.
Variable unquote : string -> string.

(** the dictionary [parse_qs] builds, key by key: the values of the key
    in the order of the pairs *)
Lemma parse_qs_fold_get (pairs : list (string * string))
      (acc : dict (list string)) (k : string) :
  PyDict.get
    (fold_left
       (fun parsed_result '(name, value) =>
          match PyDict.get parsed_result name with
          | Some vs => PyDict.set parsed_result name (vs ++ [value])
          | None => PyDict.set parsed_result name [value]
          end) pairs acc) k
  = let values :=
      map snd (filter (fun p => String.eqb (fst p) k) pairs) in
    match PyDict.get acc k with
    | Some vs => Some (vs ++ values)
    | None => match values with [] => None | _ => Some values end
    end.
Proof.
  revert acc. induction pairs as [|[n v] pairs IH]; intros acc; simpl.
  - destruct (PyDict.get acc k); [now rewrite app_nil_r|reflexivity].
  - rewrite IH. clear IH. cbv zeta.
    destruct (String.eqb_spec n k) as [->|Hne]; simpl.
    + destruct (PyDict.get acc k) as [vs|]; rewrite get_set, String.eqb_refl.
      * now rewrite <- app_assoc.
      * reflexivity.
    + assert (E : String.eqb k n = false)
        by (apply String.eqb_neq; congruence).
      destruct (PyDict.get acc n) as [vs|]; rewrite get_set, E; reflexivity.
Qed.

Lemma parse_qs_fold_wf (pairs : list (string * string))
      (acc : dict (list string)) :
  PyDict.wf acc ->
  PyDict.wf
    (fold_left
       (fun parsed_result '(name, value) =>
          match PyDict.get parsed_result name with
          | Some vs => PyDict.set parsed_result name (vs ++ [value])
          | None => PyDict.set parsed_result name [value]
          end) pairs acc).
Proof.
  revert acc. induction pairs as [|[n v] pairs IH]; intros acc H; simpl;
    [exact H|].
  apply IH. destruct (PyDict.get acc n); now apply set_wf.
Qed.

Lemma parse_qs_wf (qs : string) : PyDict.wf (Urllib.parse_qs unquote qs).
Proof. apply parse_qs_fold_wf, wf_nil. Qed.

Lemma parse_qs_get (qs k : string) :
  PyDict.get (Urllib.parse_qs unquote qs) k
  = match map snd (filter (fun p => String.eqb (fst p) k)
                          (Urllib.parse_qsl unquote qs)) with
    | [] => None
    | values => Some values
    end.
Proof.
  unfold Urllib.parse_qs. rewrite parse_qs_fold_get. cbv zeta. simpl.
  now destruct (map snd _).
Qed.

(** the first value of every key, when no key is without value *)
Lemma first_values_get (items : list (string * list string))
      (acc : dict string) :
  PyDict.wf items ->
  (forall k, PyDict.get items k <> Some []) ->
  exists d,
    first_values items acc = Ret d
    /\ forall k,
         PyDict.get d k
         = match PyDict.get items k with
           | Some (v0 :: _) => Some v0
           | _ => PyDict.get acc k
           end.
Proof.
  unfold PyDict.wf. revert acc.
  induction items as [|[k0 v] items IH]; intros acc Hnd Hne.
  - exists acc. split; reflexivity.
  - simpl in Hnd. apply NoDup_cons_iff in Hnd as [Hk0 Hnd].
    destruct v as [|v0 vs].
    { exfalso. apply (Hne k0). simpl. now rewrite String.eqb_refl. }
    destruct (IH (PyDict.set acc k0 v0) Hnd) as (d & Hd & Hget).
    { intros k Hk. apply (Hne k). simpl.
      destruct (String.eqb_spec k k0) as [->|_]; [|exact Hk].
      rewrite (get_not_key _ _ Hk0) in Hk. discriminate. }
    exists d. split; [exact Hd|]. intros k. rewrite Hget. simpl.
    destruct (String.eqb_spec k k0) as [->|Hne'].
    + rewrite (get_not_key _ _ Hk0), get_set, String.eqb_refl. reflexivity.
    + rewrite get_set.
      destruct (String.eqb_spec k k0) as [->|_]; [contradiction|].
      reflexivity.
Qed.

Lemma first_pair_get (pairs : list (string * string)) (k : string) :
  PyDict.get pairs k
  = match map snd (filter (fun p => String.eqb (fst p) k) pairs) with
    | [] => None
    | v :: _ => Some v
    end.
Proof.
  induction pairs as [|[n v] pairs IH]; simpl; [reflexivity|].
  rewrite (String.eqb_sym n k). now destruct (String.eqb k n).
Qed.

Lemma extract_params_lookup
      (target_url : string) (parsed : Urllib.SplitResult) :
  Urllib.urlparse check_bracketed_netloc checknetloc target_url = Ret parsed ->
  exists d,
    extract_params check_bracketed_netloc checknetloc unquote target_url
    = Ret d
    /\ PyDict.wf d
    /\ forall k,
         PyDict.get d k
         = PyDict.get (Urllib.parse_qsl unquote (Urllib.query parsed)) k.
Proof.
  intros Hu.
  destruct (first_values_get
              (Urllib.parse_qs unquote (Urllib.query parsed)) [])
    as (d & Hd & Hget).
  - apply parse_qs_wf.
  - intros k. rewrite parse_qs_get. now destruct (map snd _).
  - assert (E : extract_params check_bracketed_netloc checknetloc unquote
                  target_url = Ret d).
    { unfold extract_params. rewrite Hu.
      destruct (Urllib.parse_qs unquote (Urllib.query parsed)) eqn:Eq;
        [|exact Hd].
      simpl in Hd. exact Hd. }
    exists d. split; [exact E|]. split; [now apply extract_params_wf in E|].
    intros k.
    rewrite Hget, parse_qs_get,
      (first_pair_get (Urllib.parse_qsl unquote (Urllib.query parsed))).
    now destruct (map snd _).
Qed.


Lemma extract_params_raises
      (target_url : string) (e : exn) :
  extract_params check_bracketed_netloc checknetloc unquote target_url
  = Raise e ->
  e = ValueError
  /\ Urllib.urlparse check_bracketed_netloc checknetloc target_url
     = Raise ValueError.
Proof.
  intros H.
  destruct (Urllib.urlparse check_bracketed_netloc checknetloc target_url)
    as [parsed|e'] eqn:Hu.
  - destruct (extract_params_lookup target_url parsed Hu) as (d & E & _).
    rewrite E in H. discriminate.
  - unfold extract_params in H. rewrite Hu in H. injection H as ->.
    pose proof (urlparse_raises _ _ _ _ Hu) as ->. auto.
Qed.

(** X3: [extract_params] fails only where [urlparse] fails, and then with
    the [ValueError] of [urlparse]: the subscript [v[0]] never raises. *)
Theorem extract_params_raises_only_ValueError
        (target_url : string) (e : exn) :
  extract_params check_bracketed_netloc checknetloc unquote target_url
  = Raise e ->
  e = ValueError
  /\ Urllib.urlparse check_bracketed_netloc checknetloc target_url
     = Raise ValueError.
Proof. apply extract_params_raises. Qed.

End ExtractParams.


Lemma extract_params_raises_only_ValueError_witness :
  ValueError = ValueError
  /\ Urllib.urlparse Example.accept Example.accept "http://[::1/x"
     = Raise ValueError.
Proof.
  apply (extract_params_raises_only_ValueError Example.accept Example.accept
           Example.identity "http://[::1/x" ValueError).
  reflexivity.
Defined.

(** ** Loops over pairs *)

Lemma segs_app {A} (T : A -> list Exchange -> list Finding -> Prop)
      (xs ys : list A) (tr tr' : list Exchange) (fs fs' : list Finding) :
  segs T xs tr fs -> segs T ys tr' fs' ->
  segs T (xs ++ ys) (tr ++ tr') (fs ++ fs').
Proof.
  induction 1 as [|x xs tr0 fs0 tr1 fs1 HT HS IH]; intros H; [exact H|].
  simpl. rewrite <- !app_assoc. constructor; auto.
Qed.

Lemma segs_map {A B} (g : A -> B)
      (T : B -> list Exchange -> list Finding -> Prop)
      (xs : list A) (tr : list Exchange) (fs : list Finding) :
  segs (fun x => T (g x)) xs tr fs -> segs T (map g xs) tr fs.
Proof. induction 1; simpl; constructor; auto. Qed.

(** two nested loops run through the pairs of their lists *)
Lemma segs_prod {A B} (T : A -> B -> list Exchange -> list Finding -> Prop)
      (xs : list A) (ys : list B) (tr : list Exchange) (fs : list Finding) :
  segs (fun x => segs (T x) ys) xs tr fs ->
  segs (fun p => T (fst p) (snd p)) (list_prod xs ys) tr fs.
Proof.
  induction 1 as [|x xs tr0 fs0 tr1 fs1 HT HS IH]; simpl; [constructor|].
  apply segs_app; [|exact IH].
  apply (segs_map (fun y => (x, y)) (fun p => T (fst p) (snd p))).
  exact HT.
Qed.

(** a segmented log whose segments are functions of an answer *)
Lemma segs_answers {A Ans}
      (T : A -> list Exchange -> list Finding -> Prop)
      (ex : A -> Ans -> list Exchange) (en : A -> Ans -> list Finding)
      (xs : list A) (tr : list Exchange) (fs : list Finding) :
  (forall x tr0 fs0, T x tr0 fs0 ->
     exists a, tr0 = ex x a /\ fs0 = en x a) ->
  segs T xs tr fs ->
  exists answers,
    List.length answers = List.length xs
    /\ tr = concat (map (fun xa => ex (fst xa) (snd xa)) (combine xs answers))
    /\ fs = concat (map (fun xa => en (fst xa) (snd xa)) (combine xs answers)).
Proof.
  intros HT. induction 1 as [|x xs tr0 fs0 tr1 fs1 H HS IH].
  - exists []. repeat split.
  - destruct (HT _ _ _ H) as (a & -> & ->).
    destruct IH as (answers & Hlen & -> & ->).
    exists (a :: answers). simpl. now rewrite Hlen.
Qed.

Lemma concat_length_le {A B} (f : A -> list B) (c : nat) (l : list A) :
  (forall x, List.length (f x) <= c)%nat ->
  (List.length (concat (map f l)) <= c * List.length l)%nat.
Proof.
  intros H. induction l as [|x l IH]; simpl; [lia|].
  rewrite length_app. specialize (H x). nia.
Qed.

Lemma concat_length_ge {A B} (f : A -> list B) (c : nat) (l : list A) :
  (forall x, c <= List.length (f x))%nat ->
  (c * List.length l <= List.length (concat (map f l)))%nat.
Proof.
  intros H. induction l as [|x l IH]; simpl; [lia|].
  rewrite length_app. specialize (H x). nia.
Qed.

Lemma list_prod_nil_r {A B} (xs : list A) : list_prod xs (@nil B) = [].
Proof. induction xs; simpl; auto. Qed.

(** ** The XSS scanner *)

Section XSSScanner.

Context {World : Type}.
Variable http : Request -> World -> outcome Response * World.
Variable check_bracketed_netloc : string -> bool.
Variable checknetloc : string -> bool.
Variable unquote : string -> string.

(** what a scan with parameters comes to: every probe was sent and the
    scan returns the new list, or an exception of the HTTP client that is
    not a [RequestException] ended it *)
Lemma XSSScanner_scan_outcome (target_url : string)
      (params : option (dict string)) (kv : string * string)
      (d : dict string) (st : State World) :
  resolve_params check_bracketed_netloc checknetloc unquote target_url params
  = Ret (kv :: d) ->
  exists (o : outcome unit) w tr fs,
    XSSScanner_scan http check_bracketed_netloc checknetloc unquote
      target_url params st
    = (match o with
       | Ret _ => Ret (List.length (heap st))
       | Raise e => Raise e
       end,
       {| world := w; heap := heap st ++ [fs];
          self := {| timeout := timeout (self st);
                     vulnerabilities := List.length (heap st) |};
          trace := trace st ++ tr |})
    /\ match o with
       | Ret _ =>
           segs (fun payload =>
                   segs (fun param tr0 fs0 =>
                           exists answer,
                             tr0 = [(xss_probe_request target_url
                                       (timeout (self st)) (kv :: d) payload
                                       param, answer_of answer)]
                             /\ fs0 = xss_entries payload param answer)
                        (PyDict.keys (kv :: d)))
                Config.XSS_PAYLOADS tr fs
       | Raise e => escaped e tr
       end.
Proof.
  intros Hp. unfold XSSScanner_scan. rewrite bind_run.
  change (reset st) with (Ret tt, snd (reset st)). cbv beta iota.
  set (st0 := snd (reset st)).
  rewrite bind_run. unfold params_or_extract, lift. rewrite Hp.
  cbv beta iota. rewrite bind_run.
  match goal with
  | |- context [for_each Config.XSS_PAYLOADS ?body] =>
      destruct (emits_for_each_outcome (timeout (self st))
                  (fun payload =>
                     segs (fun param tr0 fs0 =>
                             exists answer,
                               tr0 = [(xss_probe_request target_url
                                         (timeout (self st)) (kv :: d)
                                         payload param, answer_of answer)]
                               /\ fs0 = xss_entries payload param answer)
                          (PyDict.keys (kv :: d)))
                  escaped
                  Config.XSS_PAYLOADS body)
        with (st := st0) as (o & w & tr & fs & E & HS)
  end.
  - intros e tr0 tr. apply escaped_app.
  - intros payload _. apply emits_for_each_outcome.
    { intros e tr0 tr. apply escaped_app. }
    intros param _ s Hs.
    unfold try_except. rewrite bind_run. unfold requests_get.
    rewrite send_run, Hs.
    fold (xss_probe_request target_url (timeout (self st)) (kv :: d)
            payload param).
    set (probe := xss_probe_request target_url (timeout (self st))
                    (kv :: d) payload param).
    destruct (http probe (world s)) as [[response|e] w]; cbn [fst snd].
    + assert (HT : exists answer,
                 [(probe, Ret response)] = [(probe, answer_of answer)]
                 /\ xss_entries payload param (Some response)
                    = xss_entries payload param answer)
        by now exists (Some response).
      unfold xss_entries at 1 in HT.
      destruct (PyStr.contains payload (text response)).
      * rewrite append_run, advance_advance. cbn [world advance app].
        eexists _, _, _, _. split; [reflexivity|]. exact HT.
      * unfold ret. eexists _, _, _, _. split; [reflexivity|]. exact HT.
    + destruct e; unfold ret;
        (eexists _, _, _, _; split; [reflexivity|]);
        first [ now exists None
              | apply (escaped_last _ [] probe); discriminate ].
  - reflexivity.
  - exists o, w, tr, fs. rewrite E. split; [|exact HS].
    unfold self_vulnerabilities, advance, st0; simpl.
    rewrite extend_at_fresh. now destruct o as [[]|e].
Qed.

(** X4: an XSS scan with the parameters [d] that returns has sent one
    probe for every payload and every parameter in the order of the two
    loops, payloads outermost, each to the base URL with redirects off
    and the parameter replaced by the payload; every probe was answered
    or failed with a [RequestException]; the list returned holds, in that
    order, one entry for each probe that was answered with a body
    containing the payload, and nothing else. *)
Theorem xss_scan_probes_and_entries
        (target_url : string) (params : option (dict string))
        (d : dict string) (st : State World) (fs : list Finding) :
  let r := XSSScanner_scan http check_bracketed_netloc checknetloc unquote
             target_url params st in
  let pairs := trial_pairs Config.XSS_PAYLOADS d in
  resolve_params check_bracketed_netloc checknetloc unquote target_url params
  = Ret d ->
  returned r = Ret fs ->
  exists answers,
    List.length answers = List.length pairs
    /\ List.length pairs = (5 * List.length (PyDict.keys d))%nat
    /\ exchanges st r
       = map (fun pa =>
                (xss_probe_request target_url (timeout (self st)) d
                   (fst (fst pa)) (snd (fst pa)), answer_of (snd pa)))
             (combine pairs answers)
    /\ fs = concat
              (map (fun pa =>
                      xss_entries (fst (fst pa)) (snd (fst pa)) (snd pa))
                   (combine pairs answers)).
Proof.
  intros r pairs Hp Hr. subst r pairs. unfold trial_pairs.
  destruct d as [|kv d].
  - exists []. cbn [PyDict.keys map]. rewrite list_prod_nil_r.
    assert (E : XSSScanner_scan http check_bracketed_netloc checknetloc
                  unquote target_url params st = gated st).
    { unfold XSSScanner_scan. rewrite bind_run; simpl. rewrite bind_run.
      unfold params_or_extract, lift. now rewrite Hp. }
    rewrite E, gated_returned in Hr. apply Ret_inj in Hr. subst fs.
    rewrite E, gated_exchanges. repeat split.
  - destruct (XSSScanner_scan_outcome target_url params kv d st Hp)
      as (o & w & tr & fs' & E & HS).
    rewrite E in Hr |- *. destruct o as [[]|e]; [|discriminate Hr].
    unfold returned in Hr; simpl in Hr. rewrite deref_fresh in Hr.
    apply Ret_inj in Hr. subst fs'.
    apply segs_prod in HS.
    apply (segs_answers _
             (fun p answer =>
                [(xss_probe_request target_url (timeout (self st)) (kv :: d)
                    (fst p) (snd p), answer_of answer)])
             (fun p answer => xss_entries (fst p) (snd p) answer)) in HS;
      [|intros x tr0 fs0 H; exact H].
    destruct HS as (answers & Hlen & -> & ->).
    exists answers. split; [exact Hlen|]. split.
    { rewrite length_prod. reflexivity. }
    split; [|reflexivity].
    erewrite exchanges_app; [|reflexivity].
    generalize (combine (list_prod Config.XSS_PAYLOADS
                           (PyDict.keys (kv :: d))) answers).
    intros l. induction l as [|pa l IH]; simpl;
      [reflexivity|now rewrite IH].
Qed.

End XSSScanner.

Lemma xss_scan_probes_and_entries_witness :
  let st := Example.counting 10 in
  let target_url := "http://example.com/search?name=test&id=1" in
  let d := [("name", "test"); ("id", "1")] in
  let r := XSSScanner_scan Example.strict_timeout
             Example.accept Example.accept Example.identity
             target_url None st in
  let pairs := trial_pairs Config.XSS_PAYLOADS d in
  exists answers,
    List.length answers = List.length pairs
    /\ List.length pairs = (5 * List.length (PyDict.keys d))%nat
    /\ exchanges st r
       = map (fun pa =>
                (xss_probe_request target_url 10 d
                   (fst (fst pa)) (snd (fst pa)), answer_of (snd pa)))
             (combine pairs answers)
    /\ match returned r with Ret fs => fs | Raise _ => [] end
       = concat
           (map (fun pa =>
                   xss_entries (fst (fst pa)) (snd (fst pa)) (snd pa))
                (combine pairs answers)).
Proof.
  intros st target_url d r pairs.
  apply (xss_scan_probes_and_entries Example.strict_timeout
           Example.accept Example.accept Example.identity
           target_url None d st
           (match returned r with Ret fs => fs | Raise _ => [] end)).
  - reflexivity.
  - vm_compute. reflexivity.
Defined.

(** ** The trials of the SQLi scanner *)

Section SQLiAnswers.

Context {World : Type}.
Variable http : Request -> World -> outcome Response * World.
Variable check_bracketed_netloc : string -> bool.
Variable checknetloc : string -> bool.
Variable unquote : string -> string.

Lemma sqli_trial_answers (target_url : string) (t : Z) (d : dict string)
      (payload param : string) (tr : list Exchange) (fs : list Finding) :
  sqli_trial target_url t d payload param tr fs ->
  exists answers,
    tr = sqli_trial_exchanges target_url t d payload param answers
    /\ fs = sqli_trial_entries payload param answers.
Proof.
  intros [[-> ->]|(response & v & original & Hv & Hc & -> & ->)].
  - now exists None.
  - destruct original as [original_response|e].
    + exists (Some (response, Some original_response)). simpl.
      now rewrite Hv.
    + rewrite (Hc e eq_refl).
      exists (Some (response, None)). simpl. now rewrite Hv.
Qed.

Lemma error_based_entries_length (payload param : string) (r : Response) :
  (List.length (error_based_entries payload param r) <= 1)%nat.
Proof. unfold error_based_entries. destruct (find _ _); simpl; lia. Qed.

Lemma boolean_based_entries_length (payload param : string) (r : Response)
      (original : outcome Response) :
  (List.length (boolean_based_entries payload param r original) <= 1)%nat.
Proof.
  unfold boolean_based_entries. destruct original; simpl; [|lia].
  destruct (_ >? _)%Z; simpl; lia.
Qed.

(** X5: an SQLi scan with the parameters [d] that returns has run one
    trial for every payload and every parameter in the order of the two
    loops, payloads outermost.  A trial whose probe fails with a
    [RequestException] logs that one request and appends nothing; a trial
    whose probe is answered logs the probe and the baseline request and
    appends the error-based entry, if any, then the boolean-based entry,
    if any, whether or not the error-based check matched.  So a returning
    scan of [n] parameters has sent between [6 n] and [12 n] requests and
    returns at most [12 n] entries. *)
Theorem sqli_scan_trials
        (target_url : string) (params : option (dict string))
        (d : dict string) (st : State World) (fs : list Finding) :
  let r := SQLiScanner_scan http check_bracketed_netloc checknetloc unquote
             target_url params st in
  let t := timeout (self st) in
  let pairs := trial_pairs Config.SQLI_PAYLOADS d in
  resolve_params check_bracketed_netloc checknetloc unquote target_url params
  = Ret d ->
  returned r = Ret fs ->
  exists answers,
    List.length answers = List.length pairs
    /\ List.length pairs = (6 * List.length (PyDict.keys d))%nat
    /\ exchanges st r
       = concat
           (map (fun pa =>
                   sqli_trial_exchanges target_url t d
                     (fst (fst pa)) (snd (fst pa)) (snd pa))
                (combine pairs answers))
    /\ fs = concat
              (map (fun pa =>
                      sqli_trial_entries (fst (fst pa)) (snd (fst pa))
                        (snd pa))
                   (combine pairs answers))
    /\ (List.length pairs <= List.length (exchanges st r)
        <= 2 * List.length pairs)%nat
    /\ (List.length fs <= 2 * List.length pairs)%nat.
Proof.
  intros r t pairs Hp Hr. subst r t pairs. unfold trial_pairs.
  destruct d as [|kv d'].
  - exists []. cbn [PyDict.keys map]. rewrite list_prod_nil_r.
    assert (E : SQLiScanner_scan http check_bracketed_netloc checknetloc
                  unquote target_url params st = gated st).
    { unfold SQLiScanner_scan. rewrite bind_run; simpl. rewrite bind_run.
      unfold params_or_extract, lift. now rewrite Hp. }
    rewrite E, gated_returned in Hr. apply Ret_inj in Hr. subst fs.
    rewrite E, gated_exchanges. simpl. repeat split; lia.
  - destruct (SQLiScanner_scan_outcome http _ _ _ target_url params kv d' st
                Hp) as (o & w & tr & fs' & E & HS).
    rewrite E in Hr |- *. destruct o as [[]|e]; [|discriminate Hr].
    unfold returned in Hr; simpl in Hr. rewrite deref_fresh in Hr.
    apply Ret_inj in Hr. subst fs'.
    erewrite exchanges_app; [|reflexivity].
    apply segs_prod in HS.
    apply (segs_answers _
             (fun p answers =>
                sqli_trial_exchanges target_url (timeout (self st))
                  (kv :: d') (fst p) (snd p) answers)
             (fun p answers => sqli_trial_entries (fst p) (snd p) answers))
      in HS; [|intros x tr0 fs0 H; now apply sqli_trial_answers].
    destruct HS as (answers & Hlen & Htr & Hfs).
    exists answers.
    assert (Hc : List.length
                   (combine (list_prod Config.SQLI_PAYLOADS
                               (PyDict.keys (kv :: d'))) answers)
                 = List.length (list_prod Config.SQLI_PAYLOADS
                                  (PyDict.keys (kv :: d')))).
    { rewrite length_combine, Hlen. apply Nat.min_id. }
    split; [exact Hlen|]. split; [now rewrite length_prod|].
    split; [exact Htr|]. split; [exact Hfs|].
    rewrite <- Hc. split; [split|].
    + rewrite Htr. rewrite <- (Nat.mul_1_l (List.length (combine _ _))).
      apply concat_length_ge. intros [[p k] [[r' o]|]]; simpl; lia.
    + rewrite Htr. apply concat_length_le.
      intros [[p k] [[r' o]|]]; simpl; lia.
    + rewrite Hfs. apply concat_length_le.
      intros [[p k] [[r' o]|]]; simpl; [|lia]. rewrite length_app.
      pose proof (error_based_entries_length p k r').
      pose proof (boolean_based_entries_length p k r' (answer_of o)). lia.
Qed.

End SQLiAnswers.

Lemma sqli_scan_trials_witness :
  let st := Example.fresh 10 in
  let target_url := "http://example.com/?id=1&page=2" in
  let d := [("id", "1"); ("page", "2")] in
  let r := SQLiScanner_scan Example.padded_page Example.accept
             Example.accept Example.identity target_url None st in
  let fs := match returned r with Ret fs => fs | Raise _ => [] end in
  let pairs := trial_pairs Config.SQLI_PAYLOADS d in
  exists answers,
    List.length answers = List.length pairs
    /\ List.length pairs = (6 * List.length (PyDict.keys d))%nat
    /\ exchanges st r
       = concat
           (map (fun pa =>
                   sqli_trial_exchanges target_url 10 d
                     (fst (fst pa)) (snd (fst pa)) (snd pa))
                (combine pairs answers))
    /\ fs = concat
              (map (fun pa =>
                      sqli_trial_entries (fst (fst pa)) (snd (fst pa))
                        (snd pa))
                   (combine pairs answers))
    /\ (List.length pairs <= List.length (exchanges st r)
        <= 2 * List.length pairs)%nat
    /\ (List.length fs <= 2 * List.length pairs)%nat.
Proof.
  intros st target_url d r fs pairs.
  apply (sqli_scan_trials Example.padded_page Example.accept Example.accept
           Example.identity target_url None d st fs).
  - reflexivity.
  - vm_compute. reflexivity.
Defined.

(** ** What escapes the XSS and SQLi scans *)

Section GatedScansRaise.

Context {World : Type}.
Variable http : Request -> World -> outcome Response * World.
Variable check_bracketed_netloc : string -> bool.
Variable checknetloc : string -> bool.
Variable unquote : string -> string.





End GatedScansRaise.


(** ** The two checks of the HTTP scanner *)

Lemma mem_set {V} (d : dict V) (k k0 : string) (v : V) :
  PyDict.mem k (PyDict.set d k0 v) = PyDict.mem k d || String.eqb k k0.
Proof.
  unfold PyDict.mem at 1. rewrite set_keys.
  destruct (PyDict.mem k0 d) eqn:E.
  - fold (PyDict.mem k d).
    destruct (String.eqb_spec k k0) as [->|_];
      [now rewrite E | now rewrite orb_false_r].
  - rewrite existsb_app. simpl. now rewrite orb_false_r.
Qed.

Lemma mem_lowered (hs : dict string) (acc : dict string) (k : string) :
  PyDict.mem k
    (fold_left (fun d '(k0, v) => PyDict.set d (PyStr.lower k0) v) hs acc)
  = PyDict.mem k acc
    || existsb (fun kv => String.eqb (PyStr.lower (fst kv)) k) hs.
Proof.
  revert acc. induction hs as [|[k0 v] hs IH]; intros acc; simpl.
  - now rewrite orb_false_r.
  - rewrite IH, mem_set, (String.eqb_sym k). now rewrite orb_assoc.
Qed.

Lemma header_absent_mem (response : Response) (header : string) :
  negb (PyDict.mem (PyStr.lower header) (lowered_headers response))
  = header_absent response header.
Proof.
  unfold lowered_headers, header_absent. rewrite mem_lowered. simpl.
  induction (headers response) as [|kv hs IH]; simpl; [reflexivity|].
  rewrite negb_orb. now rewrite IH.
Qed.

Lemma filter_map_all {A} (q : Finding -> bool) (f : A -> Finding)
      (xs : list A) :
  (forall x, q (f x) = true) -> filter q (map f xs) = map f xs.
Proof.
  intros H. induction xs as [|x xs IH]; simpl; [reflexivity|].
  now rewrite H, IH.
Qed.

Lemma filter_map_none {A} (q : Finding -> bool) (f : A -> Finding)
      (xs : list A) :
  (forall x, q (f x) = false) -> filter q (map f xs) = [].
Proof.
  intros H. induction xs as [|x xs IH]; simpl; [reflexivity|].
  now rewrite H, IH.
Qed.

Section HTTPChecks.

Context {World : Type}.
Variable http : Request -> World -> outcome Response * World.

(** what the scan comes to, by what its requests came to *)
Lemma HTTPScanner_returned (target_url : string)
      (params : option (dict string)) (st : State World) :
  let get := {| req_method := GET; req_url := target_url; req_params := [];
                req_timeout := timeout (self st);
                allow_redirects := true |} in
  let options := {| req_method := OPTIONS; req_url := target_url;
                    req_params := []; req_timeout := timeout (self st);
                    allow_redirects := true |} in
  let r := HTTPScanner_scan http target_url params st in
  match http get (world st) with
  | (Raise e, w) =>
      returned r = unless_caught e [] /\ exchanges st r = [(get, Raise e)]
  | (Ret response, w) =>
      let missing :=
        map (fun header =>
               missing_header_vulnerability target_url header response)
            (filter (fun header =>
                       negb (PyDict.mem (PyStr.lower header)
                               (lowered_headers response)))
                    Config.REQUIRED_SECURITY_HEADERS) in
      match http options w with
      | (Raise e, _) =>
          returned r = unless_caught e missing
          /\ exchanges st r = [(get, Ret response); (options, Raise e)]
      | (Ret options_response, _) =>
          returned r
          = Ret (missing
                 ++ map (fun method =>
                           insecure_method_vulnerability target_url method
                             options_response)
                      (filter (fun method =>
                                 existsb (String.eqb method)
                                   (PyStr.split ", "
                                      (headers_get
                                         (headers options_response)
                                         "Allow" "")))
                              Config.FORBIDDEN_HTTP_METHODS))
          /\ exchanges st r
             = [(get, Ret response); (options, Ret options_response)]
      end
  end.
Proof.
  intros get options r. subst r.
  pose proof (HTTPScanner_scan_run http target_url params st) as E.
  cbv zeta in E. fold get options in E. rewrite E. clear E.
  destruct (http get (world st)) as [[response|e] w].
  - cbv zeta. destruct (http options w) as [[options_response|e] w'];
      (split; [|erewrite exchanges_app; reflexivity]).
    + unfold returned, advance; simpl.
      now rewrite extend_at_fresh, deref_fresh.
    + destruct e; unfold returned, advance; simpl;
        rewrite ?extend_at_fresh, ?deref_fresh; reflexivity.
  - split; [|erewrite exchanges_app; reflexivity].
    destruct e; unfold returned, advance; simpl;
      rewrite ?extend_at_fresh, ?deref_fresh; reflexivity.
Qed.

Lemma unless_caught_Ret {A} (e : exn) (a b : A) :
  unless_caught e a = Ret b -> e = RequestException /\ a = b.
Proof. destruct e; simpl; intros [= <-]; auto. Qed.

Lemma unless_caught_Raise {A} (e e' : exn) (a : A) :
  unless_caught e a = Raise e' -> e' = e /\ e <> RequestException.
Proof. destruct e; simpl; intros [= <-]; split; congruence. Qed.

(** X7: when the GET of an HTTP scan is answered, the missing-header
    entries of the returned list are, in the order of the configured
    list, one for each required header that no field of the response
    carries under any spelling of its case, and none for a header the
    response carries; the method check adds no such entry. *)
Theorem http_missing_headers_case_insensitive
        (target_url : string) (params : option (dict string))
        (st : State World) (response : Response) (w : World)
        (fs : list Finding) :
  http {| req_method := GET; req_url := target_url; req_params := [];
          req_timeout := timeout (self st); allow_redirects := true |}
       (world st) = (Ret response, w) ->
  returned (HTTPScanner_scan http target_url params st) = Ret fs ->
  filter (fun f => has_str f "issue" "Missing Security Header") fs
  = map (fun header =>
           missing_header_vulnerability target_url header response)
        (filter (header_absent response) Config.REQUIRED_SECURITY_HEADERS).
Proof.
  intros Hget Hr.
  pose proof (HTTPScanner_returned target_url params st) as H.
  cbv zeta in H. rewrite Hget in H.
  assert (Hm : filter (fun f => has_str f "issue" "Missing Security Header")
                 (map (fun header =>
                         missing_header_vulnerability target_url header
                           response)
                      (filter (fun header =>
                                 negb (PyDict.mem (PyStr.lower header)
                                         (lowered_headers response)))
                              Config.REQUIRED_SECURITY_HEADERS))
               = map (fun header =>
                        missing_header_vulnerability target_url header
                          response)
                     (filter (header_absent response)
                             Config.REQUIRED_SECURITY_HEADERS)).
  { rewrite filter_map_all by reflexivity. f_equal.
    apply filter_ext. intros h. apply header_absent_mem. }
  match type of H with
  | match ?x with _ => _ end => destruct x as [[options_response|e] w']
  end; destruct H as [H _]; rewrite H in Hr.
  - apply Ret_inj in Hr. subst fs.
    rewrite filter_app, Hm, filter_map_none by reflexivity.
    apply app_nil_r.
  - apply unless_caught_Ret in Hr as [_ <-]. exact Hm.
Qed.

(** X8: an HTTP scan sends the GET and, only when the GET is answered,
    one OPTIONS request after it, and nothing else.  A
    [RequestException] of either request is caught: after one of the GET
    the scan returns an empty list.  Any other exception the client
    raises on one of the two requests escapes the scan, and nothing else
    does.  A scan that returns returns at most seven entries, and the
    [params] argument changes nothing. *)
Theorem http_scan_outcomes
        (target_url : string) (params : option (dict string))
        (st : State World) :
  let get := {| req_method := GET; req_url := target_url; req_params := [];
                req_timeout := timeout (self st);
                allow_redirects := true |} in
  let options := {| req_method := OPTIONS; req_url := target_url;
                    req_params := []; req_timeout := timeout (self st);
                    allow_redirects := true |} in
  let r := HTTPScanner_scan http target_url params st in
  (forall fs, returned r = Ret fs -> (List.length fs <= 7)%nat)
  /\ (forall e,
        fst r = Raise e ->
        e <> RequestException
        /\ (exchanges st r = [(get, Raise e)]
            \/ exists response,
                 exchanges st r = [(get, Ret response); (options, Raise e)]))
  /\ (forall e,
        fst (http get (world st)) = Raise e ->
        exchanges st r = [(get, Raise e)]
        /\ returned r = unless_caught e [])
  /\ (forall response w,
        http get (world st) = (Ret response, w) ->
        exchanges st r
        = [(get, Ret response); (options, fst (http options w))]
        /\ forall e,
             fst (http options w) = Raise e ->
             e <> RequestException -> fst r = Raise e)
  /\ r = HTTPScanner_scan http target_url None st.
Proof.
  intros get options r. subst r.
  pose proof (HTTPScanner_returned target_url params st) as H.
  cbv zeta in H. fold get options in H.
  assert (Hlen : forall (A : Type) (q : string -> bool) (f : string -> A)
                        (l : list string),
             (List.length (map f (filter q l)) <= List.length l)%nat).
  { intros A q f l. rewrite length_map. apply filter_length_le. }
  assert (Hraise : forall e,
             returned (HTTPScanner_scan http target_url params st) = Raise e
             <-> fst (HTTPScanner_scan http target_url params st) = Raise e).
  { intros e. unfold returned.
    destruct (fst (HTTPScanner_scan http target_url params st));
      split; congruence. }
  split; [|split; [|split; [|split; [|reflexivity]]]].
  - intros fs Hr.
    destruct (http get (world st)) as [[response|e] w].
    + pose proof (Hlen Finding
                    (fun header =>
                       negb (PyDict.mem (PyStr.lower header)
                               (lowered_headers response)))
                    (fun header =>
                       missing_header_vulnerability target_url header
                         response)
                    Config.REQUIRED_SECURITY_HEADERS) as H1.
      destruct (http options w) as [[options_response|e] w'];
        destruct H as [H _]; rewrite H in Hr.
      * apply Ret_inj in Hr. subst fs. rewrite length_app.
        pose proof (Hlen Finding
                      (fun method =>
                         existsb (String.eqb method)
                           (PyStr.split ", "
                              (headers_get (headers options_response)
                                 "Allow" "")))
                      (fun method =>
                         insecure_method_vulnerability target_url method
                           options_response)
                      Config.FORBIDDEN_HTTP_METHODS) as H2.
        simpl List.length in H1, H2 |- *. lia.
      * apply unless_caught_Ret in Hr as [_ <-].
        simpl List.length in H1 |- *. lia.
    + destruct H as [H _]. rewrite H in Hr.
      apply unless_caught_Ret in Hr as [_ <-]. simpl; lia.
  - intros e He. apply Hraise in He.
    destruct (http get (world st)) as [[response|e0] w].
    + destruct (http options w) as [[options_response|e0] w'];
        destruct H as [H Hx]; rewrite H in He; [discriminate He|].
      apply unless_caught_Raise in He as [-> Hne].
      split; [exact Hne|]. right. now exists response.
    + destruct H as [H Hx]. rewrite H in He.
      apply unless_caught_Raise in He as [-> Hne].
      split; [exact Hne|]. now left.
  - intros e He.
    destruct (http get (world st)) as [[response|e0] w];
      cbn [fst] in He; [discriminate He|].
    injection He as ->. destruct H as [H Hx]. now split.
  - intros response w Hget. rewrite Hget in H.
    destruct (http options w) as [[options_response|e0] w'];
      destruct H as [H Hx]; (split; [exact Hx|]); cbn [fst];
      intros e He Hne; [discriminate He|].
    injection He as ->. apply Hraise. rewrite H.
    destruct e; try reflexivity. contradiction.
Qed.

End HTTPChecks.

Lemma http_missing_headers_case_insensitive_witness :
  let st := Example.fresh 10 in
  let response := {| status_code := 200; text := EmptyString;
                     url := "http://example.com";
                     headers := [("X-Frame-Options", "DENY")] |} in
  filter (fun f => has_str f "issue" "Missing Security Header")
         (match returned (HTTPScanner_scan Example.no_options
                            "http://example.com" None st)
          with Ret fs => fs | Raise _ => [] end)
  = map (fun header =>
           missing_header_vulnerability "http://example.com" header response)
        (filter (header_absent response) Config.REQUIRED_SECURITY_HEADERS).
Proof.
  intros st response.
  apply (http_missing_headers_case_insensitive Example.no_options
           "http://example.com" None st response tt).
  - reflexivity.
  - vm_compute. reflexivity.
Defined.

Lemma http_scan_outcomes_witness :
  let st := Example.counting 0 in
  let get := {| req_method := GET; req_url := "http://example.com";
                req_params := []; req_timeout := 0;
                allow_redirects := true |} in
  let r := HTTPScanner_scan Example.strict_timeout "http://example.com"
             None st in
  exchanges st r = [(get, Raise ValueError)]
  /\ returned r = Raise ValueError.
Proof.
  intros st get r.
  apply (proj1 (proj2 (proj2
           (http_scan_outcomes Example.strict_timeout "http://example.com"
              None st))) ValueError).
  reflexivity.
Defined.

Lemma headers_get_absent (hs : dict string) (name default : string) :
  forallb (fun kv => negb (String.eqb (PyStr.lower (fst kv))
                                      (PyStr.lower name))) hs = true ->
  headers_get hs name default = default.
Proof.
  induction hs as [|[k v] hs IH]; simpl; [reflexivity|].
  intros H. apply andb_prop in H as [H1 H2].
  apply negb_true_iff in H1. rewrite H1. auto.
Qed.

(** under the invariant of the [CaseInsensitiveDict], the lookup finds
    the one field whose name matches, wherever it stands *)
Lemma headers_get_field (hs : dict string) (name default k v : string) :
  distinct_up_to_case hs ->
  In (k, v) hs -> PyStr.lower k = PyStr.lower name ->
  headers_get hs name default = v.
Proof.
  unfold distinct_up_to_case.
  induction hs as [|[k0 v0] hs IH]; simpl; [tauto|].
  intros Hnd Hin Hk. apply NoDup_cons_iff in Hnd as [Hk0 Hnd].
  destruct (String.eqb_spec (PyStr.lower k0) (PyStr.lower name))
    as [Heq|Hne].
  - destruct Hin as [[= -> ->]|Hin]; [reflexivity|].
    exfalso. apply Hk0. rewrite Heq, <- Hk.
    change (PyStr.lower k) with (PyStr.lower (fst (k, v))).
    now apply (in_map (fun kv => PyStr.lower (fst kv))).
  - destruct Hin as [[= -> ->]|Hin]; [contradiction|]. now apply IH.
Qed.

Section HTTPMethods.

Context {World : Type}.
Variable http : Request -> World -> outcome Response * World.

(** X9: when both requests of an HTTP scan are answered, the
    insecure-method entries of the returned list are read off the field
    of the OPTIONS response that is named [Allow] in any spelling of its
    case: in the order TRACE, TRACK, one for each of the two that is an
    item of the value of that field split at comma-space, compared as it
    is written; each carries the status code of the OPTIONS response; and
    a response without such a field gives none.  The fields of the
    response have names that are distinct up to case, as in the
    [CaseInsensitiveDict] of [requests]. *)
Theorem http_insecure_methods
        (target_url : string) (params : option (dict string))
        (st : State World) (response options_response : Response)
        (w w' : World) (fs : list Finding) :
  http {| req_method := GET; req_url := target_url; req_params := [];
          req_timeout := timeout (self st); allow_redirects := true |}
       (world st) = (Ret response, w) ->
  http {| req_method := OPTIONS; req_url := target_url; req_params := [];
          req_timeout := timeout (self st); allow_redirects := true |}
       w = (Ret options_response, w') ->
  distinct_up_to_case (headers options_response) ->
  returned (HTTPScanner_scan http target_url params st) = Ret fs ->
  (forall name value,
     In (name, value) (headers options_response) ->
     PyStr.lower name = "allow" ->
     filter (fun f => has_str f "issue" "Insecure HTTP Method Enabled") fs
     = map (fun method =>
              insecure_method_vulnerability target_url method
                options_response)
           (filter (fun method =>
                      existsb (String.eqb method) (PyStr.split ", " value))
                   Config.FORBIDDEN_HTTP_METHODS))
  /\ (forall f,
        In f fs -> has_str f "issue" "Insecure HTTP Method Enabled" = true ->
        PyDict.get f "status_code"
        = Some (PInt (status_code options_response)))
  /\ (header_absent options_response "Allow" = true ->
      filter (fun f => has_str f "issue" "Insecure HTTP Method Enabled") fs
      = []).
Proof.
  intros Hget Hopt Hwf Hr.
  pose proof (HTTPScanner_returned http target_url params st) as H.
  cbv zeta in H. rewrite Hget, Hopt in H. destruct H as [H _].
  rewrite H in Hr. apply Ret_inj in Hr. subst fs.
  set (allowed_methods :=
         PyStr.split ", "
           (headers_get (headers options_response) "Allow" "")).
  assert (E : filter (fun f => has_str f "issue"
                                 "Insecure HTTP Method Enabled")
                (map (fun header =>
                        missing_header_vulnerability target_url header
                          response)
                     (filter (fun header =>
                                negb (PyDict.mem (PyStr.lower header)
                                        (lowered_headers response)))
                             Config.REQUIRED_SECURITY_HEADERS)
                 ++ map (fun method =>
                           insecure_method_vulnerability target_url method
                             options_response)
                      (filter (fun method =>
                                 existsb (String.eqb method) allowed_methods)
                              Config.FORBIDDEN_HTTP_METHODS))
              = map (fun method =>
                       insecure_method_vulnerability target_url method
                         options_response)
                    (filter (fun method =>
                               existsb (String.eqb method) allowed_methods)
                            Config.FORBIDDEN_HTTP_METHODS)).
  { rewrite filter_app, filter_map_none, filter_map_all by reflexivity.
    reflexivity. }
  split; [|split].
  - intros name value Hin Hname. rewrite E. unfold allowed_methods.
    now rewrite (headers_get_field _ "Allow" "" name value Hwf Hin Hname).
  - intros f Hf Hq. apply in_app_or in Hf as [Hf|Hf];
      apply in_map_iff in Hf as (x & <- & _); [discriminate Hq|reflexivity].
  - intros Habs. rewrite E. unfold allowed_methods, header_absent in *.
    rewrite (headers_get_absent _ _ _ Habs). reflexivity.
Qed.

End HTTPMethods.

Lemma http_insecure_methods_witness :
  let st := Example.fresh 10 in
  let options_response :=
    {| status_code := 204; text := EmptyString;
       url := "http://example.com";
       headers := [("Content-Length", "0");
                   ("allow", "GET, TRACE, OPTIONS")] |} in
  let fs := match returned (HTTPScanner_scan Example.tracing
                              "http://example.com" None st)
            with Ret fs => fs | Raise _ => [] end in
  filter (fun f => has_str f "issue" "Insecure HTTP Method Enabled") fs
  = [insecure_method_vulnerability "http://example.com" "TRACE"
       options_response].
Proof.
  intros st options_response fs.
  apply (proj1
           (http_insecure_methods Example.tracing
              "http://example.com" None st
              {| status_code := 200; text := EmptyString;
                 url := "http://example.com"; headers := [] |}
              options_response
              tt tt fs eq_refl eq_refl
              ltac:(repeat constructor; simpl; intuition discriminate)
              ltac:(vm_compute; reflexivity))
           "allow" "GET, TRACE, OPTIONS").
  - simpl. auto.
  - reflexivity.
Defined.

(** ** The requests of the Open-Redirect scanner *)

Section RedirectRequests.

Context {World : Type}.
Variable http : Request -> World -> outcome Response * World.
Variable check_bracketed_netloc : string -> bool.
Variable checknetloc : string -> bool.

(** X10: an Open-Redirect scan that returns has sent exactly seven
    requests, one for each configured parameter name in order: a GET
    with redirects on and no [params], to the base URL followed by the one
    query parameter set to the encoded malicious target.  The query string
    of the target URL is not sent.  The list it returns holds at most
    seven entries. *)
Theorem redirect_scan_requests
        (target_url : string) (params : option (dict string))
        (st : State World) (fs : list Finding) :
  let r := RedirectScanner_scan http check_bracketed_netloc checknetloc
             target_url params st in
  returned r = Ret fs ->
  map fst (exchanges st r)
  = map (fun param =>
           {| req_method := GET;
              req_url := (get_base_url target_url ++ "?" ++ param
                          ++ "=https%3A%2F%2Fmalicious-example.com")%string;
              req_params := []; req_timeout := timeout (self st);
              allow_redirects := true |})
        Config.REDIRECT_PARAMS
  /\ (List.length fs <= 7)%nat.
Proof.
  intros r Hr. subst r.
  pose proof (RedirectScanner_returned _ _ _ _ _ _ _ Hr) as HS.
  apply (segs_answers _
           (fun param answer =>
              [(redirect_request target_url (timeout (self st)) param,
                answer_of answer)])
           (fun param answer =>
              match answer with
              | Some response =>
                  match Urllib.urlparse check_bracketed_netloc checknetloc
                          (url response),
                        Urllib.urlparse check_bracketed_netloc checknetloc
                          Config.MALICIOUS_REDIRECT_TARGET with
                  | Ret pf, Ret pm =>
                      if String.eqb (Urllib.netloc pf) (Urllib.netloc pm)
                      then [open_redirect_vulnerability param
                              (redirect_test_url target_url param) response]
                      else []
                  | _, _ => []
                  end
              | None => []
              end)) in HS.
  - destruct HS as (answers & Hlen & Htr & Hfs). split.
    + rewrite Htr. clear Htr Hfs. simpl in Hlen.
      do 8 (destruct answers as [|? answers]; try discriminate Hlen).
      reflexivity.
    + rewrite Hfs. clear Htr Hfs. simpl in Hlen.
      do 8 (destruct answers as [|? answers]; try discriminate Hlen).
      cbn [combine map concat Config.REDIRECT_PARAMS fst snd].
      rewrite !length_app.
      repeat match goal with
             | |- context [match ?o with Some _ => _ | None => _ end] =>
                 destruct o
             | |- context [match ?o with Ret _ => _ | Raise _ => _ end] =>
                 destruct o
             | |- context [if ?b then _ else _] => destruct b
             end; simpl; lia.
  - intros param tr0 fs0 [[-> ->]|(response & pf & pm & Hpf & Hpm & -> & ->)].
    + now exists None.
    + exists (Some response). now rewrite Hpf, Hpm.
Qed.

(** X11: an exception leaves an Open-Redirect scan in three cases only.
    The target URL does not parse: the [ValueError] of [urlparse]
    escapes before anything is sent.  A request was answered and the
    final URL of the response does not parse: that [ValueError] escapes
    right after the request.  Or the HTTP client raised, on the last
    request sent, an exception that is not a [RequestException]: that
    exception escapes.  A [RequestException] never does. *)
Theorem redirect_scan_escapes
        (target_url : string) (params : option (dict string))
        (st : State World) :
  let r := RedirectScanner_scan http check_bracketed_netloc checknetloc
             target_url params st in
  (forall e,
     fst r = Raise e ->
     e <> RequestException
     /\ ((e = ValueError
          /\ Urllib.urlparse check_bracketed_netloc checknetloc target_url
             = Raise ValueError
          /\ exchanges st r = [])
         \/ escaped e (exchanges st r)
         \/ (e = ValueError
             /\ exists before request response,
                  exchanges st r = before ++ [(request, Ret response)]
                  /\ (Urllib.urlparse check_bracketed_netloc checknetloc
                        (url response) = Raise ValueError
                      \/ Urllib.urlparse check_bracketed_netloc checknetloc
                           Config.MALICIOUS_REDIRECT_TARGET
                         = Raise ValueError))))
  /\ (Urllib.urlparse check_bracketed_netloc checknetloc target_url
      = Raise ValueError ->
      fst r = Raise ValueError /\ exchanges st r = []).
Proof.
  intros r. subst r.
  destruct (Urllib.urlparse check_bracketed_netloc checknetloc target_url)
    as [parsed|e0] eqn:Hu.
  - split; [|discriminate]. intros e He.
    destruct (RedirectScanner_scan_outcome http _ _ target_url params parsed
                st Hu) as (o & w & tr & fs & E & HS).
    rewrite E in He |- *. erewrite exchanges_app; [|reflexivity].
    destruct o as [[]|e1]; [discriminate He|]. injection He as ->.
    destruct HS as [HS|(-> & HS)].
    + split; [exact (proj1 HS)|]. right. now left.
    + split; [discriminate|]. right. right. now split.
  - pose proof (urlparse_raises _ _ _ _ Hu) as ->.
    assert (E : RedirectScanner_scan http check_bracketed_netloc checknetloc
                  target_url params st
                = (Raise ValueError, snd (reset st))).
    { unfold RedirectScanner_scan. rewrite bind_run.
      change (reset st) with (Ret tt, snd (reset st)). cbv beta iota.
      rewrite bind_run. unfold lift at 1, urlparse. now rewrite Hu. }
    rewrite E. split.
    + intros e [= <-]. split; [discriminate|]. left.
      repeat split. now apply exchanges_none.
    + intros _. split; [reflexivity|]. now apply exchanges_none.
Qed.

End RedirectRequests.

Lemma redirect_scan_requests_witness :
  let st := Example.fresh 10 in
  let r := RedirectScanner_scan Example.redirecting Example.accept
             Example.accept "http://example.com/go?x=1" None st in
  map fst (exchanges st r)
  = map (fun param =>
           {| req_method := GET;
              req_url := ("http://example.com/go" ++ "?" ++ param
                          ++ "=https%3A%2F%2Fmalicious-example.com")%string;
              req_params := []; req_timeout := 10;
              allow_redirects := true |})
        Config.REDIRECT_PARAMS
  /\ (List.length (match returned r with Ret fs => fs | Raise _ => [] end)
      <= 7)%nat.
Proof.
  intros st r.
  apply (redirect_scan_requests Example.redirecting Example.accept
           Example.accept "http://example.com/go?x=1" None st
           (match returned r with Ret fs => fs | Raise _ => [] end)).
  vm_compute. reflexivity.
Defined.

Lemma redirect_scan_escapes_witness :
  let st := Example.counting 0 in
  let r := RedirectScanner_scan Example.strict_timeout Example.accept
             Example.accept "http://example.com/go?x=1" None st in
  fst r = Raise ValueError /\ escaped ValueError (exchanges st r).
Proof.
  intros st r. split; [reflexivity|].
  destruct (proj1 (redirect_scan_escapes Example.strict_timeout
                     Example.accept Example.accept
                     "http://example.com/go?x=1" None st)
                  ValueError eq_refl)
    as [_ [(_ & H & _)|[H|(_ & before & request & response & H & _)]]].
  - vm_compute in H. discriminate H.
  - exact H.
  - exfalso. vm_compute in H.
    destruct before as [|x [|y before]]; discriminate H.
Defined.

(** ** The report generator *)

Section ReportFiles.

Context {Clock : Type}.
Variable now_isoformat : Clock -> string * Clock.
Variable html_content : dict pyobj -> string.
Variable makedirs_ok : string -> Env Clock -> bool.
Variable open_ok : string -> Env Clock -> bool.
Variable markup_ok : string -> bool.


End ReportFiles.


(** ** The registry and the orchestrator *)

Section Registry.

Context {World : Type}.

Lemma new_scanner_run (c : ScannerClass) (t : Z) (st : State World) :
  new_scanner c t st
  = (Ret {| class_of := c;
            attributes := {| timeout := t;
                             vulnerabilities := List.length (heap st) |} |},
     {| world := world st; heap := heap st ++ [[]]; self := self st;
        trace := trace st |}).
Proof. reflexivity. Qed.

(** X13: the registry finds every scanner class by its type tag, and by
    no other text: the tag of a class gives that class, a text that is
    the tag of no class (as [all]) gives [None].  The lookup makes
    throw-away scanner objects and touches nothing else: the network, the
    log and every list that existed are as before. *)
Theorem get_scanner_by_type_finds_by_tag (wanted : string)
        (st : State World) :
  let r := get_scanner_by_type wanted st in
  (forall c, wanted = scan_type c -> fst r = Ret (Some c))
  /\ ((forall c, wanted <> scan_type c) -> fst r = Ret None)
  /\ fst (get_scanner_by_type "all" st) = Ret None
  /\ world (snd r) = world st
  /\ trace (snd r) = trace st
  /\ self (snd r) = self st
  /\ exists n, heap (snd r) = heap st ++ repeat [] n.
Proof.
  intros r. subst r. split; [|split; [|split]].
  - intros c ->. destruct c; reflexivity.
  - intros H. unfold get_scanner_by_type, AVAILABLE_SCANNERS.
    cbn [get_scanner_by_type_from]. rewrite !bind_run, !new_scanner_run.
    cbn [class_of scan_type].
    destruct (String.eqb_spec "xss" wanted) as [E|_];
      [exfalso; apply (H XSSScanner); now rewrite <- E|].
    rewrite !bind_run, !new_scanner_run. cbn [class_of scan_type].
    destruct (String.eqb_spec "sqli" wanted) as [E|_];
      [exfalso; apply (H SQLiScanner); now rewrite <- E|].
    rewrite !bind_run, !new_scanner_run. cbn [class_of scan_type].
    destruct (String.eqb_spec "http" wanted) as [E|_];
      [exfalso; apply (H HTTPScanner); now rewrite <- E|].
    rewrite !bind_run, !new_scanner_run. cbn [class_of scan_type].
    destruct (String.eqb_spec "redirect" wanted) as [E|_];
      [exfalso; apply (H RedirectScanner); now rewrite <- E|].
    reflexivity.
  - reflexivity.
  - unfold get_scanner_by_type, AVAILABLE_SCANNERS.
    cbn [get_scanner_by_type_from]. rewrite !bind_run, !new_scanner_run.
    cbn [class_of scan_type].
    destruct (String.eqb "xss" wanted);
      [repeat split; exists 1%nat; reflexivity|].
    rewrite !bind_run, !new_scanner_run. cbn [class_of scan_type].
    destruct (String.eqb "sqli" wanted);
      [repeat split; exists 2%nat; cbn [heap repeat];
       now rewrite <- app_assoc|].
    rewrite !bind_run, !new_scanner_run. cbn [class_of scan_type].
    destruct (String.eqb "http" wanted);
      [repeat split; exists 3%nat; cbn [heap repeat];
       now rewrite <- !app_assoc|].
    rewrite !bind_run, !new_scanner_run. cbn [class_of scan_type].
    destruct (String.eqb "redirect" wanted);
      repeat split; exists 4%nat; cbn [heap repeat];
      now rewrite <- !app_assoc.
Qed.

End Registry.

Lemma deref_app_r (h l : list (list Finding)) (k : nat) :
  deref (h ++ l) (List.length h + k) = nth k l [].
Proof.
  unfold deref. rewrite app_nth2 by lia. f_equal. lia.
Qed.

Section ScannersToRun.

Context {World : Type}.

(** the scanners made for one class, and for all of them *)
Lemma new_scanners_run (t : Z) (st : State World) :
  new_scanners AVAILABLE_SCANNERS t st
  = (Ret (map (fun ck =>
                 {| class_of := fst ck;
                    attributes :=
                      {| timeout := t;
                         vulnerabilities := List.length (heap st) + snd ck |}
                 |})
              [(XSSScanner, 0); (SQLiScanner, 1); (HTTPScanner, 2);
               (RedirectScanner, 3)]%nat),
     {| world := world st; heap := heap st ++ [[]; []; []; []];
        self := self st; trace := trace st |}).
Proof.
  cbv [AVAILABLE_SCANNERS new_scanners bind new_scanner ret].
  cbn [heap world self trace map fst snd].
  rewrite !length_app. cbn [List.length].
  rewrite <- !app_assoc. cbn [app].
  rewrite <- ?Nat.add_assoc. cbn [Nat.add]. rewrite ?Nat.add_0_r.
  reflexivity.
Qed.

(** the lookup, as a search of the registry *)
Lemma get_scanner_by_type_run (wanted : string) (st : State World) :
  exists n,
    get_scanner_by_type wanted st
    = (Ret (hd_error (filter (fun c => String.eqb (scan_type c) wanted)
                             AVAILABLE_SCANNERS)),
       {| world := world st; heap := heap st ++ repeat [] n;
          self := self st; trace := trace st |})
    /\ (List.length (filter (fun c => String.eqb (scan_type c) wanted)
                            AVAILABLE_SCANNERS) <= 1)%nat.
Proof.
  cbv [get_scanner_by_type AVAILABLE_SCANNERS get_scanner_by_type_from bind
       new_scanner ret].
  cbn [class_of scan_type heap world self trace filter].
  destruct (String.eqb_spec "xss" wanted) as [<-|H1].
  { exists 1%nat. split; [reflexivity|simpl; lia]. }
  destruct (String.eqb_spec "sqli" wanted) as [<-|H2].
  { exists 2%nat. split; [simpl; now rewrite <- app_assoc|simpl; lia]. }
  destruct (String.eqb_spec "http" wanted) as [<-|H3].
  { exists 3%nat. split; [simpl; now rewrite <- !app_assoc|simpl; lia]. }
  destruct (String.eqb_spec "redirect" wanted) as [<-|H4].
  { exists 4%nat. split; [simpl; now rewrite <- !app_assoc|simpl; lia]. }
  exists 4%nat. split; [simpl; now rewrite <- !app_assoc|simpl; lia].
Qed.

(** X14: [get_scanners_to_run] with [all] makes one scanner of every
    class, in the order of the registry; with the tag of a class it makes
    that scanner alone; with any other text it makes none.  Every scanner
    made has the timeout passed and an accumulator of its own: a new empty
    list that no other scanner made shares and that did not exist before.
    The network and the log are not touched. *)
Theorem get_scanners_to_run_instances (wanted : string) (t : Z)
        (st : State World) :
  let r := get_scanners_to_run wanted t st in
  exists scanners,
    fst r = Ret scanners
    /\ map class_of scanners
       = (if String.eqb wanted "all" then AVAILABLE_SCANNERS
          else filter (fun c => String.eqb (scan_type c) wanted)
                      AVAILABLE_SCANNERS)
    /\ Forall (fun scanner =>
                 timeout (attributes scanner) = t
                 /\ (List.length (heap st)
                     <= vulnerabilities (attributes scanner))%nat
                 /\ deref (heap (snd r))
                          (vulnerabilities (attributes scanner)) = [])
              scanners
    /\ NoDup (map (fun scanner => vulnerabilities (attributes scanner))
                  scanners)
    /\ world (snd r) = world st
    /\ trace (snd r) = trace st
    /\ firstn (List.length (heap st)) (heap (snd r)) = heap st.
Proof.
  intros r. subst r. unfold get_scanners_to_run.
  destruct (String.eqb wanted "all") eqn:Hall.
  - unfold get_all_scanners. rewrite new_scanners_run.
    eexists. split; [reflexivity|]. cbn [fst snd map class_of attributes
      timeout vulnerabilities heap world trace].
    split; [reflexivity|]. split.
    + repeat (apply Forall_cons;
              [cbn [attributes vulnerabilities timeout];
               split; [reflexivity|];
               split; [lia|rewrite deref_app_r; reflexivity]|]).
      apply Forall_nil.
    + split.
      * repeat constructor; simpl; lia.
      * repeat split. rewrite firstn_app, Nat.sub_diag, firstn_all.
        simpl. apply app_nil_r.
  - rewrite bind_run.
    destruct (get_scanner_by_type_run wanted st) as (n & E & Hlen).
    rewrite E. clear E.
    assert (Hfirst : forall l : list (list Finding),
               firstn (List.length (heap st)) (heap st ++ l) = heap st).
    { intros l. rewrite firstn_app, Nat.sub_diag, firstn_all. simpl.
      apply app_nil_r. }
    destruct (filter (fun c => String.eqb (scan_type c) wanted)
                     AVAILABLE_SCANNERS) as [|c [|c' l]];
      [| |simpl in Hlen; lia]; cbn [hd_error].
    + exists []. unfold ret. cbn [fst snd map heap world trace].
      repeat split; try constructor. apply Hfirst.
    + rewrite bind_run, new_scanner_run. unfold ret.
      eexists. split; [reflexivity|].
      cbn [fst snd map class_of attributes timeout vulnerabilities heap
             world trace].
      split; [reflexivity|]. split.
      * constructor; [|constructor]. split; [reflexivity|].
        rewrite length_app. cbn [attributes vulnerabilities].
        split; [lia|].
        rewrite <- app_assoc.
        rewrite (deref_app_r (heap st) (repeat [] n ++ [[]]) (List.length (repeat (@nil Finding) n))).
        rewrite app_nth2, Nat.sub_diag by lia. reflexivity.
      * split; [constructor; [intros []|constructor]|].
        repeat split. rewrite <- app_assoc. apply Hfirst.
Qed.

End ScannersToRun.

(** ** Validation before the scans *)

Section Orchestration.

Context {World : Type}.
Variable http : Request -> World -> outcome Response * World.
Variable check_bracketed_netloc : string -> bool.
Variable checknetloc : string -> bool.
Variable unquote : string -> string.



End Orchestration.

